(** * fishbAIT inference data pipeline

    A shallow embedding of [inference_utils/pytorch_data_utils.py]
    (the classes [PreProcessDataForInference], [Inference_dataset] and
    [BuildInferenceDataLoaderAndDataset]) and of the batch branch of the
    Predict handler of [app.py], followed by the properties of the
    pipeline that the specification states.

    Conventions of the embedding:
    - a pandas table is a [DataFrame]: the data rows in physical order
      (positional, so [reset_index().drop(columns='index')] is the
      identity on it), plus the columns the code attaches by
      [df[name] = ...], the canonical SMILES among them, kept in
      insertion order;
    - Python list objects that are passed by reference live in a store
      indexed by their identity, so that a mutation through one reference
      is seen through every other one;
    - a method is a state transformer over the store that either returns
      a value or raises; a raised exception keeps the mutations made
      before it;
    - numbers in indicator vectors are integers ([np.eye(.., dtype=int)]);
      the zero of [np.zeros] is written [0];
    - the numbers of a record are single precision floats, in the
      Standard Library's specification of IEEE 754 arithmetic;
    - a name the script of [app.py] reads without binding it is looked
      up in a namespace that says what a run finds bound. *)

From stdpp Require Import base option list strings gmap.
From Stdlib Require Import ZArith Lia.
From Stdlib Require SpecFloat.

Open Scope string_scope.
Open Scope list_scope.

(** ** Python values and exceptions *)

Inductive exn :=
  | Exception (msg : string)
  | ValueError (msg : string)
  | TypeError (msg : string)
  | OverflowError (msg : string)
  | KeyError (key : string)
  | IndexError
  | NameError (name : string).

Inductive outcome (A : Type) :=
  | Return (a : A)
  | Raise (e : exn).
Arguments Return {A} a.
Arguments Raise {A} e.

(** What the code prints, one constructor per [print] call. *)
Inductive message :=
  | Renamed_NOEC_EC10 (positions : nat)
  | Did_not_return_onehotencoding_for_Endpoint
  | Did_not_return_onehotencoding_for_Effect
  | Will_use_input_0_to_network.

(** [like in name], the test behind [DataFrame.filter(like=...)]. *)
Fixpoint startswith (p s : string) : bool :=
  match p, s with
  | EmptyString, _ => true
  | String a p', String b s' => bool_decide (a = b) && startswith p' s'
  | String _ _, EmptyString => false
  end.

Fixpoint str_contains (like s : string) : bool :=
  startswith like s ||
  match s with
  | EmptyString => false
  | String _ s' => str_contains like s'
  end.

(** [l.remove(x)]: deletes the first occurrence; [None] stands for the
    [ValueError] Python raises when [x] does not occur. *)
Fixpoint remove (x : string) (l : list string) : option (list string) :=
  match l with
  | [] => None
  | y :: l' => if decide (y = x) then Some l' else (y ::.) <$> remove x l'
  end.

(** [dict(pairs)]: pairs are inserted left to right, a later pair
    overrides an earlier one with the same key. *)
Definition dict {V} (pairs : list (string * V)) : gmap string V :=
  foldl (λ d kv, <[kv.1 := kv.2]> d) ∅ pairs.

(** ** numpy *)

(** Row [i] of [np.eye(n, dtype=int)]. *)
Definition eye_row (n i : nat) : list Z :=
  (λ j, if decide (j = i) then 1%Z else 0%Z) <$> seq 0 n.

(** [np.eye(n, dtype=int).tolist()] *)
Definition eye (n : nat) : list (list Z) := eye_row n <$> seq 0 n.

(** The arrays the assembler builds with [np.array([...])] from a column
    of vectors: an empty column gives the one-dimensional empty array of
    shape (0,), a column of equally long vectors a two-dimensional
    array. *)
Inductive array :=
  | Arr0
  | Arr2 (data : list (list Z)).

(** [np.array(vs)]; [None] stands for the [ValueError] numpy raises on
    vectors of different lengths (inhomogeneous shape). *)
Definition np_array (vs : list (list Z)) : option array :=
  match vs with
  | [] => Some Arr0
  | v :: vs' =>
      if forallb (λ u, bool_decide (length u = length v)) vs' then Some (Arr2 vs) else None
  end.

(** [np.concatenate((a, b), axis=1)]; [None] stands for the error raised
    when an operand has no axis 1 or the row counts differ. *)
Definition np_concatenate (a b : array) : option array :=
  match a, b with
  | Arr2 x, Arr2 y =>
      if bool_decide (length x = length y) then Some (Arr2 (zip_with app x y)) else None
  | _, _ => None
  end.

(** [a.tolist()] *)
Definition tolist (a : array) : list (list Z) :=
  match a with
  | Arr0 => []
  | Arr2 x => x
  end.

(** [np.zeros((n, 1)).tolist()] *)
Definition np_zeros (n : nat) : list (list Z) := replicate n [0%Z].

(** ** Tables *)

Record Row := mkRow {
  SMILES : string;
  exposure_duration : Z;
  endpoint : string;
  effect : string
}.

(** A cell of an attached column: the encoder stores numpy arrays, the
    assembler stores Python lists (the result of [.tolist()]), the
    canonicalisation stores strings. *)
Inductive cell :=
  | ndarray (v : list Z)
  | pylist (v : list Z)
  | text (s : string).

(** The numbers of a cell; a string holds none. *)
Definition cell_values (c : cell) : list Z :=
  match c with
  | ndarray v => v
  | pylist v => v
  | text _ => []
  end.

(** The data columns, row by row, and the columns attached to them, in
    the order of [df.columns]. *)
Record DataFrame := mkDataFrame {
  rows : list Row;
  attached : list (string * list cell)
}.

(** [len(df)] *)
Definition len (df : DataFrame) : nat := length (rows df).

(** [df[name]] for an attached column (and [row[name]] for its cell). *)
Fixpoint getitem {V} (name : string) (cols : list (string * V)) : option V :=
  match cols with
  | [] => None
  | (k, c) :: cols' => if decide (k = name) then Some c else getitem name cols'
  end.

(** [df[name] = col]: an existing column is overwritten in place, a new
    one is appended after the others. *)
Fixpoint setitem (name : string) (col : list cell)
    (cols : list (string * list cell)) : list (string * list cell) :=
  match cols with
  | [] => [(name, col)]
  | (k, c) :: cols' =>
      if decide (k = name) then (k, col) :: cols'
      else (k, c) :: setitem name col cols'
  end.

Definition attach (name : string) (col : list cell) (df : DataFrame)
  : DataFrame :=
  mkDataFrame (rows df) (setitem name col (attached df)).

(** [df.filter(like=s).columns.tolist()]: the data columns are called
    SMILES, exposure_duration, endpoint and effect; none of them contains
    OneHotEnc, the only pattern the code filters with, so the search runs
    over the attached columns, in their order. *)
Definition filter_like (like : string) (df : DataFrame) : list string :=
  (filter (λ kc, str_contains like kc.1 = true) (attached df)).*1.

(** The table a caller hands over: data rows, nothing attached. *)
Definition table (rs : list Row) : DataFrame := mkDataFrame rs [].

(** ** The store and the monad of methods *)

Abbreviation loc := positive.

Record Store := mkStore {
  lists : gmap loc (list string);  (* Python list objects, by identity *)
  dataframe : DataFrame;           (* self.dataframe *)
  stdout : list message
}.

Definition M (A : Type) : Type := Store → outcome A * Store.

#[export] Instance M_ret : MRet M := λ A a σ, (Return a, σ).
#[export] Instance M_bind : MBind M := λ A B f m σ,
  match m σ with
  | (Return a, σ') => f a σ'
  | (Raise e, σ') => (Raise e, σ')
  end.

Definition raise {A} (e : exn) : M A := λ σ, (Raise e, σ).

(** [try: body except: handler], with Python's bare [except]. *)
Definition try_except {A} (body handler : M A) : M A := λ σ,
  match body σ with
  | (Return a, σ') => (Return a, σ')
  | (Raise _, σ') => handler σ'
  end.

Definition pass : M unit := mret ().

Definition print (msg : message) : M unit := λ σ,
  (Return (), mkStore (lists σ) (dataframe σ) (stdout σ ++ [msg])).

Definition self_dataframe : M DataFrame := λ σ, (Return (dataframe σ), σ).

Definition set_self_dataframe (df : DataFrame) : M unit := λ σ,
  (Return (), mkStore (lists σ) df (stdout σ)).

(** Reading a list object through a reference. *)
Definition deref (r : loc) : M (list string) := λ σ,
  (Return (lists σ !!! r), σ).

(** [r.remove(x)] on the list object behind [r]. *)
Definition list_remove (r : loc) (x : string) : M unit := λ σ,
  match remove x (lists σ !!! r) with
  | Some l' => (Return (), mkStore (<[r := l']> (lists σ)) (dataframe σ) (stdout σ))
  | None => (Raise (ValueError "list.remove(x): x not in list"), σ)
  end.

(** [Series.apply(f)]: [f] on every element in order, stopping at the
    first exception. *)
Fixpoint apply {A B} (f : A → outcome B) (l : list A) : outcome (list B) :=
  match l with
  | [] => Return []
  | x :: l' =>
      match f x with
      | Raise e => Raise e
      | Return y =>
          match apply f l' with
          | Raise e => Raise e
          | Return ys => Return (y :: ys)
          end
      end
  end.

Definition lift {A} (o : outcome A) : M A := λ σ, (o, σ).

(** [hot_enc_dict[x]] wrapped in [np.array]. *)
Definition hot_enc (hot_enc_dict : gmap string (list Z)) (x : string)
  : outcome cell :=
  match hot_enc_dict !! x with
  | Some v => Return (ndarray v)
  | None => Raise (KeyError x)
  end.

(** ** PreProcessDataForInference *)

Definition set_endpoint (e : string) (r : Row) : Row :=
  mkRow (SMILES r) (exposure_duration r) e (effect r).

(** [sum(df['endpoint'] == 'NOEC')] *)
Definition count_NOEC (df : DataFrame) : nat :=
  length (filter (λ r, endpoint r = "NOEC") (rows df)).

(** [df.loc[df.endpoint == 'NOEC', 'endpoint'] = 'EC10'] *)
Definition rename_NOEC (df : DataFrame) : DataFrame :=
  mkDataFrame
    ((λ r, if decide (endpoint r = "NOEC") then set_endpoint "EC10" r else r)
       <$> rows df)
    (attached df).

(** [df.reset_index().drop(columns='index', axis=1)]: rows keep their
    physical order, which is all a positional table records. *)
Definition reset_index (df : DataFrame) : DataFrame := df.

Definition unexpected : string := "An unexpected error occurred.".

(** The first block of [__GetOneHotEndpoint]: the NOEC to EC10 merge. *)
Definition merge_NOEC (list_of_endpoints : loc) : M unit :=
  l ← deref list_of_endpoints;
  if bool_decide ("EC10" ∈ l) then
    df ← self_dataframe;
    _ ← print (Renamed_NOEC_EC10 (count_NOEC df));
    _ ← set_self_dataframe (rename_NOEC df);
    try_except (list_remove list_of_endpoints "NOEC") pass
  else pass.

Definition encoding_order : list string := ["EC50"; "EC10"].

Definition __GetOneHotEndpoint (list_of_endpoints : loc) : M DataFrame :=
  _ ← merge_NOEC list_of_endpoints;
  l ← deref list_of_endpoints;
  _ ← (if bool_decide (1 < length l) then
         let hot_enc_dict := dict (zip encoding_order (eye (length encoding_order))) in
         df ← self_dataframe;
         _ ← set_self_dataframe (reset_index df);
         try_except
           (df ← self_dataframe;
            encoded_clas ← lift (apply (hot_enc hot_enc_dict) (endpoint <$> rows df));
            set_self_dataframe (attach "OneHotEnc_endpoint" encoded_clas df))
           (raise (Exception unexpected))
       else print Did_not_return_onehotencoding_for_Endpoint);
  self_dataframe.

Definition __GetOneHotEffect (list_of_effects : loc) : M DataFrame :=
  l ← deref list_of_effects;
  _ ← (if bool_decide (1 < length l) then
         let hot_enc_dict := dict (zip l (eye (length l))) in
         df ← self_dataframe;
         _ ← set_self_dataframe (reset_index df);
         try_except
           (df ← self_dataframe;
            encoded_clas ← lift (apply (hot_enc hot_enc_dict) (effect <$> rows df));
            set_self_dataframe (attach "OneHotEnc_effect" encoded_clas df))
           (raise (Exception unexpected))
       else print Did_not_return_onehotencoding_for_Effect);
  self_dataframe.

(** [el.tolist()]: only a numpy array has the method; [None] stands for
    the [AttributeError] of a Python list or a string. *)
Definition cell_tolist (el : cell) : option (list Z) :=
  match el with
  | ndarray v => Some v
  | pylist _ => None
  | text _ => None
  end.

(** [np.array([el.tolist() for el in df[col].values])]; [None] stands
    for any exception: a missing column, a cell without [tolist],
    vectors of different lengths. *)
Definition column_array (df : DataFrame) (col : string) : option array :=
  cells ← getitem col (attached df);
  vs ← mapM cell_tolist cells;
  np_array vs.

(** One turn of the loop of [GetOneHotEnc]: the inner [try] appends
    column [idx+1] to [temp1], the inner [except: pass] keeps [temp1]. *)
Definition concat_next (df : DataFrame) (columns : list string)
    (temp1 : array) (idx : nat) : array :=
  default temp1
    (col ← columns !! (idx + 1);
     temp2 ← column_array df col;
     np_concatenate temp1 temp2).

(** [df[name] = values] for a Python list of values: pandas raises
    [ValueError] ([None]) unless there is one value per row. *)
Definition setitem_list (name : string) (values : list (list Z))
    (df : DataFrame) : option DataFrame :=
  if bool_decide (length values = len df)
  then Some (attach name (pylist <$> values) df)
  else None.

(** The body of the outer [try] of [GetOneHotEnc]. *)
Definition concatenate_columns (df : DataFrame) : option DataFrame :=
  let columns := filter_like "OneHotEnc" df in
  c0 ← columns !! 0;
  temp1 ← column_array df c0;
  let temp1 := foldl (concat_next df columns) temp1 (seq 0 (length columns)) in
  setitem_list "OneHotEnc_concatenated" (tolist temp1) df.

Definition GetOneHotEnc (list_of_endpoints list_of_effects : loc)
  : M DataFrame :=
  _ ← __GetOneHotEndpoint list_of_endpoints;
  _ ← __GetOneHotEffect list_of_effects;
  df ← self_dataframe;
  _ ← match concatenate_columns df with
      | Some df' => set_self_dataframe df'
      | None =>
          _ ← set_self_dataframe
                (attach "OneHotEnc_concatenated" (pylist <$> np_zeros (len df)) df);
          print Will_use_input_0_to_network
      end;
  self_dataframe.

(** [PreProcessDataForInference(dataframe)], in a world holding the list
    objects [heap]. *)
Definition PreProcessDataForInference (heap : gmap loc (list string))
    (dataframe : DataFrame) : Store :=
  mkStore heap dataframe [].

(** *** Canonical SMILES

    RDKit is a collaborator: [MolFromSmiles] returns a molecule, returns
    [None] on a string it cannot parse, or raises (on a value that is not
    text); [MolToSmiles] raises on [None]. *)
Section RDKit.
Variable Mol : Type.
Variable MolFromSmiles : string → outcome (option Mol).
Variable MolToSmiles : Mol → outcome string.

(** [Chem.MolToSmiles(Chem.MolFromSmiles(smiles), canonical=True)] *)
Definition MolToSmiles_MolFromSmiles (smiles : string) : outcome string :=
  match MolFromSmiles smiles with
  | Raise e => Raise e
  | Return None => Raise (Exception "Boost.Python.ArgumentError")
  | Return (Some mol) => MolToSmiles mol
  end.

Definition __CanonicalizeRDKit (smiles : string) : string :=
  match MolToSmiles_MolFromSmiles smiles with
  | Return s => s
  | Raise _ => smiles
  end.

(** [df.SMILES.apply(lambda x: self.__CanonicalizeRDKit(x))] *)
Definition canonical_column (df : DataFrame) : list cell :=
  (λ row, text (__CanonicalizeRDKit (SMILES row))) <$> rows df.

Definition GetCanonicalSMILES : M DataFrame :=
  df ← self_dataframe;
  _ ← set_self_dataframe
        (attach "SMILES_Canonical_RDKit" (canonical_column df) df);
  self_dataframe.

(** Parsing fails on [smiles]: the toolkit yields no molecule. *)
Definition parse_fails (smiles : string) : Prop :=
  ∀ mol, MolFromSmiles smiles ≠ Return (Some mol).
End RDKit.

(** ** Single precision numbers

    [torch.tensor(x, dtype=torch.float32)] stores a Python number by
    way of a C double: [float(x)], which rounds an integer to the
    nearest double (ties to even) and raises [OverflowError] past the
    largest one, then the cast to [float]. An integer array of numpy is
    cast element by element. The formats are those of the Standard
    Library's [SpecFloat]. *)

Abbreviation float32 := SpecFloat.spec_float.

(** The nearest double of an integer. *)
Definition binary64_of_int (z : Z) : SpecFloat.spec_float :=
  SpecFloat.binary_normalize 53 1024 z 0 false.

(** The C cast from [double] to [float]. *)
Definition binary32_of_binary64 (d : SpecFloat.spec_float) : float32 :=
  match d with
  | SpecFloat.S754_finite s m e =>
      SpecFloat.binary_normalize 24 128 (if s then Z.neg m else Z.pos m) e s
  | _ => d
  end.

(** The single precision number an integer is stored as. *)
Definition float32_of_int (z : Z) : float32 :=
  binary32_of_binary64 (binary64_of_int z).

(** The integers that round to a finite double: those below the midpoint
    between the largest double and 2^1024 in magnitude. *)
Definition fits_double (z : Z) : Prop :=
  (Z.abs z < 2 ^ 1024 - 2 ^ 970)%Z.

#[export] Instance fits_double_dec z : Decision (fits_double z) :=
  decide (Z.abs z < 2 ^ 1024 - 2 ^ 970)%Z.

(** The C cast from [int64] to [float]. *)
Definition float32_of_int64 (z : Z) : float32 :=
  SpecFloat.binary_normalize 24 128 z 0 false.

Definition in_int64 (z : Z) : Prop := (- 2 ^ 63 ≤ z < 2 ^ 63)%Z.

#[export] Instance in_int64_dec z : Decision (in_int64 z) :=
  decide (- 2 ^ 63 ≤ z < 2 ^ 63)%Z.

(** ** Inference_dataset *)

(** What a cell of a table row can hold. *)
Inductive value :=
  | VStr (s : string)
  | VNum (z : Z)
  | VVec (v : list Z)   (* a Python list of integers *)
  | VArr (v : list Z).  (* a numpy array of integers *)

Definition cell_value (c : cell) : value :=
  match c with
  | ndarray v => VArr v
  | pylist v => VVec v
  | text s => VStr s
  end.

(** A row taken out of a table: its data, and its cell of every column
    that has one at that position. *)
Record Series := mkSeries {
  data : Row;
  extra : list (string * cell)
}.

(** [df.iloc[idx]] *)
Definition iloc (df : DataFrame) (idx : nat) : outcome Series :=
  match rows df !! idx with
  | None => Raise IndexError
  | Some r =>
      Return (mkSeries r (omap (λ kc, (kc.1,.) <$> kc.2 !! idx) (attached df)))
  end.

(** [row[name]] *)
Definition row_getitem (row : Series) (name : string) : outcome value :=
  if decide (name = "SMILES") then Return (VStr (SMILES (data row)))
  else if decide (name = "exposure_duration")
       then Return (VNum (exposure_duration (data row)))
  else if decide (name = "endpoint") then Return (VStr (endpoint (data row)))
  else if decide (name = "effect") then Return (VStr (effect (data row)))
  else
    match getitem name (extra row) with
    | Some c => Return (cell_value c)
    | None => Raise (KeyError name)
    end.

Inductive tensor :=
  | Scalar (x : float32)
  | Tensor1 (v : list float32).

Definition obind {A B} (o : outcome A) (k : A → outcome B) : outcome B :=
  match o with
  | Return a => k a
  | Raise e => Raise e
  end.

(** Storing one Python integer. *)
Definition store_scalar (z : Z) : outcome float32 :=
  if bool_decide (fits_double z) then Return (float32_of_int z)
  else Raise (OverflowError "int too large to convert to float").

(** [torch.tensor(x, dtype=torch.float32)]: a Python number or list of
    numbers is stored entry by entry; an integer array of numpy (dtype
    int64, which is what [np.array] makes of integers in that range) is
    cast as a whole, and an array of larger integers, which numpy keeps
    as objects, is refused; so is a string. *)
Definition torch_tensor (x : value) : outcome tensor :=
  match x with
  | VNum z => obind (store_scalar z) (λ f, Return (Scalar f))
  | VVec v => obind (apply store_scalar v) (λ fs, Return (Tensor1 fs))
  | VArr v =>
      if bool_decide (Forall in_int64 v)
      then Return (Tensor1 (float32_of_int64 <$> v))
      else Raise (TypeError "can't convert np.ndarray of type numpy.object_.")
  | VStr _ => Raise (TypeError "new(): invalid data type 'str'")
  end.

Record sample := mkSample {
  input_ids : list Z;
  attention_mask : list Z;
  duration : tensor;
  onehotenc : tensor
}.

(** [variables[i]] *)
Definition variable (variables : list string) (i : nat) : outcome string :=
  match variables !! i with
  | Some name => Return name
  | None => Raise IndexError
  end.

Module Inference_dataset.
Record t := __init__ {
  df : DataFrame;
  variables : list string;
  max_len : nat
}.

Definition __len__ (self : t) : nat := len (df self).

Section tokenizer.
(** [tokenizer.encode_plus(text, truncation=True, max_length=n)],
    giving [input_ids] and [attention_mask]: a collaborator. *)
Variable encode_plus : value → nat → outcome (list Z * list Z).

Definition __getitem__ (self : t) (idx : nat) : outcome sample :=
  obind (iloc (df self) idx) (λ row,
  obind (variable (variables self) 0) (λ v0,
  obind (row_getitem row v0) (λ text,
  obind (encode_plus text (max_len self)) (λ encodings,
  obind (variable (variables self) 1) (λ v1,
  obind (row_getitem row v1) (λ d,
  obind (torch_tensor d) (λ dur,
  obind (variable (variables self) 2) (λ v2,
  obind (row_getitem row v2) (λ o,
  obind (torch_tensor o) (λ onehot,
  Return (mkSample encodings.1 encodings.2 dur onehot))))))))))).
End tokenizer.
End Inference_dataset.

(** ** torch.utils.data

    The library classes the loader is built from, as their documentation
    and iteration code give them. *)
Module torch.
(** [iter(SequentialSampler(data_source))] is [range(len(data_source))]. *)
Definition SequentialSampler (n : nat) : list nat := seq 0 n.

(** [BatchSampler(sampler, batch_size, drop_last=False).__iter__]:
    indices are appended to [batch]; a full batch is yielded and a new
    one started; what is left at the end is yielded if not empty. *)
Fixpoint BatchSampler (batch_size : nat) (sampler batch : list nat)
  : list (list nat) :=
  match sampler with
  | [] => if bool_decide (0 < length batch) then [batch] else []
  | idx :: sampler' =>
      let batch := batch ++ [idx] in
      if bool_decide (length batch = batch_size)
      then batch :: BatchSampler batch_size sampler' []
      else BatchSampler batch_size sampler' batch
  end.

(** A [DataLoader] with a sampler and [batch_size]. *)
Record DataLoader := mkDataLoader {
  dataset : Inference_dataset.t;
  sampler : list nat;
  batch_size : nat
}.

(** The batches of indices the loader walks through, in order. *)
Definition index_batches (dl : DataLoader) : list (list nat) :=
  BatchSampler (batch_size dl) (sampler dl) [].
End torch.

(** ** BuildInferenceDataLoaderAndDataset *)
Module BuildInferenceDataLoaderAndDataset.
Record t := mk {
  df : DataFrame;
  bs : Z;
  max_len : nat;
  variables : list string;
  seed : Z;
  num_workers : nat;
  dataset : Inference_dataset.t;
  dataloader : torch.DataLoader
}.

(** The constructor; [DataLoader] refuses a [batch_size] that is not
    positive with a [ValueError]. *)
Definition __init__ (df : DataFrame) (variables : list string)
    (batch_size : Z) (max_length : nat) (seed : Z) (num_workers : nat)
  : outcome t :=
  let dataset := Inference_dataset.__init__ df variables max_length in
  let sampler := torch.SequentialSampler (Inference_dataset.__len__ dataset) in
  if bool_decide (batch_size ≤ 0)%Z
  then Raise (ValueError "batch_size should be a positive integer value")
  else Return (mk df batch_size max_length variables seed num_workers dataset
                 (torch.mkDataLoader dataset sampler (Z.to_nat batch_size))).

Section iteration.
Variable encode_plus : value → nat → outcome (list Z * list Z).
(** [DataCollatorWithPadding]: a collaborator. *)
Variable Batch : Type.
Variable collator : list sample → outcome Batch.

(** [[dataset[idx] for idx in batch]] *)
Definition fetch (dl : torch.DataLoader) (batch : list nat)
  : outcome (list sample) :=
  apply (Inference_dataset.__getitem__ encode_plus (torch.dataset dl)) batch.

(** [iter(dataloader)]: each batch of indices is fetched, then
    collated; a [for] loop over it stops at the first exception. *)
Definition iter (dl : torch.DataLoader) : list (outcome Batch) :=
  (λ batch, obind (fetch dl batch) collator) <$> torch.index_batches dl.
End iteration.
End BuildInferenceDataLoaderAndDataset.

(** ** app.py: the page in batch mode

    The script reads four names that it neither binds nor imports:
    [PreProcessDataForInference] and [endpoint] in the upload block,
    [AutoTokenizer] in [loadtokenizer], [BuildInferenceDataLoader] in the
    Predict handler. Python looks a global name up when the line runs
    and raises [NameError] when it is unbound. *)
Module app.
(** What a run finds behind these names: nothing, as the script is
    shipped, or, when something outside the script has supplied a name,
    the class of that name ([BuildInferenceDataLoader] being the loader
    class of [pytorch_data_utils]) and a label for [endpoint]. *)
Record Namespace := mkNamespace {
  PreProcessDataForInference_bound : bool;
  endpoint_bound : option string;
  AutoTokenizer_bound : bool;
  BuildInferenceDataLoader_bound : bool
}.

Definition shipped : Namespace := mkNamespace false None false false.

(** Reading a global name. *)
Definition global {A} (name : string) (binding : option A) : outcome A :=
  match binding with
  | Some a => Return a
  | None => Raise (NameError name)
  end.

Definition bound (b : bool) : option unit := if b then Some () else None.

Section page.
Variable ns : Namespace.
Variable Mol : Type.
Variable MolFromSmiles : string → outcome (option Mol).
Variable MolToSmiles : Mol → outcome string.
(** [AutoTokenizer.from_pretrained(..)], giving the tokenizer's
    [encode_plus]; [DataCollatorWithPadding], whose batches are indexed
    with [batch[i]]; [loadmodel(..)], giving the model, called as
    [model(a, b, c, d).numpy()]: collaborators. *)
Variable from_pretrained : outcome (value → nat → outcome (list Z * list Z)).
Variable Batch : Type.
Variable collator : list sample → outcome Batch.
Variable Arg : Type.
Variable batch_getitem : Batch → nat → outcome Arg.
Variable float : Type.
Variable loadmodel : outcome (Arg → Arg → Arg → Arg → outcome (list (list float))).
Variable round2 : float → float.   (* np.round(x, 2) on one number *)
Variable pow10 : float → float.    (* 10 ** x on one number *)

(** Lines 39 to 43: the upload block on the table [pd.read_csv] gave.
    [[endpoint]] and [['MOR']] are two new list objects. *)
Definition upload (csv : DataFrame) : outcome DataFrame :=
  obind (global "PreProcessDataForInference"
           (bound (PreProcessDataForInference_bound ns))) (λ _,
  obind (global "endpoint" (endpoint_bound ns)) (λ endpoint,
  let processor :=
    PreProcessDataForInference
      (<[1%positive := [endpoint]]> {[2%positive := ["MOR"]]}) csv in
  match GetOneHotEnc 1 2 processor with
  | (Raise e, _) => Raise e
  | (Return _, processor) =>
      match GetCanonicalSMILES Mol MolFromSmiles MolToSmiles processor with
      | (Raise e, _) => Raise e
      | (Return _, processor) => Return (dataframe processor)
      end
  end)).

Definition np_round_2 (a : list (list float)) : list (list float) :=
  map (map round2) a.

(** [np.round(model(batch[0], batch[1], batch[2], batch[3]).numpy(), 2)] *)
Definition predict_batch
    (model : Arg → Arg → Arg → Arg → outcome (list (list float)))
    (batch : Batch) : outcome (list (list float)) :=
  obind (batch_getitem batch 0) (λ a0,
  obind (batch_getitem batch 1) (λ a1,
  obind (batch_getitem batch 2) (λ a2,
  obind (batch_getitem batch 3) (λ a3,
  obind (model a0 a1 a2 a3) (λ y,
  Return (np_round_2 y)))))).

(** [for _, batch in enumerate(loader): out = ...]: every turn binds
    [out] anew; [None] is [out] still unbound. *)
Fixpoint predict_loop
    (model : Arg → Arg → Arg → Arg → outcome (list (list float)))
    (loader : list (outcome Batch)) (out : option (list (list float)))
  : outcome (option (list (list float))) :=
  match loader with
  | [] => Return out
  | Raise e :: _ => Raise e
  | Return batch :: loader' =>
      obind (predict_batch model batch) (λ y,
      predict_loop model loader' (Some y))
  end.

Record result := mkResult {
  table_copy : DataFrame;
  Predictions_Log10_mg_L : list (list float);
  Predictions_mg_L : list (list float)
}.

(** Lines 54 to 74 for a loader over the columns [variables]; [df] is
    what the name [df] is bound to, if the upload block bound it. *)
Definition Predict_with (variables : list string) (df : option DataFrame)
  : outcome result :=
  obind loadmodel (λ model,
  obind (global "AutoTokenizer" (bound (AutoTokenizer_bound ns))) (λ _,
  obind from_pretrained (λ tokenizer,
  obind (global "BuildInferenceDataLoader"
           (bound (BuildInferenceDataLoader_bound ns))) (λ _,
  obind (global "df" df) (λ df,
  obind (BuildInferenceDataLoaderAndDataset.__init__ df variables 1 100 42 0)
    (λ built,
  let loader := BuildInferenceDataLoaderAndDataset.dataloader built in
  obind (predict_loop model
           (BuildInferenceDataLoaderAndDataset.iter tokenizer Batch collator loader)
           None) (λ out,
  match out with
  | None => Raise (NameError "out")
  | Some out =>
      let log10 := out in
      let linear := map (map pow10) out in
      if bool_decide (length log10 = len df)
      then Return (mkResult df log10 linear)
      else Raise (ValueError "Length of values does not match length of index")
  end))))))).

(** The handler with the column names the script passes. *)
Definition Predict : option DataFrame → outcome result :=
  Predict_with
    ["SMILES_Canonicalized_RDKit"; "exposure_duration"; "endpoint"; "effect"].

(** Lines 35 to 74: one run of the page with the uploaded file, if any,
    as [pd.read_csv] read it, and the state of the Predict button. The
    run shows a result table or none. *)
Definition batch_page (file_up : option DataFrame) (button : bool)
  : outcome (option result) :=
  obind (match file_up with
         | Some csv => obind (upload csv) (λ df, Return (Some df))
         | None => Return None
         end) (λ df,
  if button then obind (Predict df) (λ r, Return (Some r)) else Return None).
End page.
End app.

(** ** Vocabulary of the statements

    Closed forms of what the methods compute, the predicates the
    statements speak with, and sample inputs. *)

(** The label list the encoder works with after the merge step. *)
Definition working (l : list string) : list string :=
  if decide ("EC10" ∈ l) then default l (remove "NOEC" l) else l.

(** The label a row carries after the merge step. *)
Definition merged (l : list string) (e : string) : string :=
  if decide ("EC10" ∈ l) then (if decide (e = "NOEC") then "EC10" else e) else e.

(** The store after the merge step. *)
Definition merge_store (r : loc) (l : list string) (σ : Store) : Store :=
  if decide ("EC10" ∈ l)
  then mkStore (<[r := working l]> (lists σ)) (rename_NOEC (dataframe σ))
         (stdout σ ++ [Renamed_NOEC_EC10 (count_NOEC (dataframe σ))])
  else σ.

Definition endpoint_dict : gmap string (list Z) :=
  dict (zip encoding_order (eye (length encoding_order))).

Definition effect_dict (l : list string) : gmap string (list Z) :=
  dict (zip l (eye (length l))).

(** What [__GetOneHotEndpoint] does from the store after the merge. *)
Definition endpoint_stage (l : list string) (σ1 : Store)
  : outcome DataFrame * Store :=
  if bool_decide (1 < length (working l)) then
    match apply (hot_enc endpoint_dict) (endpoint <$> rows (dataframe σ1)) with
    | Return col =>
        let df' := attach "OneHotEnc_endpoint" col (dataframe σ1) in
        (Return df', mkStore (lists σ1) df' (stdout σ1))
    | Raise _ => (Raise (Exception unexpected), σ1)
    end
  else (Return (dataframe σ1),
        mkStore (lists σ1) (dataframe σ1)
          (stdout σ1 ++ [Did_not_return_onehotencoding_for_Endpoint])).

(** What [__GetOneHotEffect] does when its argument refers to [l]. *)
Definition effect_stage (l : list string) (σ : Store)
  : outcome DataFrame * Store :=
  if bool_decide (1 < length l) then
    match apply (hot_enc (effect_dict l)) (effect <$> rows (dataframe σ)) with
    | Return col =>
        let df' := attach "OneHotEnc_effect" col (dataframe σ) in
        (Return df', mkStore (lists σ) df' (stdout σ))
    | Raise _ => (Raise (Exception unexpected), σ)
    end
  else (Return (dataframe σ),
        mkStore (lists σ) (dataframe σ)
          (stdout σ ++ [Did_not_return_onehotencoding_for_Effect])).

Definition endpoint_vector (e : string) : list Z :=
  if decide (e = "EC50") then [1; 0]%Z else [0; 1]%Z.

Definition two_rows : list Row :=
  [mkRow "C1=CC=CC=C1" 96 "EC50" "MOR"; mkRow "CCO" 48 "NOEC" "MOR"].

(** Every row's endpoint, after the merge, has an entry in the endpoint
    dictionary. *)
Definition endpoints_known (l : list string) (df : DataFrame) : Prop :=
  Forall (λ row, merged l (endpoint row) ∈ encoding_order) (rows df).

(** Every row's effect is one of the labels [l]. *)
Definition effects_known (l : list string) (df : DataFrame) : Prop :=
  Forall (λ row, effect row ∈ l) (rows df).

(** The column the endpoint encoder attaches. *)
Definition endpoint_column (l : list string) (df : DataFrame) : list cell :=
  (λ row, ndarray (endpoint_vector (merged l (endpoint row)))) <$> rows df.

(** The sub-vectors of row [i], left to right over the columns [cols]. *)
Definition row_concat (cols : list (list cell)) (i : nat) : list Z :=
  concat ((λ col, default [] (cell_values <$> col !! i)) <$> cols).

(** What a frame looks like after a stage that returned: the rows are
    those the stage started from, and either nothing was attached or the
    stage's own column was, one vector of the dictionary's width per
    row. *)
Definition stage_result (name : string) (w : nat) (df0 df1 : DataFrame) : Prop :=
  rows df1 = rows df0 ∧
  (attached df1 = attached df0 ∨
   ∃ vs, attached df1 = setitem name (ndarray <$> vs) (attached df0) ∧
         length vs = len df0 ∧ Forall (λ v, length v = w) vs).

(** The last step of [GetOneHotEnc], on the frame the two encoders
    leave. *)
Definition assemble (df : DataFrame) : DataFrame :=
  match concatenate_columns df with
  | Some df' => df'
  | None => attach "OneHotEnc_concatenated" (pylist <$> np_zeros (len df)) df
  end.

(** The attached columns the assembler searches: those whose name
    contains OneHotEnc, in their order. *)
Definition onehot_part (df : DataFrame) : list (string * list cell) :=
  filter (λ kc, str_contains "OneHotEnc" kc.1 = true) (attached df).

(** The columns the two encoders can attach, in the order they do. *)
Definition onehot_names : list string := ["OneHotEnc_endpoint"; "OneHotEnc_effect"].

(** The one-hot columns a frame carries, endpoint first. *)
Definition produced (df : DataFrame) : list (list cell) :=
  omap (λ name, getitem name (attached df)) onehot_names.

Definition two_label_lists : gmap loc (list string) :=
  <[1%positive := ["EC50"; "EC10"; "NOEC"]]> {[2%positive := ["MOR"; "DVP"]]}.

(** The lists of two calls: one label per category, as the upload page
    passes, then two labels per category. *)
Definition four_label_lists : gmap loc (list string) :=
  <[1%positive := ["EC50"]]> (<[2%positive := ["MOR"]]>
  (<[3%positive := ["EC50"; "EC10"; "NOEC"]]> {[4%positive := ["MOR"; "DVP"]]})).

(** A toolkit that reads only the letter C. *)
Definition toy_MolFromSmiles (smiles : string) : outcome (option unit) :=
  if decide (smiles = "C") then Return (Some ()) else Return None.

Definition toy_MolToSmiles (mol : unit) : outcome string := Return "C".

(** All vectors have one length. *)
Definition uniform (vs : list (list Z)) : Prop :=
  ∃ w, Forall (λ v, length v = w) vs.

(** A character-level tokenizer to run the dataset with. *)
Fixpoint toy_tokens (text : string) : list Z :=
  match text with
  | EmptyString => []
  | String c text' => Z.of_N (Ascii.N_of_ascii c) :: toy_tokens text'
  end.

Definition toy_encode_plus (text : value) (max_length : nat)
  : outcome (list Z * list Z) :=
  match text with
  | VStr s =>
      let ids := take max_length (toy_tokens s) in
      Return (ids, (λ _, 1%Z) <$> ids)
  | _ => Raise (ValueError "text input must be of type str")
  end.

(** A table whose combined feature vectors differ in length. *)
Definition ragged_table : DataFrame :=
  mkDataFrame two_rows
    [("OneHotEnc_concatenated", [pylist [1; 0]%Z; pylist [0]%Z]);
     ("SMILES_Canonical_RDKit", [text "c1ccccc1"; text "CCO"])].

(** A table as the preprocessing leaves it, and stand-ins for the
    collaborators of the page, to run the handler with: a batch is the
    list of its records, [batch[i]] gives it back, and the model gives
    one row per record. *)
Definition prepared_table : DataFrame :=
  mkDataFrame two_rows
    [("OneHotEnc_concatenated", [pylist [0]%Z; pylist [0]%Z]);
     ("SMILES_Canonical_RDKit", [text "c1ccccc1"; text "CCO"])].

Definition toy_batch_getitem (batch : list sample) (i : nat)
  : outcome (list sample) := Return batch.

Definition toy_model (a b c d : list sample) : outcome (list (list Z)) :=
  Return ((λ s, [Z.of_nat (length (input_ids s))]) <$> a).

(** A namespace in which the four names are bound. *)
Definition all_bound : app.Namespace := app.mkNamespace true (Some "EC50") true true.

(** ** check_training_data

    The sheet of training data is read from a file; the column
    [SMILES_Canonical_RDKit] of what [pd.read_excel] returns is taken as
    given ([read_excel] raises when the file or the sheet is missing). *)

(** [Series.drop_duplicates()]: the first occurrence of every value is
    kept, in order; [seen] holds the values met so far. *)
Fixpoint drop_duplicates_from (seen l : list string) : list string :=
  match l with
  | [] => []
  | x :: l' =>
      if decide (x ∈ seen) then drop_duplicates_from seen l'
      else x :: drop_duplicates_from (x :: seen) l'
  end.

Definition drop_duplicates (l : list string) : list string :=
  drop_duplicates_from [] l.

Definition check_training_data (read_excel : outcome (list string))
    (SMILES model_version : string) : outcome bool :=
  obind read_excel (λ training_data,
  Return (bool_decide (SMILES ∈ drop_duplicates training_data))).

(** The effect labels the effect encoder reads inside [GetOneHotEnc]:
    the caller's effect list, or, when the caller passed one and the same
    list object for endpoints and effects, what the endpoint encoder left
    of it. *)
Definition effect_labels (re rf : loc) (le lf : list string) : list string :=
  if decide (re = rf) then working le else lf.

(** The sum of the entries of a vector. *)
Definition vsum (v : list Z) : Z := foldr Z.add 0%Z v.

(** The width of the combined feature vector for a working endpoint
    list [we] and an effect list [lf]: two for the endpoint when it is
    encoded, the number of effect labels when the effect is, and one (the
    zero input) when neither is. *)
Definition combined_width (we lf : list string) : nat :=
  match (if bool_decide (1 < length we) then 2 else 0) +
        (if bool_decide (1 < length lf) then length lf else 0) with
  | 0 => 1
  | w => w
  end.

(** A vector with one 1 and 0 elsewhere, [w] wide. *)
Definition unit_vector (w : nat) (v : list Z) : Prop :=
  length v = w ∧ Forall (λ z, z = 0%Z ∨ z = 1%Z) v ∧ vsum v = 1%Z.

(** The store [GetOneHotEnc] leaves when both encoders returned. *)
Definition assemble_store (σ2 : Store) : Store :=
  match concatenate_columns (dataframe σ2) with
  | Some df' => mkStore (lists σ2) df' (stdout σ2)
  | None =>
      mkStore (lists σ2)
        (attach "OneHotEnc_concatenated"
           (pylist <$> np_zeros (len (dataframe σ2))) (dataframe σ2))
        (stdout σ2 ++ [Will_use_input_0_to_network])
  end.

(** [dfc] is [df] with the column [C] of canonical SMILES attached,
    wherever it stands among the columns. *)
Definition canonical_attached (C : list cell) (df dfc : DataFrame) : Prop :=
  rows dfc = rows df ∧
  onehot_part dfc = onehot_part df ∧
  getitem "SMILES_Canonical_RDKit" (attached dfc) = Some C ∧
  ∀ name, name ≠ "SMILES_Canonical_RDKit" →
    getitem name (attached dfc) = getitem name (attached df).

(** The same for the states of two processors, which agree on
    everything else. *)
Definition canonical_attached_store (C : list cell) (σ σc : Store) : Prop :=
  lists σc = lists σ ∧ stdout σc = stdout σ ∧
  canonical_attached C (dataframe σ) (dataframe σc).

(** Every number of the attached columns fits a double. *)
Definition cells_fit (df : DataFrame) : Prop :=
  Forall (λ kc, Forall (λ c, Forall fits_double (cell_values c)) kc.2) (attached df).

Definition preprocessed_columns : list string :=
  ["SMILES_Canonical_RDKit"; "exposure_duration"; "OneHotEnc_concatenated"].

(** [df.columns]: the names a row can be asked for. *)
Definition columns (df : DataFrame) : list string :=
  ["SMILES"; "exposure_duration"; "endpoint"; "effect"] ++ (attached df).*1.

(** * Properties *)

(** ** Dictionaries and indicator vectors *)

Lemma dict_snoc {V} (pairs : list (string * V)) k v :
  dict (pairs ++ [(k, v)]) = <[k := v]> (dict pairs).
Proof. unfold dict. by rewrite foldl_app. Qed.

Lemma dict_lookup_None {V} (pairs : list (string * V)) x :
  x ∉ pairs.*1 → dict pairs !! x = None.
Proof.
  induction pairs as [|[k v] pairs IH] using rev_ind; intros Hx.
  - apply lookup_empty.
  - rewrite dict_snoc. rewrite fmap_app, elem_of_app in Hx. simpl in Hx.
    rewrite lookup_insert_ne; [apply IH; tauto|].
    intros ->. apply Hx. right. by left.
Qed.

Lemma dict_lookup_last {V} (before after : list (string * V)) x v :
  x ∉ after.*1 → dict (before ++ (x, v) :: after) !! x = Some v.
Proof.
  induction after as [|[k w] after IH] using rev_ind; intros Hx.
  - rewrite dict_snoc. apply lookup_insert_eq.
  - rewrite fmap_app, elem_of_app in Hx. simpl in Hx.
    replace (before ++ (x, v) :: after ++ [(k, w)])
      with ((before ++ (x, v) :: after) ++ [(k, w)]) by by rewrite <- app_assoc.
    rewrite dict_snoc, lookup_insert_ne; [apply IH; tauto|].
    intros ->. apply Hx. right. by left.
Qed.

Lemma dict_lookup_Some_key {V} (pairs : list (string * V)) x v :
  dict pairs !! x = Some v → (x, v) ∈ pairs.
Proof.
  induction pairs as [|[k w] pairs IH] using rev_ind.
  - unfold dict; simpl. by rewrite lookup_empty.
  - rewrite dict_snoc, elem_of_app. destruct (decide (k = x)) as [->|Hne].
    + rewrite lookup_insert_eq. intros [= ->]. right. by left.
    + rewrite lookup_insert_ne by done. auto.
Qed.

Lemma length_eye_row n i : length (eye_row n i) = n.
Proof. unfold eye_row. by rewrite length_fmap, length_seq. Qed.

Lemma length_eye n : length (eye n) = n.
Proof. unfold eye. by rewrite length_fmap, length_seq. Qed.

Lemma eye_lookup n i : i < n → eye n !! i = Some (eye_row n i).
Proof.
  intros Hi. unfold eye. rewrite list_lookup_fmap, lookup_seq_lt by done. done.
Qed.

(** Position [j] of row [i] of the identity matrix. *)
Lemma eye_row_lookup n i j :
  j < n → eye_row n i !! j = Some (if decide (j = i) then 1%Z else 0%Z).
Proof.
  intros Hj. unfold eye_row. rewrite list_lookup_fmap, lookup_seq_lt by done. done.
Qed.

(** The dictionary [dict(zip(labels, np.eye(len(labels))))]: a label
    gets the row of the identity matrix at its last position in
    [labels]; a string that is no label has no entry. *)
Lemma hot_enc_dict_lookup (labels : list string) i x :
  labels !! i = Some x → x ∉ drop (S i) labels →
  dict (zip labels (eye (length labels))) !! x = Some (eye_row (length labels) i).
Proof.
  intros Hi Hlast.
  assert (i < length labels) as Hlt by by eapply lookup_lt_Some.
  rewrite <- (take_drop_middle labels i x Hi) at 1.
  rewrite <- (take_drop_middle (eye (length labels)) i (eye_row (length labels) i))
    by by apply eye_lookup.
  rewrite zip_with_app by (rewrite !length_take, length_eye; lia).
  simpl. apply dict_lookup_last.
  intros Hin. apply Hlast.
  apply list_elem_of_fmap in Hin as [[k v] [-> Hin]].
  by apply elem_of_zip_l in Hin.
Qed.

Lemma hot_enc_dict_lookup_None (labels : list string) (vs : list (list Z)) x :
  x ∉ labels → dict (zip labels vs) !! x = None.
Proof.
  intros Hx. apply dict_lookup_None. intros Hin. apply Hx.
  apply list_elem_of_fmap in Hin as [[k v] [-> Hin]].
  by apply elem_of_zip_l in Hin.
Qed.

Lemma hot_enc_dict_lookup_Some (labels : list string) x v :
  dict (zip labels (eye (length labels))) !! x = Some v →
  x ∈ labels ∧ length v = length labels.
Proof.
  intros Hv. apply dict_lookup_Some_key in Hv. split.
  - by apply elem_of_zip_l in Hv.
  - apply elem_of_zip_r in Hv. unfold eye in Hv.
    apply list_elem_of_fmap in Hv as [i [-> _]]. apply length_eye_row.
Qed.

(** The endpoint dictionary is the same whatever the caller passes. *)
Lemma endpoint_dict_lookup x :
  dict (zip encoding_order (eye (length encoding_order))) !! x =
  if decide (x = "EC50") then Some [1; 0]%Z
  else if decide (x = "EC10") then Some [0; 1]%Z
  else None.
Proof.
  unfold dict. simpl.
  repeat case_decide; subst; simplify_map_eq; done.
Qed.

(** ** [Series.apply] over a dictionary *)

Lemma apply_hot_enc_Return d xs vs :
  Forall2 (λ x v, d !! x = Some v) xs vs →
  apply (hot_enc d) xs = Return (ndarray <$> vs).
Proof.
  induction 1 as [|x v xs vs Hx _ IH]; simpl; [done|].
  unfold hot_enc at 1. by rewrite Hx, IH.
Qed.

Lemma apply_hot_enc_inv d xs col :
  apply (hot_enc d) xs = Return col →
  ∃ vs, col = ndarray <$> vs ∧ Forall2 (λ x v, d !! x = Some v) xs vs.
Proof.
  revert col. induction xs as [|x xs IH]; simpl; intros col.
  - intros [= <-]. by exists [].
  - unfold hot_enc at 1. destruct (d !! x) as [v|] eqn:Hx; [|done].
    destruct (apply (hot_enc d) xs) as [ys|] eqn:Hys; [|done].
    intros [= <-]. destruct (IH ys eq_refl) as (vs & -> & Hall).
    exists (v :: vs). split; [done|]. by constructor.
Qed.

Lemma apply_hot_enc_Raise d xs :
  Exists (λ x, d !! x = None) xs → ∃ e, apply (hot_enc d) xs = Raise e.
Proof.
  induction 1 as [x xs Hx|x xs _ IH]; simpl.
  - unfold hot_enc at 1. rewrite Hx. eauto.
  - destruct IH as [e ->]. destruct (hot_enc d x); eauto.
Qed.

Lemma apply_hot_enc_Raise_inv d xs e :
  apply (hot_enc d) xs = Raise e → Exists (λ x, d !! x = None) xs.
Proof.
  induction xs as [|x xs IH]; simpl; [done|].
  unfold hot_enc at 1. destruct (d !! x) as [v|] eqn:Hx.
  - destruct (apply (hot_enc d) xs); [done|]. intros [= <-]. right. by apply IH.
  - intros _. by left.
Qed.

(** ** [list.remove] *)

Lemma remove_None x l : remove x l = None ↔ x ∉ l.
Proof.
  induction l as [|y l IH]; simpl.
  - split; [intros _; apply not_elem_of_nil|done].
  - rewrite not_elem_of_cons. case_decide as Hy; subst.
    + split; [done|]. intros [? _]. done.
    + rewrite fmap_None, IH. split; [intros ?; split; [done|done]|tauto].
Qed.

(** [remove] deletes the first occurrence and nothing else. *)
Lemma remove_Some x l l' :
  remove x l = Some l' ↔
  ∃ l1 l2, l = l1 ++ x :: l2 ∧ (x ∉ l1) ∧ l' = l1 ++ l2.
Proof.
  revert l'. induction l as [|y l IH]; intros l'; simpl.
  - split; [done|]. intros (l1 & l2 & Hl & _). by destruct l1.
  - case_decide as Hy; subst.
    + split.
      * intros [= <-]. exists [], l. split; [done|]. split; [apply not_elem_of_nil|done].
      * intros (l1 & l2 & Hl & Hnot & ->). destruct l1 as [|z l1].
        -- simpl in *. by injection Hl as ->.
        -- injection Hl as <- _. exfalso. apply Hnot. by left.
    + rewrite fmap_Some. split.
      * intros (l0 & Hrm & ->). apply IH in Hrm as (l1 & l2 & -> & Hnot & ->).
        exists (y :: l1), l2. split; [done|]. split; [|done].
        rewrite not_elem_of_cons. split; [by intros -> | done].
      * intros (l1 & l2 & Hl & Hnot & ->). destruct l1 as [|z l1].
        -- simpl in Hl. injection Hl as -> _. done.
        -- injection Hl as <- ->. exists (l1 ++ l2). split; [|done].
           apply IH. exists l1, l2. split; [done|]. split; [|done].
           intros ?. apply Hnot. by right.
Qed.

(** ** The encoder, in closed form *)

Lemma merge_NOEC_eq σ r l :
  lists σ !! r = Some l →
  merge_NOEC r σ = (Return (), merge_store r l σ).
Proof.
  intros Hl. unfold merge_NOEC, merge_store, working, mbind, M_bind, deref.
  rewrite (lookup_total_correct _ _ _ Hl).
  case_bool_decide as HEC10; repeat case_decide; try done.
  unfold self_dataframe, print, set_self_dataframe, try_except, list_remove, pass; simpl.
  rewrite (lookup_total_correct _ _ _ Hl).
  destruct (remove "NOEC" l) as [l'|] eqn:Hrm; simpl; [done|].
  unfold mret, M_ret. by rewrite (insert_id _ _ _ Hl).
Qed.

Lemma merge_store_lists σ r l :
  lists σ !! r = Some l → lists (merge_store r l σ) !! r = Some (working l).
Proof.
  intros Hl. unfold merge_store, working.
  case_decide; simpl; [by rewrite lookup_insert_eq|done].
Qed.

Lemma merge_store_rows σ r l :
  endpoint <$> rows (dataframe (merge_store r l σ)) =
  merged l <$> (endpoint <$> rows (dataframe σ)).
Proof.
  unfold merge_store, merged. case_decide; simpl.
  - rewrite <- !list_fmap_compose. apply list_fmap_ext. intros _ row _. simpl.
    by case_decide.
  - by rewrite list_fmap_id.
Qed.

Lemma merge_store_attached σ r l :
  attached (dataframe (merge_store r l σ)) = attached (dataframe σ).
Proof. unfold merge_store. by case_decide. Qed.

Lemma merge_store_effects σ r l :
  effect <$> rows (dataframe (merge_store r l σ)) = effect <$> rows (dataframe σ).
Proof.
  unfold merge_store. case_decide; simpl; [|done].
  rewrite <- list_fmap_compose. apply list_fmap_ext. intros _ row _. simpl.
  by case_decide.
Qed.

Lemma merge_store_len σ r l :
  len (dataframe (merge_store r l σ)) = len (dataframe σ).
Proof.
  unfold merge_store, len. case_decide; simpl; [|done]. by rewrite length_fmap.
Qed.

Lemma GetOneHotEndpoint_eq σ r l :
  lists σ !! r = Some l →
  __GetOneHotEndpoint r σ = endpoint_stage l (merge_store r l σ).
Proof.
  intros Hl. unfold __GetOneHotEndpoint, mbind, M_bind.
  rewrite (merge_NOEC_eq _ _ _ Hl). unfold deref.
  pose proof (merge_store_lists _ _ _ Hl) as Hw.
  rewrite (lookup_total_correct _ _ _ Hw). unfold endpoint_stage.
  destruct (merge_store r l σ) as [ls df out]. simpl in *.
  case_bool_decide; simpl; [|done].
  unfold try_except, mbind, M_bind, self_dataframe, set_self_dataframe, lift,
    reset_index, raise. simpl.
  change (dict _) with endpoint_dict.
  by destruct (apply (hot_enc endpoint_dict) (endpoint <$> rows df)).
Qed.

Lemma GetOneHotEffect_eq σ r l :
  lists σ !! r = Some l →
  __GetOneHotEffect r σ = effect_stage l σ.
Proof.
  intros Hl. unfold __GetOneHotEffect, mbind, M_bind, deref.
  rewrite (lookup_total_correct _ _ _ Hl). unfold effect_stage.
  destruct σ as [ls df out]. simpl in *.
  case_bool_decide; simpl; [|done].
  unfold try_except, mbind, M_bind, self_dataframe, set_self_dataframe, lift,
    reset_index, raise. simpl.
  fold (effect_dict l).
  by destruct (apply (hot_enc (effect_dict l)) (effect <$> rows df)).
Qed.

(** Columns are looked up by name: attaching one leaves the others. *)
Lemma getitem_setitem name col cols :
  getitem name (setitem name col cols) = Some col.
Proof.
  induction cols as [|[k c] cols IH]; simpl.
  - by rewrite decide_True.
  - case_decide; simpl; [by rewrite decide_True|by rewrite decide_False].
Qed.

Lemma setitem_fresh name col cols :
  getitem name cols = None → setitem name col cols = cols ++ [(name, col)].
Proof.
  induction cols as [|[k c] cols IH]; simpl; [done|].
  case_decide; [done|]. intros Hnone. by rewrite IH.
Qed.

Lemma getitem_setitem_ne name name' col cols :
  name ≠ name' → getitem name' (setitem name col cols) = getitem name' cols.
Proof.
  intros Hne. induction cols as [|[k c] cols IH]; simpl.
  - by rewrite decide_False.
  - case_decide; simpl; subst.
    + by rewrite !decide_False.
    + by rewrite IH.
Qed.

(** ** Which labels the dictionaries know *)

Lemma endpoint_dict_known e :
  e ∈ encoding_order → endpoint_dict !! e = Some (endpoint_vector e).
Proof.
  intros He. unfold endpoint_dict. rewrite endpoint_dict_lookup.
  unfold encoding_order in He.
  apply elem_of_cons in He as [->|He]; [done|].
  apply elem_of_cons in He as [->|He]; [done|].
  by apply elem_of_nil in He.
Qed.

Lemma endpoint_dict_unknown e :
  e ∉ encoding_order → endpoint_dict !! e = None.
Proof.
  intros He. unfold endpoint_dict. rewrite endpoint_dict_lookup.
  unfold encoding_order in He.
  case_decide as H50; [subst; destruct He; by left|].
  case_decide as H10; [subst; destruct He; right; by left|done].
Qed.

Lemma apply_endpoint_known es :
  Forall (λ e, e ∈ encoding_order) es →
  apply (hot_enc endpoint_dict) es = Return (ndarray <$> (endpoint_vector <$> es)).
Proof.
  intros Hall. apply apply_hot_enc_Return.
  induction Hall as [|e es He _ IH]; simpl; constructor; [|done].
  by apply endpoint_dict_known.
Qed.

Lemma apply_endpoint_unknown es :
  Exists (λ e, e ∉ encoding_order) es →
  ∃ e, apply (hot_enc endpoint_dict) es = Raise e.
Proof.
  intros Hex. apply apply_hot_enc_Raise.
  eapply Exists_impl; [done|]. apply endpoint_dict_unknown.
Qed.

(** Every label of a list has a last position in it. *)
Lemma last_occurrence (x : string) (l : list string) :
  x ∈ l → ∃ i, l !! i = Some x ∧ x ∉ drop (S i) l.
Proof.
  induction l as [|y l IH]; [by intros ?%elem_of_nil|].
  intros Hx. destruct (decide (x ∈ l)) as [Hin|Hnin].
  - destruct (IH Hin) as (i & Hi & Hlast). by exists (S i).
  - apply elem_of_cons in Hx as [->|?]; [|done].
    exists 0. split; [done|]. simpl. by rewrite drop_0.
Qed.

Lemma effect_dict_known l e :
  e ∈ l → ∃ i, l !! i = Some e ∧ (e ∉ drop (S i) l) ∧
                effect_dict l !! e = Some (eye_row (length l) i).
Proof.
  intros (i & Hi & Hlast)%last_occurrence. exists i.
  split; [done|]. split; [done|]. by apply hot_enc_dict_lookup.
Qed.

Lemma last_occurrence_unique (l : list string) i j x :
  l !! i = Some x → x ∉ drop (S i) l →
  l !! j = Some x → x ∉ drop (S j) l → i = j.
Proof.
  intros Hi Hli Hj Hlj. destruct (Nat.lt_trichotomy i j) as [Hlt|[->|Hlt]]; [|done|].
  - exfalso. apply Hli. apply list_elem_of_lookup. exists (j - S i).
    rewrite lookup_drop. by replace (S i + (j - S i)) with j by lia.
  - exfalso. apply Hlj. apply list_elem_of_lookup. exists (i - S j).
    rewrite lookup_drop. by replace (S j + (i - S j)) with i by lia.
Qed.

(** The column [apply] builds over the effect dictionary: row by row,
    the identity row at the label's last position in the caller's list. *)
Lemma apply_effect_known l es :
  Forall (λ e, e ∈ l) es →
  ∃ vs, apply (hot_enc (effect_dict l)) es = Return (ndarray <$> vs) ∧
        Forall2 (λ e v, ∃ i, l !! i = Some e ∧ (e ∉ drop (S i) l) ∧
                             v = eye_row (length l) i) es vs.
Proof.
  induction 1 as [|e es He _ (vs & Hvs & Hall)].
  - by exists [].
  - destruct (effect_dict_known l e He) as (i & Hi & Hlast & Hd).
    exists (eye_row (length l) i :: vs). split.
    + simpl. unfold hot_enc at 1. by rewrite Hd, Hvs.
    + constructor; [|done]. by exists i.
Qed.

Lemma apply_effect_unknown l es :
  Exists (λ e, e ∉ l) es → ∃ e, apply (hot_enc (effect_dict l)) es = Raise e.
Proof.
  intros Hex. apply apply_hot_enc_Raise.
  eapply Exists_impl; [done|]. intros e He. by apply hot_enc_dict_lookup_None.
Qed.

(** ** The merge step *)

Lemma endpoint_stage_lists l σ1 :
  lists (endpoint_stage l σ1).2 = lists σ1.
Proof.
  unfold endpoint_stage. case_bool_decide; [|done].
  by destruct (apply _ _).
Qed.

Lemma working_cases l :
  "EC10" ∈ l →
(("NOEC" ∉ l) ∧ working l = l) ∨
  ∃ l1 l2, l = l1 ++ "NOEC" :: l2 ∧ ("NOEC" ∉ l1) ∧ working l = l1 ++ l2.
Proof.
  intros HEC10. unfold working. rewrite decide_True by done.
  destruct (remove "NOEC" l) as [l'|] eqn:Hrm; simpl.
  - right. by apply remove_Some.
  - left. split; [|done]. by apply remove_None.
Qed.

(** How often a label is named in a list. *)
Lemma count_label_0 (x : string) (l : list string) :
  length (filter (λ y, y = x) l) = 0 ↔ x ∉ l.
Proof.
  induction l as [|y l IH]; simpl.
  - split; [intros _; apply not_elem_of_nil|done].
  - rewrite filter_cons, not_elem_of_cons. case_decide as Hy; simpl.
    + subst. split; [done|]. by intros [? _].
    + rewrite IH. split; [by intros ?|tauto].
Qed.

(** C2, as stated, fails on a list that names NOEC twice: the merge
    rewrites the rows, and one NOEC is still in the working list. *)
Lemma merge_leaves_second_NOEC :
  let l := ["EC50"; "EC10"; "NOEC"; "NOEC"] in
  let σ := PreProcessDataForInference {[1%positive := l]} (table two_rows) in
  Exists (λ row, endpoint row = "NOEC") two_rows ∧ "EC10" ∈ l ∧
  ∃ σ' l', merge_NOEC 1 σ = (Return (), σ') ∧
    endpoint <$> rows (dataframe σ') = ["EC50"; "EC10"] ∧
    lists σ' !! 1%positive = Some l' ∧ "NOEC" ∈ l'.
Proof.
  split; [by apply Exists_cons_tl, Exists_cons_hd|].
  split; [repeat constructor|].
  exists (mkStore {[1%positive := ["EC50"; "EC10"; "NOEC"]]}
            (table [mkRow "C1=CC=CC=C1" 96 "EC50" "MOR"; mkRow "CCO" 48 "EC10" "MOR"])
            [Renamed_NOEC_EC10 1]), ["EC50"; "EC10"; "NOEC"].
  split; [reflexivity|]. split; [reflexivity|]. split; [reflexivity|].
  repeat constructor.
Qed.

(** C2, as the code has it. When EC10 is among the caller's endpoint
    labels, the merge step of the endpoint encoder returns normally;
    every row that read NOEC reads EC10 afterwards and every other row is
    untouched; the count it reports is the number of rows that read NOEC
    before the merge; and the first occurrence of NOEC is deleted from
    the working label list, which is left as it is when NOEC is not in
    it. So the working list is free of NOEC afterwards exactly when the
    caller's list named NOEC at most once. *)
Theorem merge_NOEC_rewrites_counts_and_removes (σ : Store) (r : loc)
    (l : list string) :
  lists σ !! r = Some l → "EC10" ∈ l →
  ∃ σ', merge_NOEC r σ = (Return (), σ') ∧
    length (rows (dataframe σ')) = length (rows (dataframe σ)) ∧
    (∀ i row, rows (dataframe σ) !! i = Some row →
       ∃ row', rows (dataframe σ') !! i = Some row' ∧
         (endpoint row = "NOEC" → endpoint row' = "EC10") ∧
         (endpoint row ≠ "NOEC" → row' = row)) ∧
    stdout σ' = stdout σ ++
      [Renamed_NOEC_EC10
         (length (filter (λ row, endpoint row = "NOEC") (rows (dataframe σ))))] ∧
    ∃ l', lists σ' !! r = Some l' ∧
      ((("NOEC" ∉ l) ∧ l' = l) ∨
       ∃ l1 l2, l = l1 ++ "NOEC" :: l2 ∧ ("NOEC" ∉ l1) ∧ l' = l1 ++ l2) ∧
      ("NOEC" ∉ l' ↔ (length (filter (λ x, x = "NOEC") l) ≤ 1)%nat).
Proof.
  intros Hl HEC10. exists (merge_store r l σ).
  split; [by apply merge_NOEC_eq|].
  pose proof (merge_store_lists _ _ _ Hl) as Hw.
  unfold merge_store in *. rewrite decide_True in * by done. simpl in *.
  split; [by rewrite length_fmap|]. split; [|split; [done|]].
  - intros i row Hi. rewrite list_lookup_fmap, Hi. simpl.
    eexists; split; [done|]. case_decide; [done|]. split; [done|done].
  - exists (working l). split; [done|].
    pose proof (working_cases l HEC10) as Hcases. split; [exact Hcases|].
    destruct Hcases as [[Hnot ->]|(l1 & l2 & -> & Hl1 & ->)].
    + split; [|done]. intros _.
      apply count_label_0 in Hnot. lia.
    + rewrite filter_app, filter_cons, decide_True by done.
      rewrite length_app. simpl.
      pose proof (proj2 (count_label_0 "NOEC" l1) Hl1) as Hc1. rewrite Hc1. simpl.
      rewrite not_elem_of_app, <- (count_label_0 "NOEC" l2).
      split; [intros [_ ?]; lia|]. intros ?. split; [done|lia].
Qed.

Lemma merge_NOEC_rewrites_counts_and_removes_witness :
  ∃ σ',
    merge_NOEC 1
      (PreProcessDataForInference {[1%positive := ["EC50"; "EC10"; "NOEC"]]}
         (table two_rows)) = (Return (), σ') ∧
    endpoint <$> rows (dataframe σ') = ["EC50"; "EC10"] ∧
    stdout σ' = [Renamed_NOEC_EC10 1] ∧
    lists σ' !! 1%positive = Some ["EC50"; "EC10"].
Proof.
  destruct (merge_NOEC_rewrites_counts_and_removes
              (PreProcessDataForInference
                 {[1%positive := ["EC50"; "EC10"; "NOEC"]]} (table two_rows))
              1%positive ["EC50"; "EC10"; "NOEC"])
    as (σ' & Hrun & _); [reflexivity|repeat constructor|].
  exists σ'. split; [exact Hrun|].
  vm_compute in Hrun. injection Hrun as <-. by vm_compute.
Defined.

(** ** In-place mutation of the caller's label list *)

(** C10, as the code has it. The endpoint encoder changes the caller's
    list object in place, whether it returns or raises: when EC10 and
    NOEC are both in the list, the first occurrence of NOEC is deleted
    from that very object; so the caller's list is free of NOEC
    afterwards when it named NOEC once. The list is left unchanged when
    EC10 is not in it, and no other list object is touched. *)
Theorem GetOneHotEndpoint_mutates_caller_list (σ : Store) (r : loc)
    (l : list string) :
  lists σ !! r = Some l →
  let σ' := (__GetOneHotEndpoint r σ).2 in
  ("EC10" ∈ l → "NOEC" ∈ l →
     ∃ l1 l2, l = l1 ++ "NOEC" :: l2 ∧ ("NOEC" ∉ l1) ∧
       lists σ' !! r = Some (l1 ++ l2) ∧
       ("NOEC" ∉ l2 → "NOEC" ∉ l1 ++ l2)) ∧
  ("EC10" ∉ l → lists σ' !! r = Some l) ∧
  (∀ r', r' ≠ r → lists σ' !! r' = lists σ !! r').
Proof.
  intros Hl σ'. subst σ'. rewrite (GetOneHotEndpoint_eq _ _ _ Hl).
  rewrite endpoint_stage_lists. split; [|split].
  - intros HEC10 HNOEC. rewrite (merge_store_lists _ _ _ Hl).
    destruct (working_cases l HEC10) as [[Hnot _]|(l1 & l2 & -> & Hl1 & ->)]; [done|].
    exists l1, l2. split; [done|]. split; [done|]. split; [done|].
    intros Hl2. rewrite elem_of_app. tauto.
  - intros HEC10. unfold merge_store. by rewrite decide_False.
  - intros r' Hne. unfold merge_store. case_decide; [|done]. simpl.
    by rewrite lookup_insert_ne.
Qed.

Lemma GetOneHotEndpoint_mutates_caller_list_witness :
  ∃ l1 l2, ["EC50"; "EC10"; "NOEC"] = l1 ++ "NOEC" :: l2 ∧ ("NOEC" ∉ l1) ∧
    lists (__GetOneHotEndpoint 1
             (PreProcessDataForInference
                {[1%positive := ["EC50"; "EC10"; "NOEC"]]} (table two_rows))).2
      !! 1%positive = Some (l1 ++ l2) ∧
    ("NOEC" ∉ l2 → "NOEC" ∉ l1 ++ l2).
Proof.
  destruct (GetOneHotEndpoint_mutates_caller_list
              (PreProcessDataForInference
                 {[1%positive := ["EC50"; "EC10"; "NOEC"]]} (table two_rows))
              1%positive ["EC50"; "EC10"; "NOEC"]) as [Hboth _]; [reflexivity|].
  apply Hboth; repeat constructor.
Defined.

(** C10, as stated, fails on a list that names NOEC twice: one NOEC is
    still in the caller's list after the call. *)
Lemma caller_list_keeps_second_NOEC :
  let l := ["EC50"; "EC10"; "NOEC"; "NOEC"] in
  let σ := PreProcessDataForInference {[1%positive := l]} (table two_rows) in
  "EC10" ∈ l ∧ "NOEC" ∈ l ∧
  ∃ l', lists (__GetOneHotEndpoint 1 σ).2 !! 1%positive = Some l' ∧ "NOEC" ∈ l'.
Proof.
  split; [repeat constructor|]. split; [repeat constructor|].
  exists ["EC50"; "EC10"; "NOEC"]. split; [reflexivity|repeat constructor].
Qed.

(** ** The three ways through each encoder *)

#[export] Instance endpoints_known_dec l df : Decision (endpoints_known l df).
Proof. unfold endpoints_known. apply _. Defined.

#[export] Instance effects_known_dec l df : Decision (effects_known l df).
Proof. unfold effects_known. apply _. Defined.

Section endpoint_paths.
Context (σ : Store) (r : loc) (l : list string).
Hypothesis Hl : lists σ !! r = Some l.

Lemma GetOneHotEndpoint_skips :
  ¬ 1 < length (working l) →
  __GetOneHotEndpoint r σ =
    (Return (dataframe (merge_store r l σ)),
     mkStore (lists (merge_store r l σ)) (dataframe (merge_store r l σ))
       (stdout (merge_store r l σ) ++ [Did_not_return_onehotencoding_for_Endpoint])).
Proof.
  intros Hlen. rewrite (GetOneHotEndpoint_eq _ _ _ Hl). unfold endpoint_stage.
  by rewrite bool_decide_eq_false_2.
Qed.

Lemma GetOneHotEndpoint_attaches :
  1 < length (working l) → endpoints_known l (dataframe σ) →
  __GetOneHotEndpoint r σ =
    (Return (attach "OneHotEnc_endpoint" (endpoint_column l (dataframe σ))
               (dataframe (merge_store r l σ))),
     mkStore (lists (merge_store r l σ))
       (attach "OneHotEnc_endpoint" (endpoint_column l (dataframe σ))
          (dataframe (merge_store r l σ)))
       (stdout (merge_store r l σ))).
Proof.
  intros Hlen Hknown. rewrite (GetOneHotEndpoint_eq _ _ _ Hl). unfold endpoint_stage.
  rewrite bool_decide_eq_true_2 by done.
  rewrite merge_store_rows, apply_endpoint_known.
  - unfold endpoint_column. by rewrite <- !list_fmap_compose.
  - rewrite <- list_fmap_compose. by apply Forall_fmap.
Qed.

Lemma GetOneHotEndpoint_raises :
  1 < length (working l) → ¬ endpoints_known l (dataframe σ) →
  __GetOneHotEndpoint r σ = (Raise (Exception unexpected), merge_store r l σ).
Proof.
  intros Hlen Hunknown. rewrite (GetOneHotEndpoint_eq _ _ _ Hl). unfold endpoint_stage.
  rewrite bool_decide_eq_true_2 by done.
  rewrite merge_store_rows.
  destruct (apply_endpoint_unknown (merged l <$> (endpoint <$> rows (dataframe σ))))
    as [e ->]; [|done].
  rewrite <- list_fmap_compose. apply Exists_fmap.
  by apply not_Forall_Exists in Hunknown; [|apply _].
Qed.
End endpoint_paths.

Section effect_paths.
Context (σ : Store) (r : loc) (l : list string).
Hypothesis Hl : lists σ !! r = Some l.

Lemma GetOneHotEffect_skips :
  ¬ 1 < length l →
  __GetOneHotEffect r σ =
    (Return (dataframe σ),
     mkStore (lists σ) (dataframe σ)
       (stdout σ ++ [Did_not_return_onehotencoding_for_Effect])).
Proof.
  intros Hlen. rewrite (GetOneHotEffect_eq _ _ _ Hl). unfold effect_stage.
  by rewrite bool_decide_eq_false_2.
Qed.

Lemma GetOneHotEffect_attaches :
  1 < length l → effects_known l (dataframe σ) →
  ∃ vs,
    __GetOneHotEffect r σ =
      (Return (attach "OneHotEnc_effect" (ndarray <$> vs) (dataframe σ)),
       mkStore (lists σ)
         (attach "OneHotEnc_effect" (ndarray <$> vs) (dataframe σ)) (stdout σ)) ∧
    Forall2 (λ row v, ∃ i, l !! i = Some (effect row) ∧
                           (effect row ∉ drop (S i) l) ∧
                           v = eye_row (length l) i) (rows (dataframe σ)) vs.
Proof.
  intros Hlen Hknown. rewrite (GetOneHotEffect_eq _ _ _ Hl). unfold effect_stage.
  rewrite bool_decide_eq_true_2 by done.
  destruct (apply_effect_known l (effect <$> rows (dataframe σ))) as (vs & -> & Hvs).
  { by apply Forall_fmap. }
  exists vs. split; [done|]. by apply Forall2_fmap_l in Hvs.
Qed.

Lemma GetOneHotEffect_raises :
  1 < length l → ¬ effects_known l (dataframe σ) →
  __GetOneHotEffect r σ = (Raise (Exception unexpected), σ).
Proof.
  intros Hlen Hunknown. rewrite (GetOneHotEffect_eq _ _ _ Hl). unfold effect_stage.
  rewrite bool_decide_eq_true_2 by done.
  destruct (apply_effect_unknown l (effect <$> rows (dataframe σ))) as [e ->]; [|done].
  apply Exists_fmap. by apply not_Forall_Exists in Hunknown; [|apply _].
Qed.
End effect_paths.

(** ** When a column is attached *)

(** C1 meets a defect here. The class documentation says that no one-hot
    encoding is generated when the data consists of a single endpoint;
    every row of this table reads EC50, the caller declared two labels,
    and the endpoint encoder attaches its column all the same. *)
Lemma single_endpoint_table_gets_column :
  let rs := [mkRow "C1=CC=CC=C1" 96 "EC50" "MOR"; mkRow "CCO" 48 "EC50" "MOR"] in
  let σ := PreProcessDataForInference {[1%positive := ["EC50"; "EC10"]]} (table rs) in
  Forall (λ row, endpoint row = "EC50") rs ∧
  getitem "OneHotEnc_endpoint" (attached (dataframe (__GetOneHotEndpoint 1 σ).2))
    = Some [ndarray [1; 0]%Z; ndarray [1; 0]%Z].
Proof. split; [by repeat constructor|reflexivity]. Qed.

(** C1, what the code does instead. Whether a column is attached is
    decided by the caller's labels, not by the values present in the
    table: on a table that does not carry the column yet, the endpoint
    encoder attaches it exactly when the working label list (the
    caller's list after the removal of NOEC) holds more than one label
    and every row's merged endpoint is EC50 or EC10; the effect encoder
    exactly when the caller's effect list holds more than one label and
    every row's effect is in it. In particular, for a table where every
    row reads EC50, the endpoint encoder attaches no column exactly when
    the working list holds at most one label. *)
Theorem onehot_column_follows_declared_labels (σ : Store) (r : loc)
    (l : list string) :
  lists σ !! r = Some l →
  (getitem "OneHotEnc_endpoint" (attached (dataframe σ)) = None →
     (is_Some (getitem "OneHotEnc_endpoint"
                 (attached (dataframe (__GetOneHotEndpoint r σ).2))) ↔
      1 < length (working l) ∧ endpoints_known l (dataframe σ)) ∧
     (Forall (λ row, endpoint row = "EC50") (rows (dataframe σ)) →
      getitem "OneHotEnc_endpoint"
        (attached (dataframe (__GetOneHotEndpoint r σ).2)) = None ↔
      (length (working l) ≤ 1)%nat)) ∧
  (getitem "OneHotEnc_effect" (attached (dataframe σ)) = None →
     is_Some (getitem "OneHotEnc_effect"
                (attached (dataframe (__GetOneHotEffect r σ).2))) ↔
     1 < length l ∧ effects_known l (dataframe σ)).
Proof.
  intros Hl.
  assert (getitem "OneHotEnc_endpoint" (attached (dataframe σ)) = None →
          is_Some (getitem "OneHotEnc_endpoint"
                     (attached (dataframe (__GetOneHotEndpoint r σ).2))) ↔
          1 < length (working l) ∧ endpoints_known l (dataframe σ)) as Hendpoint.
  { intros Hfresh.
    destruct (decide (1 < length (working l))) as [Hlen|Hlen].
    - destruct (decide (endpoints_known l (dataframe σ))) as [Hk|Hk].
      + rewrite (GetOneHotEndpoint_attaches _ _ _ Hl Hlen Hk). simpl.
        rewrite getitem_setitem. split; [done|eauto].
      + rewrite (GetOneHotEndpoint_raises _ _ _ Hl Hlen Hk). simpl.
        rewrite merge_store_attached, Hfresh. split; [by intros [? ?]|tauto].
    - rewrite (GetOneHotEndpoint_skips _ _ _ Hl Hlen). simpl.
      rewrite merge_store_attached, Hfresh. split; [by intros [? ?]|tauto]. }
  split; [|].
  - intros Hfresh. split; [by apply Hendpoint|].
    intros HEC50. rewrite eq_None_not_Some, (Hendpoint Hfresh).
    assert (endpoints_known l (dataframe σ)) as Hk.
    { unfold endpoints_known. eapply Forall_impl; [exact HEC50|].
      intros row ->. unfold merged. repeat case_decide; try done; by left. }
    split; [intros Hno; apply Nat.le_ngt; tauto|intros ? [? _]; lia].
  - intros Hfresh.
    destruct (decide (1 < length l)) as [Hlen|Hlen].
    + destruct (decide (effects_known l (dataframe σ))) as [Hk|Hk].
      * destruct (GetOneHotEffect_attaches _ _ _ Hl Hlen Hk) as (vs & -> & _). simpl.
        rewrite getitem_setitem. split; [done|eauto].
      * rewrite (GetOneHotEffect_raises _ _ _ Hl Hlen Hk). simpl.
        rewrite Hfresh. split; [by intros [? ?]|tauto].
    + rewrite (GetOneHotEffect_skips _ _ _ Hl Hlen). simpl.
      rewrite Hfresh. split; [by intros [? ?]|tauto].
Qed.

Lemma onehot_column_follows_declared_labels_witness :
  is_Some (getitem "OneHotEnc_endpoint"
             (attached (dataframe
                (__GetOneHotEndpoint 1
                   (PreProcessDataForInference
                      {[1%positive := ["EC50"; "EC10"; "NOEC"]]}
                      (table two_rows))).2))).
Proof.
  destruct (onehot_column_follows_declared_labels
              (PreProcessDataForInference
                 {[1%positive := ["EC50"; "EC10"; "NOEC"]]} (table two_rows))
              1%positive ["EC50"; "EC10"; "NOEC"]) as [Hendpoint _]; [reflexivity|].
  destruct Hendpoint as [Hiff _]; [reflexivity|].
  apply Hiff. split; [vm_compute; lia|].
  repeat constructor.
Defined.

(** ** What the attached columns hold *)

(** C3, as stated, fails: the table reads EC50 and EC10, the caller
    declared one label, and no column is attached. *)
Lemma two_endpoint_table_one_label_no_column :
  let rs := [mkRow "C1=CC=CC=C1" 96 "EC50" "MOR"; mkRow "CCO" 48 "EC10" "MOR"] in
  let σ := PreProcessDataForInference {[1%positive := ["EC50"]]} (table rs) in
  ∃ df' σ', __GetOneHotEndpoint 1 σ = (Return df', σ') ∧
    endpoint <$> rows df' = ["EC50"; "EC10"] ∧
    getitem "OneHotEnc_endpoint" (attached df') = None.
Proof. do 2 eexists. split; [reflexivity|]. split; reflexivity. Qed.

(** C3, as the code has it. When the working endpoint list holds more
    than one label and every row reads EC50 or EC10 after the merge, the
    endpoint encoder attaches a column with one vector per row: [1, 0]
    on the EC50 rows and [0, 1] on the EC10 rows, whatever the order (or
    content) of the caller's list. When the effect list holds more than
    one label and every row's effect is in it, the effect encoder
    attaches a column in which a row whose effect stands (for the last
    time) at position [i] of the caller's list gets row [i] of the
    identity matrix of the size of that list. *)
Theorem indicator_positions (σ : Store) (r : loc) (l : list string) :
  lists σ !! r = Some l →
  (1 < length (working l) → endpoints_known l (dataframe σ) →
     ∃ df' σ' col, __GetOneHotEndpoint r σ = (Return df', σ') ∧
       getitem "OneHotEnc_endpoint" (attached df') = Some col ∧
       length col = len (dataframe σ) ∧
       ∀ j row, rows (dataframe σ) !! j = Some row →
         (merged l (endpoint row) = "EC50" → col !! j = Some (ndarray [1; 0]%Z)) ∧
         (merged l (endpoint row) = "EC10" → col !! j = Some (ndarray [0; 1]%Z))) ∧
  (1 < length l → effects_known l (dataframe σ) →
     ∃ df' σ' col, __GetOneHotEffect r σ = (Return df', σ') ∧
       getitem "OneHotEnc_effect" (attached df') = Some col ∧
       length col = len (dataframe σ) ∧
       ∀ j row i, rows (dataframe σ) !! j = Some row →
         l !! i = Some (effect row) → effect row ∉ drop (S i) l →
         col !! j = Some (ndarray (eye_row (length l) i))).
Proof.
  intros Hl. split.
  - intros Hlen Hk. rewrite (GetOneHotEndpoint_attaches _ _ _ Hl Hlen Hk).
    do 3 eexists. split; [done|]. simpl. rewrite getitem_setitem.
    split; [done|]. unfold endpoint_column. split; [by rewrite length_fmap|].
    intros j row Hj. rewrite list_lookup_fmap, Hj. simpl.
    split; intros ->; done.
  - intros Hlen Hk.
    destruct (GetOneHotEffect_attaches _ _ _ Hl Hlen Hk) as (vs & -> & Hvs).
    do 3 eexists. split; [done|]. simpl. rewrite getitem_setitem.
    split; [done|]. split.
    + rewrite length_fmap. symmetry. by eapply Forall2_length.
    + intros j row i Hj Hi Hlast. rewrite list_lookup_fmap.
      destruct (Forall2_lookup_l _ _ _ _ _ Hvs Hj) as (v & -> & i' & Hi' & Hlast' & ->).
      simpl. by rewrite (last_occurrence_unique l i i' (effect row)).
Qed.

Lemma indicator_positions_witness :
  ∃ df' σ' col,
    __GetOneHotEndpoint 1
      (PreProcessDataForInference
         {[1%positive := ["EC10"; "NOEC"; "EC50"]]} (table two_rows))
      = (Return df', σ') ∧
    getitem "OneHotEnc_endpoint" (attached df') = Some col ∧
    length col = len (table two_rows) ∧
    ∀ j row, two_rows !! j = Some row →
      (merged ["EC10"; "NOEC"; "EC50"] (endpoint row) = "EC50" →
       col !! j = Some (ndarray [1; 0]%Z)) ∧
      (merged ["EC10"; "NOEC"; "EC50"] (endpoint row) = "EC10" →
       col !! j = Some (ndarray [0; 1]%Z)).
Proof.
  destruct (indicator_positions
              (PreProcessDataForInference
                 {[1%positive := ["EC10"; "NOEC"; "EC50"]]} (table two_rows))
              1%positive ["EC10"; "NOEC"; "EC50"]) as [Hendpoint _]; [reflexivity|].
  apply Hendpoint; [vm_compute; lia|repeat constructor].
Defined.

(** ** Unknown labels *)

Lemma GetOneHotEnc_endpoint_raises re rf σ e σ' :
  __GetOneHotEndpoint re σ = (Raise e, σ') →
  GetOneHotEnc re rf σ = (Raise e, σ').
Proof. intros Hrun. unfold GetOneHotEnc, mbind, M_bind. by rewrite Hrun. Qed.

Lemma GetOneHotEnc_effect_raises re rf σ df σ1 e σ' :
  __GetOneHotEndpoint re σ = (Return df, σ1) →
  __GetOneHotEffect rf σ1 = (Raise e, σ') →
  GetOneHotEnc re rf σ = (Raise e, σ').
Proof.
  intros Hrun1 Hrun2. unfold GetOneHotEnc, mbind, M_bind. by rewrite Hrun1, Hrun2.
Qed.

(** The list the effect encoder finds behind [rf] after the endpoint
    encoder ran with [re]. *)
Lemma merge_store_effect_labels σ re rf le lf :
  lists σ !! re = Some le → lists σ !! rf = Some lf →
  lists (merge_store re le σ) !! rf = Some (effect_labels re rf le lf).
Proof.
  intros Hle Hlf. unfold effect_labels. case_decide as Halias.
  - subst rf. by apply merge_store_lists.
  - unfold merge_store. case_decide; [|done]. simpl. by rewrite lookup_insert_ne.
Qed.

Lemma effects_known_rows l df df' :
  effect <$> rows df' = effect <$> rows df →
  effects_known l df' ↔ effects_known l df.
Proof.
  intros Heq. unfold effects_known.
  assert (∀ rs, Forall (λ row, effect row ∈ l) rs ↔
                Forall (λ e, e ∈ l) (effect <$> rs)) as Hfmap.
  { intros rs. by rewrite Forall_fmap. }
  by rewrite !Hfmap, Heq.
Qed.



(** C7, as stated, fails: the third row carries the effect GRO, which
    the caller did not declare. The exception reaches the caller, but the
    endpoint encoder has run by then and its work stays: its column is
    attached to the processor's table, the NOEC row reads EC10, and NOEC
    is gone from the caller's list. *)
Lemma effect_failure_keeps_endpoint_column :
  let rs := two_rows ++ [mkRow "CC" 24 "EC50" "GRO"] in
  let σ := PreProcessDataForInference two_label_lists (table rs) in
  Exists (λ row, effect row ∉ ["MOR"; "DVP"]) rs ∧
  ∃ σ', GetOneHotEnc 1 2 σ
          = (Raise (Exception "An unexpected error occurred."), σ') ∧
    getitem "OneHotEnc_endpoint" (attached (dataframe σ'))
      = Some [ndarray [1; 0]%Z; ndarray [0; 1]%Z; ndarray [1; 0]%Z] ∧
    endpoint <$> rows (dataframe σ') = ["EC50"; "EC10"; "EC50"] ∧
    lists σ' !! 1%positive = Some ["EC50"; "EC10"].
Proof.
  split.
  - apply Exists_cons_tl, Exists_cons_tl, Exists_cons_hd. simpl.
    intros Hin. by repeat (apply elem_of_cons in Hin as [?|Hin]; [done|]);
      apply elem_of_nil in Hin.
  - eexists. split; [reflexivity|]. split; [reflexivity|]. split; reflexivity.
Qed.

(** C7, as the code has it. While an encoder attaches its column, that
    is when its label list (the working endpoint list, resp. the effect
    list) holds more than one label, a row whose label has no entry in
    the dictionary of that category (EC50 and EC10 for the endpoint after
    the merge, the caller's labels for the effect) makes the encoder
    raise an exception with the message [An unexpected error occurred.];
    [GetOneHotEnc] raises the same exception to its caller instead of
    returning a table, and attaches neither the failing encoder's column
    nor the combined column. What ran before the failure stays: the rows
    renamed by the merge and the caller's list without (the first) NOEC,
    and, when it is the effect encoder that fails, the column of the
    endpoint encoder. *)
Theorem unknown_label_aborts (σ : Store) (re rf : loc) (le lf : list string) :
  lists σ !! re = Some le → lists σ !! rf = Some lf →
  (1 < length (working le) →
   Exists (λ row, merged le (endpoint row) ∉ encoding_order) (rows (dataframe σ)) →
     ∃ σ', __GetOneHotEndpoint re σ
             = (Raise (Exception "An unexpected error occurred."), σ') ∧
       GetOneHotEnc re rf σ
         = (Raise (Exception "An unexpected error occurred."), σ') ∧
       attached (dataframe σ') = attached (dataframe σ) ∧
       endpoint <$> rows (dataframe σ')
         = merged le <$> (endpoint <$> rows (dataframe σ)) ∧
       lists σ' !! re = Some (working le)) ∧
  (1 < length lf →
   Exists (λ row, effect row ∉ lf) (rows (dataframe σ)) →
     __GetOneHotEffect rf σ
       = (Raise (Exception "An unexpected error occurred."), σ) ∧
     ∀ re' σ0 df, __GetOneHotEndpoint re' σ0 = (Return df, σ) →
       GetOneHotEnc re' rf σ0
         = (Raise (Exception "An unexpected error occurred."), σ)) ∧
  ((1 < length (working le) → endpoints_known le (dataframe σ)) →
   1 < length (effect_labels re rf le lf) →
   Exists (λ row, effect row ∉ effect_labels re rf le lf) (rows (dataframe σ)) →
     ∃ df1 σ1, __GetOneHotEndpoint re σ = (Return df1, σ1) ∧
       GetOneHotEnc re rf σ
         = (Raise (Exception "An unexpected error occurred."), σ1) ∧
       endpoint <$> rows (dataframe σ1)
         = merged le <$> (endpoint <$> rows (dataframe σ)) ∧
       lists σ1 !! re = Some (working le) ∧
       (1 < length (working le) →
        getitem "OneHotEnc_endpoint" (attached (dataframe σ1))
          = Some (endpoint_column le (dataframe σ))) ∧
       (∀ name, name ≠ "OneHotEnc_endpoint" →
          getitem name (attached (dataframe σ1))
            = getitem name (attached (dataframe σ)))) ∧
  str_contains "unexpected error occurred" "An unexpected error occurred." = true.
Proof.
  intros Hle Hlf. split; [|split; [|split; [|reflexivity]]].
  - intros Hlen Hex.
    assert (¬ endpoints_known le (dataframe σ)) as Hk
      by (by apply Exists_not_Forall).
    pose proof (GetOneHotEndpoint_raises _ _ _ Hle Hlen Hk) as Hrun.
    eexists. split; [exact Hrun|].
    split; [by apply GetOneHotEnc_endpoint_raises|].
    split; [apply merge_store_attached|].
    split; [apply merge_store_rows|by apply merge_store_lists].
  - intros Hlen Hex.
    assert (¬ effects_known lf (dataframe σ)) as Hk
      by (by apply Exists_not_Forall).
    pose proof (GetOneHotEffect_raises _ _ _ Hlf Hlen Hk) as Hrun.
    split; [exact Hrun|]. intros re' σ0 df Hrun0.
    by eapply GetOneHotEnc_effect_raises.
  - intros Hok Hlen Hex.
    assert (¬ effects_known (effect_labels re rf le lf) (dataframe σ)) as Hk
      by (by apply Exists_not_Forall).
    pose proof (merge_store_effect_labels σ re rf le lf Hle Hlf) as Hlf1.
    destruct (decide (1 < length (working le))) as [HlenE|HlenE].
    + pose proof (GetOneHotEndpoint_attaches _ _ _ Hle HlenE (Hok HlenE)) as Hrun1.
      do 2 eexists. split; [exact Hrun1|]. split.
      * eapply GetOneHotEnc_effect_raises; [exact Hrun1|].
        apply (GetOneHotEffect_raises (mkStore _ _ _) rf _ Hlf1 Hlen). simpl.
        intros Hk'. apply Hk. revert Hk'. apply effects_known_rows. simpl.
        symmetry. apply merge_store_effects.
      * simpl. split; [apply merge_store_rows|].
        split; [by apply merge_store_lists|]. split.
        -- intros _. apply getitem_setitem.
        -- intros name Hname.
           by rewrite getitem_setitem_ne, merge_store_attached.
    + pose proof (GetOneHotEndpoint_skips _ _ _ Hle HlenE) as Hrun1.
      do 2 eexists. split; [exact Hrun1|]. split.
      * eapply GetOneHotEnc_effect_raises; [exact Hrun1|].
        apply (GetOneHotEffect_raises (mkStore _ _ _) rf _ Hlf1 Hlen). simpl.
        intros Hk'. apply Hk. revert Hk'. apply effects_known_rows. simpl.
        symmetry. apply merge_store_effects.
      * simpl. split; [apply merge_store_rows|].
        split; [by apply merge_store_lists|]. split; [done|].
        intros name _. by rewrite merge_store_attached.
Qed.

Lemma unknown_label_aborts_witness :
  ∃ σ',
    __GetOneHotEndpoint 1
      (PreProcessDataForInference
         (<[1%positive := ["EC50"; "LC50"]]> {[2%positive := ["MOR"; "DVP"]]})
         (table two_rows))
      = (Raise (Exception "An unexpected error occurred."), σ') ∧
    GetOneHotEnc 1 2
      (PreProcessDataForInference
         (<[1%positive := ["EC50"; "LC50"]]> {[2%positive := ["MOR"; "DVP"]]})
         (table two_rows))
      = (Raise (Exception "An unexpected error occurred."), σ') ∧
    attached (dataframe σ') = [].
Proof.
  destruct (unknown_label_aborts
              (PreProcessDataForInference
                 (<[1%positive := ["EC50"; "LC50"]]> {[2%positive := ["MOR"; "DVP"]]})
                 (table two_rows))
              1%positive 2%positive ["EC50"; "LC50"] ["MOR"; "DVP"])
    as [Hendpoint _]; [reflexivity|reflexivity|].
  destruct Hendpoint as (σ' & Hrun1 & Hrun & Hatt & _); [vm_compute; lia| |].
  - apply Exists_cons_tl, Exists_cons_hd. vm_compute.
    intros Hin. by repeat (apply elem_of_cons in Hin as [?|Hin]; [done|]);
      apply elem_of_nil in Hin.
  - by exists σ'.
Defined.

(** ** The assembler *)

Lemma mapM_ndarray (vs : list (list Z)) :
  mapM cell_tolist (ndarray <$> vs) = Some vs.
Proof.
  apply mapM_Some. induction vs as [|v vs IH]; simpl; by constructor.
Qed.

Lemma column_array_ndarray df col vs :
  getitem col (attached df) = Some (ndarray <$> vs) →
  column_array df col = np_array vs.
Proof.
  intros Hcol. unfold column_array. rewrite Hcol. simpl.
  by rewrite mapM_ndarray.
Qed.

(** Vectors of one length make an array; [tolist] gives them back. *)
Lemma np_array_rect vs w :
  Forall (λ v, length v = w) vs →
  ∃ a, np_array vs = Some a ∧ tolist a = vs ∧
       (a = Arr0 ∧ vs = [] ∨ a = Arr2 vs ∧ vs ≠ []).
Proof.
  intros Hw. destruct vs as [|v vs]; simpl.
  - exists Arr0. auto.
  - exists (Arr2 (v :: vs)). split; [|split; [done|right; done]].
    apply Forall_cons in Hw as [Hv Hvs].
    assert (forallb (λ u, bool_decide (length u = length v)) vs = true) as ->; [|done].
    apply forallb_forall. intros u Hu%list_elem_of_In.
    apply bool_decide_eq_true_2. rewrite Forall_forall in Hvs.
    by rewrite (Hvs u Hu).
Qed.

Lemma concatenate_columns_none df :
  filter_like "OneHotEnc" df = [] → concatenate_columns df = None.
Proof. intros Hnone. unfold concatenate_columns. by rewrite Hnone. Qed.

Lemma concatenate_columns_one df name vs w :
  filter_like "OneHotEnc" df = [name] →
  getitem name (attached df) = Some (ndarray <$> vs) →
  Forall (λ v, length v = w) vs → length vs = len df →
  concatenate_columns df =
    Some (attach "OneHotEnc_concatenated" (pylist <$> vs) df).
Proof.
  intros Hcols Hcol Hw Hlen. unfold concatenate_columns. rewrite Hcols. simpl.
  rewrite (column_array_ndarray _ _ _ Hcol).
  destruct (np_array_rect vs w Hw) as (a & -> & Ha & _). simpl.
  unfold concat_next at 1. simpl. unfold setitem_list.
  by rewrite Ha, bool_decide_eq_true_2.
Qed.

Lemma concatenate_columns_two df name1 name2 vs1 vs2 w1 w2 :
  filter_like "OneHotEnc" df = [name1; name2] →
  getitem name1 (attached df) = Some (ndarray <$> vs1) →
  getitem name2 (attached df) = Some (ndarray <$> vs2) →
  Forall (λ v, length v = w1) vs1 → Forall (λ v, length v = w2) vs2 →
  length vs1 = len df → length vs2 = len df →
  concatenate_columns df =
    Some (attach "OneHotEnc_concatenated" (pylist <$> zip_with app vs1 vs2) df).
Proof.
  intros Hcols Hcol1 Hcol2 Hw1 Hw2 Hlen1 Hlen2.
  unfold concatenate_columns. rewrite Hcols. simpl.
  rewrite (column_array_ndarray _ _ _ Hcol1).
  destruct (np_array_rect vs1 w1 Hw1) as (a1 & -> & Ha1 & Hshape1). simpl.
  unfold concat_next. simpl.
  rewrite (column_array_ndarray _ _ _ Hcol2).
  destruct (np_array_rect vs2 w2 Hw2) as (a2 & -> & Ha2 & Hshape2). simpl.
  unfold setitem_list.
  destruct Hshape1 as [[-> ->]|[-> Hne1]].
  - simpl in *. rewrite bool_decide_eq_true_2 by done. done.
  - destruct Hshape2 as [[-> ->]|[-> Hne2]].
    + simpl in *. destruct vs1; [done|]. unfold len in *. simpl in *. lia.
    + simpl. rewrite (bool_decide_eq_true_2 (length vs1 = length vs2)) by congruence.
      simpl. rewrite bool_decide_eq_true_2; [done|].
      rewrite length_zip_with. lia.
Qed.

Lemma endpoint_dict_width e v : endpoint_dict !! e = Some v → length v = 2.
Proof. intros Hv. by apply hot_enc_dict_lookup_Some in Hv as [_ ->]. Qed.

Lemma effect_dict_width l e v : effect_dict l !! e = Some v → length v = length l.
Proof. intros Hv. by apply hot_enc_dict_lookup_Some in Hv as [_ ->]. Qed.

(** A column built over a dictionary whose vectors are [w] wide. *)
Lemma apply_hot_enc_width d w xs col :
  (∀ x v, d !! x = Some v → length v = w) →
  apply (hot_enc d) xs = Return col →
  ∃ vs, col = ndarray <$> vs ∧ length vs = length xs ∧
        Forall (λ v, length v = w) vs.
Proof.
  intros Hd (vs & -> & Hall)%apply_hot_enc_inv. exists vs.
  split; [done|]. split; [symmetry; by eapply Forall2_length|].
  induction Hall; constructor; eauto.
Qed.

Lemma endpoint_stage_Return l σ1 df1 σ2 :
  endpoint_stage l σ1 = (Return df1, σ2) →
  dataframe σ2 = df1 ∧ lists σ2 = lists σ1 ∧
  stage_result "OneHotEnc_endpoint" 2 (dataframe σ1) df1.
Proof.
  unfold endpoint_stage, stage_result. case_bool_decide.
  - destruct (apply _ _) as [col|] eqn:Hcol; [|done]. intros [= <- <-]. simpl.
    apply (apply_hot_enc_width _ 2) in Hcol as (vs & -> & Hlen & Hw);
      [|apply endpoint_dict_width].
    repeat split; try done. right. exists vs.
    rewrite length_fmap in Hlen. done.
  - intros [= <- <-]. simpl. repeat split; try done. by left.
Qed.

Lemma effect_stage_Return l σ1 df1 σ2 :
  effect_stage l σ1 = (Return df1, σ2) →
  dataframe σ2 = df1 ∧ lists σ2 = lists σ1 ∧
  stage_result "OneHotEnc_effect" (length l) (dataframe σ1) df1.
Proof.
  unfold effect_stage, stage_result. case_bool_decide.
  - destruct (apply _ _) as [col|] eqn:Hcol; [|done]. intros [= <- <-]. simpl.
    apply (apply_hot_enc_width _ (length l)) in Hcol as (vs & -> & Hlen & Hw);
      [|apply effect_dict_width].
    repeat split; try done. right. exists vs.
    rewrite length_fmap in Hlen. done.
  - intros [= <- <-]. simpl. repeat split; try done. by left.
Qed.

Lemma merge_store_lists_is_Some σ r l r' :
  is_Some (lists σ !! r') → is_Some (lists (merge_store r l σ) !! r').
Proof.
  unfold merge_store. case_decide; [|done]. simpl.
  destruct (decide (r = r')) as [->|Hne].
  - by rewrite lookup_insert_eq.
  - by rewrite lookup_insert_ne.
Qed.

(** [GetOneHotEnc] returns exactly when both encoders return, and then
    returns the assembled frame. *)
Lemma GetOneHotEnc_Return re rf σ df' σ' :
  GetOneHotEnc re rf σ = (Return df', σ') →
  ∃ df1 σ1 df2 σ2,
    __GetOneHotEndpoint re σ = (Return df1, σ1) ∧
    __GetOneHotEffect rf σ1 = (Return df2, σ2) ∧
    df' = assemble (dataframe σ2) ∧ dataframe σ' = df'.
Proof.
  unfold GetOneHotEnc, mbind, M_bind.
  destruct (__GetOneHotEndpoint re σ) as [[df1|e] σ1] eqn:Hrun1; [|done].
  destruct (__GetOneHotEffect rf σ1) as [[df2|e] σ2] eqn:Hrun2; [|done].
  unfold self_dataframe, assemble. intros Hrun. exists df1, σ1, df2, σ2.
  split; [done|]. split; [done|].
  destruct (concatenate_columns (dataframe σ2)) as [df''|];
    unfold set_self_dataframe, print in Hrun; simpl in Hrun;
    by injection Hrun as <- <-.
Qed.

Lemma row_concat_two vs1 vs2 i v w :
  vs1 !! i = Some v → vs2 !! i = Some w →
  row_concat [ndarray <$> vs1; ndarray <$> vs2] i = v ++ w.
Proof.
  intros H1 H2. unfold row_concat. simpl.
  rewrite !list_lookup_fmap, H1, H2. simpl. by rewrite app_nil_r.
Qed.

Lemma row_concat_one vs i v :
  vs !! i = Some v → row_concat [ndarray <$> vs] i = v.
Proof.
  intros H1. unfold row_concat. simpl.
  rewrite !list_lookup_fmap, H1. simpl. by rewrite app_nil_r.
Qed.

(** The search for one-hot columns sees the columns whose name
    contains OneHotEnc, and nothing of the others. *)
Lemma filter_setitem like name col (cols : list (string * list cell)) :
  str_contains like name = true →
  filter (λ kc, str_contains like kc.1 = true) (setitem name col cols) =
  setitem name col (filter (λ kc, str_contains like kc.1 = true) cols).
Proof.
  intros Hname. induction cols as [|[k c] cols IH]; simpl.
  - by rewrite filter_cons, decide_True.
  - destruct (decide (k = name)) as [->|Hk].
    + rewrite !filter_cons, !decide_True by done. simpl.
      by rewrite decide_True.
    + rewrite !filter_cons. simpl.
      destruct (decide (str_contains like k = true)); [|done]. simpl.
      by rewrite decide_False, IH.
Qed.

Lemma filter_setitem_ne like name col (cols : list (string * list cell)) :
  str_contains like name = false →
  filter (λ kc, str_contains like kc.1 = true) (setitem name col cols) =
  filter (λ kc, str_contains like kc.1 = true) cols.
Proof.
  intros Hname. induction cols as [|[k c] cols IH]; simpl.
  - by rewrite filter_cons, decide_False by (simpl; by rewrite Hname).
  - destruct (decide (k = name)) as [->|Hk].
    + by rewrite !filter_cons, !decide_False by (simpl; by rewrite Hname).
    + rewrite !filter_cons. simpl. by rewrite IH.
Qed.

Lemma getitem_filter like name (cols : list (string * list cell)) :
  str_contains like name = true →
  getitem name (filter (λ kc, str_contains like kc.1 = true) cols) =
  getitem name cols.
Proof.
  intros Hname. induction cols as [|[k c] cols IH]; simpl; [done|].
  rewrite filter_cons. simpl. destruct (decide (k = name)) as [->|Hk].
  - rewrite decide_True by done. simpl. by rewrite decide_True.
  - destruct (decide (str_contains like k = true)); simpl;
      [by rewrite decide_False|done].
Qed.

Lemma filter_like_onehot_part df :
  filter_like "OneHotEnc" df = (onehot_part df).*1.
Proof. done. Qed.

Lemma onehot_part_attach name col df :
  str_contains "OneHotEnc" name = true →
  onehot_part (attach name col df) = setitem name col (onehot_part df).
Proof. intros Hname. unfold onehot_part. simpl. by apply filter_setitem. Qed.

Lemma onehot_part_attach_ne name col df :
  str_contains "OneHotEnc" name = false →
  onehot_part (attach name col df) = onehot_part df.
Proof. intros Hname. unfold onehot_part. simpl. by apply filter_setitem_ne. Qed.

Lemma getitem_onehot_part name df :
  str_contains "OneHotEnc" name = true →
  getitem name (attached df) = getitem name (onehot_part df).
Proof. intros Hname. unfold onehot_part. symmetry. by apply getitem_filter. Qed.

(** What [stage_result] says of the one-hot columns. *)
Lemma stage_result_onehot_part name w df0 df1 :
  str_contains "OneHotEnc" name = true →
  stage_result name w df0 df1 →
  rows df1 = rows df0 ∧
  (onehot_part df1 = onehot_part df0 ∨
   ∃ vs, onehot_part df1 = setitem name (ndarray <$> vs) (onehot_part df0) ∧
         length vs = len df0 ∧ Forall (λ v, length v = w) vs).
Proof.
  intros Hname (Hrows & Hatt). split; [done|].
  destruct Hatt as [Hatt|(vs & Hatt & Hlen & Hw)].
  - left. unfold onehot_part. by rewrite Hatt.
  - right. exists vs. split; [|done].
    unfold onehot_part. rewrite Hatt. by apply filter_setitem.
Qed.

(** C4, as stated, fails on a table that already carries a combined
    column. The first call is the one of the upload page, with one label
    per category; a second call on the same processor declares two
    labels per category, both one-hot columns are produced, and every row
    gets the zero vector all the same: the search finds the old combined
    column first, and its cells are Python lists, without [tolist]. *)
Lemma stale_combined_column_gives_zero_input :
  ∃ df1 σ1 df2 σ2,
    GetOneHotEnc 1 2 (PreProcessDataForInference four_label_lists (table two_rows))
      = (Return df1, σ1) ∧
    GetOneHotEnc 3 4 σ1 = (Return df2, σ2) ∧
    produced df2 =
      [[ndarray [1; 0]%Z; ndarray [0; 1]%Z]; [ndarray [1; 0]%Z; ndarray [1; 0]%Z]] ∧
    getitem "OneHotEnc_concatenated" (attached df2)
      = Some [pylist [0]%Z; pylist [0]%Z].
Proof.
  set (run1 := GetOneHotEnc 1 2
                 (PreProcessDataForInference four_label_lists (table two_rows))).
  exists (dataframe run1.2), run1.2.
  set (run2 := GetOneHotEnc 3 4 run1.2).
  exists (dataframe run2.2), run2.2.
  split; [by vm_compute|]. split; [by vm_compute|]. split; by vm_compute.
Qed.

(** C4, as the code has it. For a table that comes in without a column
    whose name contains OneHotEnc, whenever [GetOneHotEnc] returns, the
    one-hot columns of the frame it returns are those that were produced
    (endpoint before effect), followed by the combined column, with one
    entry per row; if at least one one-hot column was produced, row [i]
    of the combined column is the concatenation, left to right in that
    order, of row [i] of the one-hot columns; if none was produced, every
    row of the combined column is the one-element zero vector. *)
Theorem combined_features_concatenate (heap : gmap loc (list string))
    (df : DataFrame) (re rf : loc) (df' : DataFrame) (σ' : Store) :
  is_Some (heap !! re) → is_Some (heap !! rf) →
  filter_like "OneHotEnc" df = [] →
  GetOneHotEnc re rf (PreProcessDataForInference heap df) = (Return df', σ') →
  ∃ combined,
    getitem "OneHotEnc_concatenated" (attached df') = Some combined ∧
    length combined = len df ∧
    filter_like "OneHotEnc" df' =
      filter (λ name, is_Some (getitem name (attached df'))) onehot_names
      ++ ["OneHotEnc_concatenated"] ∧
    ∀ i, i < len df →
      combined !! i =
        Some (pylist (match produced df' with
                      | [] => [0%Z]
                      | _ => row_concat (produced df') i
                      end)).
Proof.
  intros [le Hle] [lf Hlf] Hfresh Hrun.
  rewrite filter_like_onehot_part in Hfresh. apply fmap_nil_inv in Hfresh.
  apply GetOneHotEnc_Return in Hrun as (df1 & σ1 & df2 & σ2 & Hrun1 & Hrun2 & -> & _).
  rewrite (GetOneHotEndpoint_eq (PreProcessDataForInference heap df) re le Hle) in Hrun1.
  apply endpoint_stage_Return in Hrun1 as (Hdf1 & Hlists1 & Hstage1).
  apply stage_result_onehot_part in Hstage1 as (Hrows1 & Hatt1); [|done].
  assert (onehot_part (dataframe (merge_store re le (PreProcessDataForInference heap df)))
          = []) as Hfresh'.
  { unfold onehot_part. by rewrite merge_store_attached. }
  rewrite Hfresh' in Hatt1.
  assert (len df1 = len df) as Hlen1.
  { unfold len at 1. rewrite Hrows1. apply (merge_store_len (PreProcessDataForInference heap df)). }
  rewrite merge_store_len in Hatt1. simpl in Hatt1.
  destruct (merge_store_lists_is_Some (PreProcessDataForInference heap df) re le rf)
    as [lf' Hlf']; [by eexists|].
  rewrite <- Hlists1 in Hlf'.
  rewrite (GetOneHotEffect_eq _ rf lf' Hlf') in Hrun2.
  apply effect_stage_Return in Hrun2 as (Hdf2 & _ & Hstage2).
  apply stage_result_onehot_part in Hstage2 as (Hrows2 & Hatt2); [|done].
  rewrite Hdf1 in Hrows2, Hatt2. rewrite Hdf2.
  assert (len df2 = len df) as Hlen2.
  { unfold len at 1. by rewrite Hrows2. }
  rewrite Hlen1 in Hatt2.
  assert (∀ col name, name ≠ "OneHotEnc_concatenated" →
            str_contains "OneHotEnc" name = true →
            getitem name (setitem "OneHotEnc_concatenated" col (attached df2))
              = getitem name (onehot_part df2)) as Hget.
  { intros col name Hne Hname.
    by rewrite getitem_setitem_ne, getitem_onehot_part. }
  unfold assemble, produced, onehot_names.
  destruct Hatt1 as [Hatt1|(vsE & Hatt1 & HlenE & HwE)];
    destruct Hatt2 as [Hatt2|(vsF & Hatt2 & HlenF & HwF)];
    rewrite Hatt1 in Hatt2; simpl in Hatt2.
  - rewrite concatenate_columns_none
      by (by rewrite filter_like_onehot_part, Hatt2).
    rewrite filter_like_onehot_part, onehot_part_attach by done.
    rewrite !filter_cons, filter_nil. simpl. rewrite getitem_setitem.
    rewrite !(Hget _ "OneHotEnc_endpoint"), !(Hget _ "OneHotEnc_effect") by done.
    rewrite Hatt2. simpl.
    eexists. split; [done|].
    rewrite length_fmap. unfold np_zeros. rewrite length_replicate.
    split; [done|]. split; [done|]. intros i Hi.
    rewrite list_lookup_fmap, lookup_replicate_2 by lia. done.
  - rewrite (concatenate_columns_one df2 "OneHotEnc_effect" vsF (length lf'));
      [|by rewrite filter_like_onehot_part, Hatt2
       |by rewrite getitem_onehot_part, Hatt2|done|lia].
    rewrite filter_like_onehot_part, onehot_part_attach by done.
    rewrite !filter_cons, filter_nil. simpl. rewrite getitem_setitem.
    rewrite !(Hget _ "OneHotEnc_endpoint"), !(Hget _ "OneHotEnc_effect") by done.
    rewrite Hatt2. simpl.
    eexists. split; [done|].
    rewrite length_fmap. split; [done|]. split; [done|]. intros i Hi.
    destruct (lookup_lt_is_Some_2 vsF i) as [v Hv]; [lia|].
    rewrite (row_concat_one _ _ _ Hv), list_lookup_fmap, Hv. done.
  - rewrite (concatenate_columns_one df2 "OneHotEnc_endpoint" vsE 2);
      [|by rewrite filter_like_onehot_part, Hatt2
       |by rewrite getitem_onehot_part, Hatt2|done|lia].
    rewrite filter_like_onehot_part, onehot_part_attach by done.
    rewrite !filter_cons, filter_nil. simpl. rewrite getitem_setitem.
    rewrite !(Hget _ "OneHotEnc_endpoint"), !(Hget _ "OneHotEnc_effect") by done.
    rewrite Hatt2. simpl.
    eexists. split; [done|].
    rewrite length_fmap. split; [done|]. split; [done|]. intros i Hi.
    destruct (lookup_lt_is_Some_2 vsE i) as [v Hv]; [lia|].
    rewrite (row_concat_one _ _ _ Hv), list_lookup_fmap, Hv. done.
  - rewrite (concatenate_columns_two df2 "OneHotEnc_endpoint" "OneHotEnc_effect"
               vsE vsF 2 (length lf'));
      [|by rewrite filter_like_onehot_part, Hatt2
       |by rewrite getitem_onehot_part, Hatt2
       |by rewrite getitem_onehot_part, Hatt2
       |done|done|lia|lia].
    rewrite filter_like_onehot_part, onehot_part_attach by done.
    rewrite !filter_cons, filter_nil. simpl. rewrite getitem_setitem.
    rewrite !(Hget _ "OneHotEnc_endpoint"), !(Hget _ "OneHotEnc_effect") by done.
    rewrite Hatt2. simpl.
    eexists. split; [done|].
    rewrite length_fmap, length_zip_with. split; [lia|]. split; [done|].
    intros i Hi.
    destruct (lookup_lt_is_Some_2 vsE i) as [v Hv]; [lia|].
    destruct (lookup_lt_is_Some_2 vsF i) as [w Hw]; [lia|].
    rewrite (row_concat_two _ _ _ _ _ Hv Hw), list_lookup_fmap, lookup_zip_with, Hv.
    simpl. rewrite Hw. done.
Qed.

Lemma combined_features_concatenate_witness :
  ∃ df' σ' combined,
    GetOneHotEnc 1 2 (PreProcessDataForInference two_label_lists (table two_rows))
      = (Return df', σ') ∧
    getitem "OneHotEnc_concatenated" (attached df') = Some combined ∧
    length combined = 2 ∧
    ∀ i, i < 2 →
      combined !! i =
        Some (pylist (match produced df' with
                      | [] => [0%Z]
                      | _ => row_concat (produced df') i
                      end)).
Proof.
  destruct (GetOneHotEnc 1 2
              (PreProcessDataForInference two_label_lists (table two_rows)))
    as [[df'|e] σ'] eqn:Hrun; [|by vm_compute in Hrun].
  destruct (combined_features_concatenate two_label_lists (table two_rows)
              1%positive 2%positive df' σ')
    as (combined & Hget & Hlen & _ & Hrows);
    [by eexists|by eexists|reflexivity|exact Hrun|].
  by exists df', σ', combined.
Defined.

(** ** The batch loader *)

(** The batch sampler, started with a batch under construction that is
    not yet full: the batches, put end to end, are the pending indices
    followed by the sampler's; no batch is empty or longer than
    [batch_size]; every batch but the last is full. *)
Lemma BatchSampler_spec (batch_size : nat) (sampler batch : list nat) :
  length batch < batch_size →
  concat (torch.BatchSampler batch_size sampler batch) = batch ++ sampler ∧
  Forall (λ x, 0 < length x ≤ batch_size)
    (torch.BatchSampler batch_size sampler batch) ∧
  (∀ i x, torch.BatchSampler batch_size sampler batch !! i = Some x →
          S i < length (torch.BatchSampler batch_size sampler batch) →
          length x = batch_size).
Proof.
  revert batch. induction sampler as [|idx sampler IH]; intros batch Hlt; simpl.
  - case_bool_decide as Hpos; simpl.
    + rewrite !app_nil_r. split; [done|]. split.
      * constructor; [lia|constructor].
      * intros [|i] x; simpl; [lia|done].
    + destruct batch; simpl in *; [|lia]. split; [done|]. split; [constructor|done].
  - case_bool_decide as Hfull.
    + destruct (IH [] ltac:(simpl; lia)) as (Hcat & Hall & Hfull').
      simpl. rewrite Hcat. simpl. split; [by rewrite <- app_assoc|]. split.
      * constructor; [lia|done].
      * intros [|i] x Hx Hi; simpl in *; [by injection Hx as <-|].
        apply (Hfull' i x Hx). lia.
    + rewrite length_app in Hfull. simpl in Hfull.
      destruct (IH (batch ++ [idx])) as (Hcat & Hall & Hfull').
      { rewrite length_app. simpl. lia. }
      split; [by rewrite Hcat, <- app_assoc|]. split; done.
Qed.

(** Batches that tile [seq k n], all full but the last, are runs of
    consecutive indices: batch [i] starts at [k + i * b]. *)
Lemma batches_consecutive (b k n : nat) (bt : list (list nat)) :
  concat bt = seq k n →
  (∀ i x, bt !! i = Some x → S i < length bt → length x = b) →
  ∀ i x, bt !! i = Some x → x = seq (k + i * b) (length x).
Proof.
  revert k n. induction bt as [|y bt IH]; intros k n Hcat Hfull i x Hx; [done|].
  simpl in Hcat.
  assert (length y ≤ n)%nat as Hle.
  { apply (f_equal length) in Hcat. rewrite length_app, length_seq in Hcat. lia. }
  replace n with (length y + (n - length y)) in Hcat by lia.
  rewrite seq_app in Hcat.
  apply app_inj_1 in Hcat as [Hy Hrest]; [|by rewrite length_seq].
  destruct i as [|i]; simpl in Hx.
  - injection Hx as <-. by rewrite Nat.add_0_r.
  - assert (length y = b) as Hb.
    { apply (Hfull 0 y eq_refl). apply lookup_lt_Some in Hx. simpl. lia. }
    rewrite (IH (k + length y) (n - length y) Hrest) with (i := i) (x := x) at 1;
      [|intros j z Hz Hj; apply (Hfull (S j) z Hz); simpl; lia|done].
    f_equal. rewrite Hb. lia.
Qed.

(** The constructor returns for every positive [batch_size]. *)
Lemma batches_order_built (df : DataFrame) (variables : list string)
    (batch_size : Z) (max_length : nat) (seed : Z) (num_workers : nat) :
  (0 < batch_size)%Z →
  ∃ built,
    BuildInferenceDataLoaderAndDataset.__init__ df variables batch_size
      max_length seed num_workers = Return built.
Proof.
  intros Hpos. unfold BuildInferenceDataLoaderAndDataset.__init__.
  rewrite bool_decide_eq_false_2 by lia. by eexists.
Qed.

Lemma BatchSampler_length (batch_size : nat) (sampler batch : list nat) :
  length batch < batch_size →
  length (torch.BatchSampler batch_size sampler batch) =
    (length batch + length sampler + batch_size - 1) / batch_size.
Proof.
  revert batch. induction sampler as [|idx sampler IH]; intros batch Hlt; simpl.
  - case_bool_decide as Hpos; simpl.
    + apply (Nat.div_unique _ _ _ (length batch - 1)); lia.
    + symmetry. apply Nat.div_small. lia.
  - case_bool_decide as Hfull.
    + simpl. rewrite IH by (simpl; lia). rewrite length_app in Hfull.
      simpl in *.
      replace (length batch + S (length sampler) + batch_size - 1)
        with (1 * batch_size + (length sampler + batch_size - 1)) by lia.
      rewrite Nat.div_add_l by lia.
      by replace (0 + length sampler + batch_size - 1)
        with (length sampler + batch_size - 1) by lia.
    + rewrite length_app in Hfull. simpl in Hfull.
      rewrite IH by (rewrite length_app; simpl; lia).
      rewrite length_app. simpl. f_equal. lia.
Qed.

(** Batch [i] of batches that tile [seq k n], all full but the last,
    starts before the end and holds [b] indices, or what is left of the
    [n]. *)
Lemma batches_lengths (b k n : nat) (bt : list (list nat)) :
  concat bt = seq k n →
  Forall (λ x, (0 < length x ≤ b)%nat) bt →
  (∀ i x, bt !! i = Some x → S i < length bt → length x = b) →
  ∀ i x, bt !! i = Some x → i * b < n ∧ length x = min b (n - i * b).
Proof.
  revert k n. induction bt as [|y bt IH]; intros k n Hcat Hall Hfull i x Hx; [done|].
  simpl in Hcat. apply Forall_cons in Hall as [Hy Hall].
  assert (length y + length (concat bt) = n) as Hsum.
  { apply (f_equal length) in Hcat. by rewrite length_app, length_seq in Hcat. }
  destruct i as [|i]; simpl in Hx.
  - injection Hx as <-. split; [lia|].
    destruct bt as [|z bt]; [simpl in Hsum; lia|].
    assert (length y = b) as Hb by (apply (Hfull 0 y eq_refl); simpl; lia). lia.
  - assert (length y = b) as Hb.
    { apply (Hfull 0 y eq_refl). apply lookup_lt_Some in Hx. simpl. lia. }
    replace n with (length y + (n - length y)) in Hcat by lia.
    rewrite seq_app in Hcat.
    apply app_inj_1 in Hcat as [_ Hrest]; [|by rewrite length_seq].
    destruct (IH (k + length y) (n - length y) Hrest Hall) with (i := i) (x := x)
      as [Hlt Hlen]; [|done|].
    { intros j z Hz Hj. apply (Hfull (S j) z Hz). simpl. lia. }
    rewrite Hb in *. simpl. split; [lia|]. rewrite Hlen. f_equal. lia.
Qed.

(** Fetching records that can all be built gives them in the order of
    the indices. *)
Lemma apply_Return_fmap {A B} (f : A → outcome B) (g : A → B) (l : list A) :
  Forall (λ x, f x = Return (g x)) l → apply f l = Return (g <$> l).
Proof. induction 1 as [|x l Hx _ IH]; simpl; [done|]. by rewrite Hx, IH. Qed.

(** C5. For a table of [n] rows and a positive [batch_size] [b], the
    loader is built, and the batches of row indices it walks through are,
    put end to end, exactly 0, 1, .., n-1 in order (sequential sampler,
    no shuffling); every batch but the last holds exactly [b] consecutive
    indices, the last one between one and [b]. Iterating the loader
    yields one item per batch of indices, ceil(n / b) in all; item [i] is
    what the collator makes of the dataset's records at the rows
    [i * b], [i * b + 1], .. (as many as [b], or as are left), fetched in
    that order, or the first exception met on the way; when every record
    of the table can be built, it is the collation of exactly these
    records, in row order. *)
Theorem batches_preserve_row_order (df : DataFrame) (variables : list string)
    (batch_size : Z) (max_length : nat) (seed : Z) (num_workers : nat) :
  (0 < batch_size)%Z →
  ∃ built,
    BuildInferenceDataLoaderAndDataset.__init__ df variables batch_size
      max_length seed num_workers = Return built ∧
    let loader := BuildInferenceDataLoaderAndDataset.dataloader built in
    let batches := torch.index_batches loader in
    let b := Z.to_nat batch_size in
    let dataset := Inference_dataset.__init__ df variables max_length in
    concat batches = seq 0 (len df) ∧
    Forall (λ x, (0 < length x ≤ b)%nat) batches ∧
    (∀ i x, batches !! i = Some x → S i < length batches → length x = b) ∧
    (∀ i x, batches !! i = Some x → x = seq (i * b) (length x)) ∧
    ∀ encode_plus Batch (collator : list sample → outcome Batch),
      let yielded :=
        BuildInferenceDataLoaderAndDataset.iter encode_plus Batch collator loader in
      length yielded = (len df + b - 1) / b ∧
      (∀ i, i * b < len df →
         yielded !! i =
           Some (obind
                   (apply (Inference_dataset.__getitem__ encode_plus dataset)
                      (seq (i * b) (min b (len df - i * b))))
                   collator)) ∧
      (∀ record : nat → sample,
         (∀ j, j < len df →
            Inference_dataset.__getitem__ encode_plus dataset j
              = Return (record j)) →
         ∀ i, i * b < len df →
           yielded !! i =
             Some (collator (record <$> seq (i * b) (min b (len df - i * b))))).
Proof.
  intros Hpos. unfold BuildInferenceDataLoaderAndDataset.__init__.
  rewrite bool_decide_eq_false_2 by lia. eexists. split; [done|]. simpl.
  unfold BuildInferenceDataLoaderAndDataset.iter,
    BuildInferenceDataLoaderAndDataset.fetch, torch.index_batches,
    torch.SequentialSampler, Inference_dataset.__len__. simpl.
  set (b := Z.to_nat batch_size). assert (0 < b) as Hb by lia.
  set (dataset := Inference_dataset.__init__ df variables max_length).
  destruct (BatchSampler_spec b (seq 0 (len df)) [])
    as (Hcat & Hall & Hfull); [simpl; lia|]. simpl in Hcat.
  pose proof (BatchSampler_length b (seq 0 (len df)) []) as Hcount.
  rewrite length_seq in Hcount. simpl in Hcount. specialize (Hcount Hb).
  set (batches := torch.BatchSampler b (seq 0 (len df)) []) in *.
  split; [done|]. split; [done|]. split; [done|]. split.
  { intros i x Hx.
    by rewrite (batches_consecutive b 0 (len df) _ Hcat Hfull i x Hx) at 1. }
  intros encode_plus Batch collator.
  assert (∀ i, i * b < len df →
            batches !! i = Some (seq (i * b) (min b (len df - i * b)))) as Hbatch.
  { intros i Hi.
    assert (i < length batches) as Hlt.
    { rewrite Hcount. apply (Nat.div_le_lower_bound _ _ (S i)); lia. }
    destruct (lookup_lt_is_Some_2 _ _ Hlt) as [x Hx]. rewrite Hx. f_equal.
    destruct (batches_lengths b 0 (len df) _ Hcat Hall Hfull i x Hx) as [_ Hlen].
    rewrite <- Hlen. apply (batches_consecutive b 0 (len df) _ Hcat Hfull i x Hx). }
  split; [by rewrite length_fmap|]. split.
  - intros i Hi. by rewrite list_lookup_fmap, (Hbatch i Hi).
  - intros record Hrecord i Hi. rewrite list_lookup_fmap, (Hbatch i Hi). simpl.
    rewrite (apply_Return_fmap _ record); [done|].
    apply Forall_forall. intros j Hj%elem_of_seq. apply Hrecord. lia.
Qed.

Lemma batches_preserve_row_order_witness :
  ∃ built,
    BuildInferenceDataLoaderAndDataset.__init__
      (table (two_rows ++ two_rows ++ [mkRow "CC" 24 "EC50" "MOR"]))
      ["SMILES"; "exposure_duration"; "OneHotEnc_concatenated"] 2 100 42 0
      = Return built ∧
    torch.index_batches (BuildInferenceDataLoaderAndDataset.dataloader built)
      = [[0; 1]; [2; 3]; [4]] ∧
    length (BuildInferenceDataLoaderAndDataset.iter toy_encode_plus (list sample)
              Return (BuildInferenceDataLoaderAndDataset.dataloader built)) = 3.
Proof.
  destruct (batches_preserve_row_order
              (table (two_rows ++ two_rows ++ [mkRow "CC" 24 "EC50" "MOR"]))
              ["SMILES"; "exposure_duration"; "OneHotEnc_concatenated"]
              2 100 42 0) as (built & Hbuilt & _ & _ & _ & _ & Hiter); [lia|].
  exists built. split; [exact Hbuilt|].
  destruct (Hiter toy_encode_plus (list sample) Return) as (Hcount & _).
  split; [|exact Hcount].
  vm_compute in Hbuilt. injection Hbuilt as <-. reflexivity.
Defined.

(** ** Canonical SMILES *)

Section canonicalize.
Context (Mol : Type).
Context (MolFromSmiles : string → outcome (option Mol)).
Context (MolToSmiles : Mol → outcome string).

Lemma parse_fails_raises smiles :
  parse_fails Mol MolFromSmiles smiles →
  ∃ e, MolToSmiles_MolFromSmiles Mol MolFromSmiles MolToSmiles smiles = Raise e.
Proof.
  intros Hfail. unfold MolToSmiles_MolFromSmiles.
  destruct (MolFromSmiles smiles) as [[mol|]|e] eqn:Hparse; eauto.
  by destruct (Hfail mol).
Qed.

(** C6. On a string the toolkit cannot parse (it yields no molecule:
    [None] or an exception), [__CanonicalizeRDKit] returns the string
    itself; it is a function to strings, so nothing is raised to the
    caller; and [GetCanonicalSMILES] returns, with that very string in
    the canonical column at every row that holds it. *)
Theorem canonicalize_falls_back_to_input (smiles : string) :
  parse_fails Mol MolFromSmiles smiles →
  __CanonicalizeRDKit Mol MolFromSmiles MolToSmiles smiles = smiles ∧
  ∀ σ i row, rows (dataframe σ) !! i = Some row → SMILES row = smiles →
    ∃ df' σ' col,
      GetCanonicalSMILES Mol MolFromSmiles MolToSmiles σ = (Return df', σ') ∧
      getitem "SMILES_Canonical_RDKit" (attached df') = Some col ∧
      length col = len (dataframe σ) ∧
      col !! i = Some (text smiles).
Proof.
  intros Hfail.
  assert (__CanonicalizeRDKit Mol MolFromSmiles MolToSmiles smiles = smiles) as Hid.
  { unfold __CanonicalizeRDKit. by destruct (parse_fails_raises smiles Hfail) as [e ->]. }
  split; [done|]. intros σ i row Hi Hrow.
  unfold GetCanonicalSMILES, mbind, M_bind, self_dataframe, set_self_dataframe.
  simpl. do 3 eexists. split; [done|]. simpl. rewrite getitem_setitem.
  split; [done|]. unfold canonical_column.
  split; [by rewrite length_fmap|].
  by rewrite list_lookup_fmap, Hi; simpl; rewrite Hrow, Hid.
Qed.
End canonicalize.

Lemma canonicalize_falls_back_to_input_witness :
  __CanonicalizeRDKit unit toy_MolFromSmiles toy_MolToSmiles "C1=CC=" = "C1=CC=".
Proof.
  destruct (canonicalize_falls_back_to_input unit toy_MolFromSmiles
              toy_MolToSmiles "C1=CC=") as [Hid _]; [|exact Hid].
  intros mol. vm_compute. discriminate.
Defined.

(** ** Shapes *)

Lemma np_array_uniform vs a : np_array vs = Some a → uniform (tolist a).
Proof.
  destruct vs as [|v vs]; simpl.
  - intros [= <-]. exists 0. constructor.
  - destruct (forallb _ vs) eqn:Hall; [|done]. intros [= <-]. simpl.
    exists (length v). constructor; [done|].
    apply Forall_forall. intros u Hu%list_elem_of_In.
    rewrite forallb_forall in Hall. specialize (Hall u Hu). simpl in Hall.
    by apply bool_decide_eq_true in Hall.
Qed.

Lemma zip_with_app_uniform (x y : list (list Z)) w1 w2 :
  Forall (λ v, length v = w1) x → Forall (λ v, length v = w2) y →
  Forall (λ v, length v = w1 + w2) (zip_with app x y).
Proof.
  intros Hx. revert y. induction Hx as [|u x Hu _ IH]; intros y Hy; [constructor|].
  destruct Hy as [|v y Hv Hy]; simpl; constructor.
  - rewrite length_app. lia.
  - by apply IH.
Qed.

Lemma np_concatenate_uniform a b c :
  np_concatenate a b = Some c →
  uniform (tolist a) → uniform (tolist b) → uniform (tolist c).
Proof.
  destruct a as [|x], b as [|y]; simpl; try done.
  case_bool_decide; [|done]. intros [= <-] [w1 Hx] [w2 Hy]. simpl.
  exists (w1 + w2). by apply zip_with_app_uniform.
Qed.

Lemma column_array_uniform df col a :
  column_array df col = Some a → uniform (tolist a).
Proof.
  unfold column_array. destruct (getitem col (attached df)) as [cells|]; [|done].
  simpl. destruct (mapM _ cells) as [vs|]; [|done]. simpl.
  apply np_array_uniform.
Qed.

Lemma concat_next_uniform df columns temp1 idx :
  uniform (tolist temp1) → uniform (tolist (concat_next df columns temp1 idx)).
Proof.
  intros Htemp1. unfold concat_next.
  destruct (columns !! (idx + 1)) as [col|]; [|done]. simpl.
  destruct (column_array df col) as [temp2|] eqn:Htemp2; [|done]. simpl.
  destruct (np_concatenate temp1 temp2) as [c|] eqn:Hc; [|done]. simpl.
  eapply np_concatenate_uniform; [done|done|]. by eapply column_array_uniform.
Qed.

Lemma loop_uniform df columns temp1 idxs :
  uniform (tolist temp1) →
  uniform (tolist (foldl (concat_next df columns) temp1 idxs)).
Proof.
  revert temp1. induction idxs as [|idx idxs IH]; intros temp1 Htemp1; [done|].
  simpl. by apply IH, concat_next_uniform.
Qed.

(** Whatever the frame, the combined column the assembler leaves has
    one entry per row, and its entries are Python lists of one length. *)
Lemma assemble_uniform df :
  len (assemble df) = len df ∧
  ∃ col w, getitem "OneHotEnc_concatenated" (attached (assemble df)) = Some col ∧
    length col = len df ∧ Forall (λ c, ∃ v, c = pylist v ∧ length v = w) col.
Proof.
  unfold assemble.
  destruct (concatenate_columns df) as [df'|] eqn:Hcat.
  - unfold concatenate_columns in Hcat.
    destruct (filter_like "OneHotEnc" df !! 0) as [c0|]; [|done]. simpl in Hcat.
    destruct (column_array df c0) as [temp1|] eqn:Htemp1; [|done]. simpl in Hcat.
    unfold setitem_list in Hcat. case_bool_decide as Hlen; [|done].
    injection Hcat as <-. split; [done|]. simpl. rewrite getitem_setitem.
    apply column_array_uniform in Htemp1.
    destruct (loop_uniform df (filter_like "OneHotEnc" df) temp1
                (seq 0 (length (filter_like "OneHotEnc" df))) Htemp1) as [w Hw].
    eexists _, w. split; [done|]. split; [by rewrite length_fmap|].
    apply Forall_fmap. eapply Forall_impl; [exact Hw|]. simpl. eauto.
  - split; [done|]. simpl. rewrite getitem_setitem.
    eexists _, 1. split; [done|]. unfold np_zeros.
    split; [by rewrite length_fmap, length_replicate|].
    apply Forall_fmap, Forall_replicate. simpl. eauto.
Qed.

(** Storing a Python list of integers that fit a double, entry by
    entry. *)
Lemma apply_store_scalar v :
  Forall fits_double v → apply store_scalar v = Return (float32_of_int <$> v).
Proof.
  induction 1 as [|z v Hz _ IH]; simpl; [done|].
  unfold store_scalar at 1. by rewrite bool_decide_eq_true_2, IH.
Qed.

(** An entry past the largest double stops the conversion. *)
Lemma apply_store_scalar_overflow v :
  ¬ Forall fits_double v →
  apply store_scalar v = Raise (OverflowError "int too large to convert to float").
Proof.
  induction v as [|z v IH]; intros Hv; simpl; [by destruct Hv|].
  unfold store_scalar at 1. case_bool_decide as Hz; [|done].
  rewrite IH; [done|]. intros Hall. apply Hv. by constructor.
Qed.

Lemma torch_tensor_list v :
  Forall fits_double v →
  torch_tensor (VVec v) = Return (Tensor1 (float32_of_int <$> v)).
Proof. intros Hv. simpl. by rewrite apply_store_scalar. Qed.

(** C8, as stated, fails: on a table whose combined vectors have lengths
    2 and 1 the loader is built and the batch's records are fetched, the
    vectors as they are, without any exception; the records go to the
    collator next. *)
Lemma ragged_vectors_reach_the_collator :
  ∃ built s0 s1,
    BuildInferenceDataLoaderAndDataset.__init__ ragged_table
      ["SMILES_Canonical_RDKit"; "exposure_duration"; "OneHotEnc_concatenated"]
      8 100 42 0 = Return built ∧
    torch.index_batches (BuildInferenceDataLoaderAndDataset.dataloader built)
      = [[0; 1]] ∧
    BuildInferenceDataLoaderAndDataset.fetch toy_encode_plus
      (BuildInferenceDataLoaderAndDataset.dataloader built) [0; 1]
      = Return [s0; s1] ∧
    onehotenc s0 = Tensor1 (float32_of_int <$> [1; 0]%Z) ∧
    onehotenc s1 = Tensor1 (float32_of_int <$> [0]%Z).
Proof.
  do 3 eexists. split; [reflexivity|]. split; [reflexivity|].
  split; [by vm_compute|]. split; by vm_compute.
Qed.

(** C8, as the code has it. The code has no shape check. Whenever
    [GetOneHotEnc] returns, the combined vectors of the frame it returns
    have one common length, one per row. The loader is built for every
    table (given a positive batch size), and a record carries the feature
    vector of its row as stored, entry by entry in single precision,
    whatever its length; the one vector that is refused is a vector with
    an entry too large for a double, whatever its length too. *)
Theorem combined_vectors_uniform_and_unchecked :
  (∀ re rf σ df' σ',
     GetOneHotEnc re rf σ = (Return df', σ') →
     ∃ col w, getitem "OneHotEnc_concatenated" (attached df') = Some col ∧
       length col = len df' ∧
       Forall (λ c, ∃ v, c = pylist v ∧ length v = w) col) ∧
  (∀ df variables batch_size max_length seed num_workers,
     (0 < batch_size)%Z →
     ∃ built, BuildInferenceDataLoaderAndDataset.__init__ df variables
                batch_size max_length seed num_workers = Return built) ∧
  (∀ encode_plus self idx row v0 v1 v2 text encodings d dur v,
     iloc (Inference_dataset.df self) idx = Return row →
     Inference_dataset.variables self !! 0 = Some v0 →
     row_getitem row v0 = Return text →
     encode_plus text (Inference_dataset.max_len self) = Return encodings →
     Inference_dataset.variables self !! 1 = Some v1 →
     row_getitem row v1 = Return d →
     torch_tensor d = Return dur →
     Inference_dataset.variables self !! 2 = Some v2 →
     row_getitem row v2 = Return (VVec v) →
     Inference_dataset.__getitem__ encode_plus self idx =
       if bool_decide (Forall fits_double v)
       then Return (mkSample encodings.1 encodings.2 dur
                      (Tensor1 (float32_of_int <$> v)))
       else Raise (OverflowError "int too large to convert to float")).
Proof.
  split; [|split].
  - intros re rf σ df' σ' Hrun.
    apply GetOneHotEnc_Return in Hrun as (df1 & σ1 & df2 & σ2 & _ & _ & -> & _).
    destruct (assemble_uniform (dataframe σ2)) as (Hlen & col & w & Hcol & Hn & Hw).
    exists col, w. by rewrite Hlen.
  - intros df variables batch_size max_length seed num_workers Hpos.
    destruct (batches_order_built df variables batch_size max_length seed
                num_workers Hpos) as [built Hbuilt]. by exists built.
  - intros encode_plus self idx row v0 v1 v2 text encodings d dur v
      Hrow Hv0 Htext Henc Hv1 Hd Hdur Hv2 Hv.
    unfold Inference_dataset.__getitem__, variable.
    rewrite Hrow, Hv0, Hv1, Hv2. simpl.
    rewrite Htext. simpl. rewrite Henc. simpl. rewrite Hd. simpl.
    rewrite Hdur. simpl. rewrite Hv. simpl.
    case_bool_decide as Hfits.
    + by rewrite (apply_store_scalar v Hfits).
    + by rewrite (apply_store_scalar_overflow v Hfits).
Qed.

Lemma combined_vectors_uniform_and_unchecked_witness :
  ∃ df' σ' col w,
    GetOneHotEnc 1 2 (PreProcessDataForInference two_label_lists (table two_rows))
      = (Return df', σ') ∧
    getitem "OneHotEnc_concatenated" (attached df') = Some col ∧
    length col = len df' ∧ Forall (λ c, ∃ v, c = pylist v ∧ length v = w) col.
Proof.
  destruct (GetOneHotEnc 1 2
              (PreProcessDataForInference two_label_lists (table two_rows)))
    as [[df'|e] σ'] eqn:Hrun; [|by vm_compute in Hrun].
  destruct combined_vectors_uniform_and_unchecked as [Huniform _].
  destruct (Huniform _ _ _ _ _ Hrun) as (col & w & Hcol).
  by exists df', σ', col, w.
Defined.

(** ** The Predict handler *)

Lemma apply_length {A B} (f : A → outcome B) (l : list A) (ys : list B) :
  apply f l = Return ys → length ys = length l.
Proof.
  revert ys. induction l as [|x l IH]; simpl; intros ys.
  - by intros [= <-].
  - destruct (f x); [|done]. destruct (apply f l) as [ys'|]; [|done].
    intros [= <-]. simpl. by rewrite (IH ys').
Qed.

(** With the column names the script passes, no record is ever built:
    the third name is [endpoint], a column of strings, which
    [torch.tensor] refuses; the steps before it can only fail
    earlier. *)
Lemma shipped_record_raises (tokenizer : value → nat → outcome (list Z * list Z))
    (df : DataFrame) (idx : nat) :
  ∃ e, Inference_dataset.__getitem__ tokenizer
         (Inference_dataset.__init__ df
            ["SMILES_Canonicalized_RDKit"; "exposure_duration"; "endpoint"; "effect"]
            100) idx = Raise e.
Proof.
  unfold Inference_dataset.__getitem__. simpl.
  destruct (iloc df idx) as [row|e]; simpl; [|eauto].
  destruct (row_getitem row "SMILES_Canonicalized_RDKit") as [text|e]; simpl; [|eauto].
  destruct (tokenizer text 100) as [encodings|e]; simpl; [|eauto].
  unfold row_getitem. simpl.
  destruct (store_scalar (exposure_duration (data row))) as [dur|e]; simpl; eauto.
Qed.

Section Predict.
Context (ns : app.Namespace).
Context (Mol : Type) (MolFromSmiles : string → outcome (option Mol)).
Context (MolToSmiles : Mol → outcome string).
Context (from_pretrained : outcome (value → nat → outcome (list Z * list Z))).
Context (Batch : Type) (collator : list sample → outcome Batch).
Context (Arg : Type) (batch_getitem : Batch → nat → outcome Arg).
Context (float : Type).
Context (loadmodel : outcome (Arg → Arg → Arg → Arg → outcome (list (list float)))).
Context (round2 pow10 : float → float).

Local Abbreviation predict_batch :=
  (app.predict_batch Batch Arg batch_getitem float round2).
Local Abbreviation predict_loop :=
  (app.predict_loop Batch Arg batch_getitem float round2).
Local Abbreviation Predict_with :=
  (app.Predict_with ns from_pretrained Batch collator Arg batch_getitem float
     loadmodel round2 pow10).
Local Abbreviation Predict :=
  (app.Predict ns from_pretrained Batch collator Arg batch_getitem float
     loadmodel round2 pow10).
Local Abbreviation upload := (app.upload ns Mol MolFromSmiles MolToSmiles).
Local Abbreviation batch_page :=
  (app.batch_page ns Mol MolFromSmiles MolToSmiles from_pretrained Batch collator
     Arg batch_getitem float loadmodel round2 pow10).

(** The loop leaves in [out] what the last batch gave. *)
Lemma predict_loop_last model loader out out' :
  predict_loop model loader out = Return out' →
  (loader = [] ∧ out' = out) ∨
  ∃ batch y, last loader = Some (Return batch) ∧
             predict_batch model batch = Return y ∧ out' = Some y.
Proof.
  revert out. induction loader as [|[batch|e] loader IH]; intros out; simpl.
  - intros [= <-]. by left.
  - destruct (predict_batch model batch) as [y|e] eqn:Hy; simpl; [|done].
    intros Hrun. right.
    destruct (IH _ Hrun) as [[-> ->]|(batch' & y' & Hlast & Hy' & ->)].
    + by exists batch, y.
    + exists batch', y'. split; [|done]. destruct loader; [done|]. done.
  - done.
Qed.

(** The handler as the script has it never returns a table: a name is
    unbound, or the table has no row and [out] is unbound after the loop,
    or the first record cannot be built. *)
Lemma Predict_raises df : ∃ e, Predict df = Raise e.
Proof.
  unfold app.Predict, app.Predict_with, app.global, app.bound.
  destruct loadmodel as [model|e]; simpl; [|eauto].
  destruct (app.AutoTokenizer_bound ns); simpl; [|eauto].
  destruct from_pretrained as [tokenizer|e]; simpl; [|eauto].
  destruct (app.BuildInferenceDataLoader_bound ns); simpl; [|eauto].
  destruct df as [df|]; simpl; [|eauto].
  unfold BuildInferenceDataLoaderAndDataset.iter, torch.index_batches,
    torch.SequentialSampler, Inference_dataset.__len__. simpl.
  destruct (len df) as [|n]; simpl; [eauto|].
  unfold BuildInferenceDataLoaderAndDataset.fetch at 1. simpl.
  destruct (shipped_record_raises tokenizer df 0) as [e ->]. simpl. eauto.
Qed.

Lemma batch_page_shows_nothing file_up button r :
  batch_page file_up button ≠ Return (Some r).
Proof.
  unfold app.batch_page.
  destruct (match file_up with Some _ => _ | None => _ end) as [df|e];
    simpl; [|done].
  destruct button; [|done].
  by destruct (Predict_raises df) as [e ->].
Qed.

(** With other columns the loop can run through; [out] then holds what
    the last batch gave, one row for a loader of batch size 1, which is
    no column for a table of two rows or more. *)
Lemma Predict_with_two_rows variables df :
  (∀ model data batch y, loadmodel = Return model →
     collator data = Return batch → predict_batch model batch = Return y →
     length y = length data) →
  (2 ≤ len df)%nat →
  ∀ r, Predict_with variables (Some df) ≠ Return r.
Proof.
  intros model_shape Hn r. unfold app.Predict_with, app.global.
  destruct loadmodel as [model|e] eqn:Hmodel; simpl; [|done].
  destruct (app.bound (app.AutoTokenizer_bound ns)); simpl; [|done].
  destruct from_pretrained as [tokenizer|e]; simpl; [|done].
  destruct (app.bound (app.BuildInferenceDataLoader_bound ns)); simpl; [|done].
  unfold BuildInferenceDataLoaderAndDataset.__init__. simpl.
  destruct (app.predict_loop _ _ _ _ _ _ _ _) as [[out|]|e] eqn:Hloop;
    simpl; [|done|done].
  case_bool_decide as Hlen; [|done]. exfalso.
  apply predict_loop_last in Hloop as [[_ ?]|(batch & y & Hlast & Hy & [= ->])];
    [done|].
  unfold BuildInferenceDataLoaderAndDataset.iter in Hlast.
  rewrite fmap_last in Hlast.
  destruct (last (torch.index_batches _)) as [x|] eqn:Hx; [|done].
  simpl in Hlast. injection Hlast as Hbatch.
  unfold torch.index_batches, torch.SequentialSampler, Inference_dataset.__len__ in Hx.
  simpl in Hx.
  destruct (BatchSampler_spec 1 (seq 0 (len df)) []) as (_ & Hall & _);
    [simpl; lia|].
  rewrite Forall_forall in Hall.
  assert (length x = 1) as Hone.
  { specialize (Hall x). apply last_Some_elem_of in Hx. specialize (Hall Hx). lia. }
  destruct (BuildInferenceDataLoaderAndDataset.fetch _ _ x) as [data|] eqn:Hdata; [|done].
  simpl in Hbatch. apply apply_length in Hdata.
  pose proof (model_shape model data batch y eq_refl Hbatch Hy) as Hshape. lia.
Qed.

(** C9 meets a defect here. No run of the page in batch mode shows a
    result table. As the script is shipped, an uploaded file stops the
    run at the unbound name [PreProcessDataForInference], before the
    button is drawn, and without a file the handler stops at the unbound
    name [AutoTokenizer]. Whatever is supplied for the unbound names and
    by the collaborators, the handler builds its records from the columns
    SMILES_Canonicalized_RDKit, exposure_duration and endpoint, which
    fails at the first row, and on a table without rows [out] is never
    bound. Were the records built from other columns, [out] would still
    be bound anew at every batch of the loader of batch size 1, and hold
    one row after the loop, which is no column for a table of two rows or
    more. *)
Theorem Predict_shows_no_result_table :
  (∀ file_up button r, batch_page file_up button ≠ Return (Some r)) ∧
  (ns = app.shipped →
   (∀ csv button,
      batch_page (Some csv) button
        = Raise (NameError "PreProcessDataForInference")) ∧
   (∀ model, loadmodel = Return model →
      batch_page None true = Raise (NameError "AutoTokenizer"))) ∧
  ((∀ model data batch y, loadmodel = Return model →
      collator data = Return batch → predict_batch model batch = Return y →
      length y = length data) →
   ∀ variables df, (2 ≤ len df)%nat →
   ∀ r, Predict_with variables (Some df) ≠ Return r).
Proof.
  split; [apply batch_page_shows_nothing|]. split.
  - intros ->. split; [done|].
    intros model Hmodel. unfold app.batch_page, app.Predict, app.Predict_with.
    simpl. by rewrite Hmodel.
  - intros model_shape variables df. by apply Predict_with_two_rows.
Qed.

(** When the handler does return, the linear column is ten to the
    power of the rounded logarithm, not rounded again. *)
Lemma Predict_linear_column variables df r :
  Predict_with variables df = Return r →
  app.Predictions_mg_L float r =
    map (map pow10) (app.Predictions_Log10_mg_L float r).
Proof.
  unfold app.Predict_with, app.global.
  destruct loadmodel as [model|e]; simpl; [|done].
  destruct (app.bound (app.AutoTokenizer_bound ns)); simpl; [|done].
  destruct from_pretrained as [tokenizer|e]; simpl; [|done].
  destruct (app.bound (app.BuildInferenceDataLoader_bound ns)); simpl; [|done].
  destruct df as [df|]; simpl; [|done].
  destruct (app.predict_loop _ _ _ _ _ _ _ _) as [[out|]|e]; simpl; [|done|done].
  case_bool_decide; [|done]. by intros [= <-].
Qed.

Lemma getitem_omap_None {V W} name (f : string * V → option (string * W))
    (cols : list (string * V)) :
  (∀ kc kc', f kc = Some kc' → kc'.1 = kc.1) →
  getitem name cols = None → getitem name (omap f cols) = None.
Proof.
  intros Hf. induction cols as [|[k c] cols IH]; simpl; [done|].
  case_decide as Hk; [done|]. intros Hnone.
  destruct (f (k, c)) as [[k' c']|] eqn:Hfk; simpl; [|by apply IH].
  apply Hf in Hfk. simpl in Hfk. subst k'.
  rewrite decide_False by done. by apply IH.
Qed.

(** The handler asks for a column called SMILES_Canonicalized_RDKit,
    which the preprocessing does not make: with every name bound, on a
    table without that column, the first record fails on it. *)
Lemma Predict_unknown_column model tokenizer df :
  loadmodel = Return model → from_pretrained = Return tokenizer →
  app.AutoTokenizer_bound ns = true →
  app.BuildInferenceDataLoader_bound ns = true →
  (1 ≤ len df)%nat →
  getitem "SMILES_Canonicalized_RDKit" (attached df) = None →
  Predict (Some df) = Raise (KeyError "SMILES_Canonicalized_RDKit").
Proof.
  intros Hmodel Htok Hns1 Hns2 Hn Hnone.
  unfold app.Predict, app.Predict_with. rewrite Hmodel, Htok, Hns1, Hns2. simpl.
  unfold BuildInferenceDataLoaderAndDataset.iter, torch.index_batches,
    torch.SequentialSampler, Inference_dataset.__len__. simpl.
  unfold len in *. destruct (rows df) as [|row rs] eqn:Hrows; simpl in Hn; [lia|].
  simpl.
  unfold BuildInferenceDataLoaderAndDataset.fetch at 1. simpl.
  unfold Inference_dataset.__getitem__ at 1. simpl.
  unfold iloc. rewrite Hrows. simpl.
  unfold row_getitem at 1. simpl.
  rewrite getitem_omap_None; [done| |done].
  intros [k c] [k' c']. simpl. destruct (c !! 0); simpl; [|done].
  by intros [= <- _].
Qed.
End Predict.

Lemma Predict_shows_no_result_table_witness :
  app.batch_page app.shipped unit toy_MolFromSmiles toy_MolToSmiles
    (Return toy_encode_plus) (list sample) Return (list sample) toy_batch_getitem
    Z (Return toy_model) id id (Some (table two_rows)) true
  = Raise (NameError "PreProcessDataForInference") ∧
  app.Predict_with all_bound (Return toy_encode_plus) (list sample) Return
    (list sample) toy_batch_getitem Z (Return toy_model) id id
    ["SMILES_Canonical_RDKit"; "exposure_duration"; "OneHotEnc_concatenated"]
    (Some prepared_table)
  = Raise (ValueError "Length of values does not match length of index").
Proof.
  split.
  - destruct (Predict_shows_no_result_table app.shipped unit toy_MolFromSmiles
                toy_MolToSmiles (Return toy_encode_plus) (list sample) Return
                (list sample) toy_batch_getitem Z (Return toy_model) id id)
      as (_ & Hshipped & _).
    destruct (Hshipped eq_refl) as [Hupload _]. apply Hupload.
  - destruct (app.Predict_with all_bound (Return toy_encode_plus) (list sample)
                Return (list sample) toy_batch_getitem Z (Return toy_model) id id
                ["SMILES_Canonical_RDKit"; "exposure_duration";
                 "OneHotEnc_concatenated"]
                (Some prepared_table)) as [r|e] eqn:Hrun.
    + exfalso.
      destruct (Predict_shows_no_result_table all_bound unit toy_MolFromSmiles
                  toy_MolToSmiles (Return toy_encode_plus) (list sample) Return
                  (list sample) toy_batch_getitem Z (Return toy_model) id id)
        as (_ & _ & Htwo).
      apply (Htwo) in Hrun; [done| |vm_compute; lia].
      intros model data batch y [= <-] [= <-]. unfold app.predict_batch. simpl.
      intros [= <-]. unfold app.np_round_2. by rewrite length_map, length_fmap.
    + vm_compute in Hrun. by injection Hrun as <-.
Defined.

(** * Further properties of the code *)

(** ** How many batches *)

(** X10. The loader of a table of [n] rows with a positive [batch_size] [b]
    walks through exactly ceil(n / b) batches: none for an empty table,
    one when the whole table fits in a batch. *)
Theorem number_of_batches (df : DataFrame) (variables : list string)
    (batch_size : Z) (max_length : nat) (seed : Z) (num_workers : nat) :
  (0 < batch_size)%Z →
  ∃ built,
    BuildInferenceDataLoaderAndDataset.__init__ df variables batch_size
      max_length seed num_workers = Return built ∧
    length (torch.index_batches
              (BuildInferenceDataLoaderAndDataset.dataloader built)) =
      (len df + Z.to_nat batch_size - 1) / Z.to_nat batch_size ∧
    (len df = 0 →
     torch.index_batches (BuildInferenceDataLoaderAndDataset.dataloader built) = []) ∧
    (0 < len df → (len df ≤ Z.to_nat batch_size)%nat →
     torch.index_batches (BuildInferenceDataLoaderAndDataset.dataloader built)
       = [seq 0 (len df)]).
Proof.
  intros Hpos. unfold BuildInferenceDataLoaderAndDataset.__init__.
  rewrite bool_decide_eq_false_2 by lia. eexists. split; [done|]. simpl.
  unfold torch.index_batches, torch.SequentialSampler, Inference_dataset.__len__.
  simpl.
  pose proof (BatchSampler_length (Z.to_nat batch_size) (seq 0 (len df)) []) as Hlen.
  rewrite length_seq in Hlen. simpl in Hlen. specialize (Hlen ltac:(lia)).
  destruct (BatchSampler_spec (Z.to_nat batch_size) (seq 0 (len df)) [])
    as (Hcat & _ & _); [simpl; lia|]. simpl in Hcat.
  split; [done|]. split.
  - intros Hzero. by rewrite Hzero.
  - intros Hn Hfit.
    assert ((len df + Z.to_nat batch_size - 1) / Z.to_nat batch_size = 1) as Hone.
    { symmetry. apply (Nat.div_unique _ _ _ (len df - 1)); lia. }
    rewrite Hone in Hlen.
    destruct (torch.BatchSampler _ _ _) as [|x [|y bt]]; simpl in Hlen; try lia.
    simpl in Hcat. rewrite app_nil_r in Hcat. by rewrite Hcat.
Qed.

Lemma number_of_batches_witness :
  ∃ built,
    BuildInferenceDataLoaderAndDataset.__init__
      (table (two_rows ++ two_rows ++ two_rows ++ [mkRow "CC" 24 "EC50" "MOR"]))
      ["SMILES"; "exposure_duration"; "OneHotEnc_concatenated"] 3 100 42 0
      = Return built ∧
    length (torch.index_batches
              (BuildInferenceDataLoaderAndDataset.dataloader built)) = 3.
Proof.
  destruct (number_of_batches
              (table (two_rows ++ two_rows ++ two_rows ++ [mkRow "CC" 24 "EC50" "MOR"]))
              ["SMILES"; "exposure_duration"; "OneHotEnc_concatenated"]
              3 100 42 0) as (built & Hbuilt & Hlen & _); [lia|].
  exists built. split; [exact Hbuilt|]. exact Hlen.
Defined.

(** ** check_training_data *)

Lemma elem_of_drop_duplicates_from (seen l : list string) (x : string) :
  x ∈ drop_duplicates_from seen l ↔ x ∈ l ∧ x ∉ seen.
Proof.
  revert seen. induction l as [|y l IH]; intros seen; simpl.
  - split; [by intros ?%elem_of_nil|by intros [?%elem_of_nil _]].
  - case_decide as Hseen.
    + rewrite IH, elem_of_cons. split; [tauto|].
      intros [[->|Hin] Hnot]; [done|tauto].
    + rewrite !elem_of_cons, IH, not_elem_of_cons. split.
      * intros [->|[Hin [Hne Hnot]]]; [tauto|tauto].
      * intros [[->|Hin] Hnot]; [by left|].
        destruct (decide (x = y)) as [->|Hne]; [by left|right; tauto].
Qed.

(** X11. Whether a SMILES string is reported as seen in training is exactly
    whether it occurs in the canonical column of the sheet: dropping the
    duplicates changes nothing, and the model version passed in plays no
    part. When the sheet cannot be read, the error is the caller's. *)
Theorem check_training_data_is_membership (training_data : list string)
    (SMILES model_version : string) :
  check_training_data (Return training_data) SMILES model_version =
    Return (bool_decide (SMILES ∈ training_data)) ∧
  ∀ e, check_training_data (Raise e) SMILES model_version = Raise e.
Proof.
  split; [|done]. unfold check_training_data, drop_duplicates. simpl. f_equal.
  apply bool_decide_ext. rewrite elem_of_drop_duplicates_from.
  split; [tauto|]. intros Hin. split; [done|]. apply not_elem_of_nil.
Qed.

(** ** The Predict handler on a table without rows *)

Section Predict_small.
Context (ns : app.Namespace).
Context (from_pretrained : outcome (value → nat → outcome (list Z * list Z))).
Context (Batch : Type) (collator : list sample → outcome Batch).
Context (Arg : Type) (batch_getitem : Batch → nat → outcome Arg).
Context (float : Type).
Context (loadmodel : outcome (Arg → Arg → Arg → Arg → outcome (list (list float)))).
Context (round2 pow10 : float → float).

(** X12. On a table without rows, once the model and the tokenizer are
    loaded, the handler stops with a [NameError]: for [AutoTokenizer]
    when that name is unbound, as in the script as shipped; else for
    [BuildInferenceDataLoader] when that name is unbound; else for
    [out], since the loop body never runs and [out] is never bound,
    whatever columns the handler was asked to read. *)
Theorem Predict_empty_table_NameError (variables : list string) (df : DataFrame)
    (model : Arg → Arg → Arg → Arg → outcome (list (list float)))
    (tokenizer : value → nat → outcome (list Z * list Z)) :
  loadmodel = Return model → from_pretrained = Return tokenizer →
  len df = 0 →
  app.Predict_with ns from_pretrained Batch collator Arg batch_getitem float
    loadmodel round2 pow10 variables (Some df) =
  if app.AutoTokenizer_bound ns
  then if app.BuildInferenceDataLoader_bound ns
       then Raise (NameError "out")
       else Raise (NameError "BuildInferenceDataLoader")
  else Raise (NameError "AutoTokenizer").
Proof.
  intros Hmodel Htok Hn. unfold app.Predict_with. rewrite Hmodel. simpl.
  destruct (app.AutoTokenizer_bound ns); simpl; [|done]. rewrite Htok. simpl.
  destruct (app.BuildInferenceDataLoader_bound ns); simpl; [|done].
  unfold BuildInferenceDataLoaderAndDataset.iter, torch.index_batches,
    torch.SequentialSampler, Inference_dataset.__len__. simpl.
  by rewrite Hn.
Qed.
End Predict_small.

Lemma Predict_empty_table_NameError_witness :
  app.Predict app.shipped (Return toy_encode_plus) (list sample) Return
    (list sample) toy_batch_getitem Z (Return toy_model) id id
    (Some (table []))
  = Raise (NameError "AutoTokenizer") ∧
  app.Predict all_bound (Return toy_encode_plus) (list sample) Return
    (list sample) toy_batch_getitem Z (Return toy_model) id id
    (Some (table []))
  = Raise (NameError "out").
Proof.
  split.
  - apply (Predict_empty_table_NameError app.shipped (Return toy_encode_plus)
             (list sample) Return (list sample) toy_batch_getitem Z
             (Return toy_model) id id
             ["SMILES_Canonicalized_RDKit"; "exposure_duration"; "endpoint"; "effect"]
             (table []) toy_model toy_encode_plus);
      reflexivity.
  - apply (Predict_empty_table_NameError all_bound (Return toy_encode_plus)
             (list sample) Return (list sample) toy_batch_getitem Z
             (Return toy_model) id id
             ["SMILES_Canonicalized_RDKit"; "exposure_duration"; "endpoint"; "effect"]
             (table []) toy_model toy_encode_plus);
      reflexivity.
Defined.

(** ** Indicator vectors *)

Lemma vsum_indicator (i k n : nat) :
  vsum ((λ j, if decide (j = i) then 1%Z else 0%Z) <$> seq k n) =
  if decide (k ≤ i < k + n)%nat then 1%Z else 0%Z.
Proof.
  revert k. induction n as [|n IH]; intros k; simpl.
  - case_decide; [lia|done].
  - unfold vsum in *. simpl. rewrite IH.
    repeat case_decide; lia.
Qed.

Lemma vsum_eye_row n i : i < n → vsum (eye_row n i) = 1%Z.
Proof.
  intros Hi. unfold eye_row. rewrite vsum_indicator. case_decide; [done|lia].
Qed.

Lemma eye_row_binary n i : Forall (λ z, z = 0%Z ∨ z = 1%Z) (eye_row n i).
Proof.
  unfold eye_row. apply Forall_fmap, Forall_forall. intros j _. simpl.
  case_decide; auto.
Qed.

Lemma eye_row_inj n i i' : i < n → eye_row n i = eye_row n i' → i = i'.
Proof.
  intros Hi Heq. apply (f_equal (.!! i)) in Heq.
  rewrite !eye_row_lookup in Heq by done.
  rewrite decide_True in Heq by done. by case_decide.
Qed.

Lemma endpoint_vector_unit e : unit_vector 2 (endpoint_vector e).
Proof.
  unfold endpoint_vector, unit_vector.
  case_decide; (split; [done|]; split; [|done]).
  - constructor; [by right|]. constructor; [by left|constructor].
  - constructor; [by left|]. constructor; [by right|constructor].
Qed.

(** X5. Whenever an encoder returns with its column attached, every cell of
    the column is a unit vector: two wide for the endpoint, as wide as
    the caller's effect list for the effect. *)
Theorem attached_cells_are_unit_vectors (σ : Store) (r : loc) (l : list string)
    (df' : DataFrame) (σ' : Store) :
  lists σ !! r = Some l →
  (__GetOneHotEndpoint r σ = (Return df', σ') → 1 < length (working l) →
   ∃ col, getitem "OneHotEnc_endpoint" (attached df') = Some col ∧
     length col = len (dataframe σ) ∧
     Forall (λ c, ∃ v, c = ndarray v ∧ unit_vector 2 v) col) ∧
  (__GetOneHotEffect r σ = (Return df', σ') → 1 < length l →
   ∃ col, getitem "OneHotEnc_effect" (attached df') = Some col ∧
     length col = len (dataframe σ) ∧
     Forall (λ c, ∃ v, c = ndarray v ∧ unit_vector (length l) v) col).
Proof.
  intros Hl. split.
  - intros Hrun Hlen.
    destruct (decide (endpoints_known l (dataframe σ))) as [Hk|Hk].
    + rewrite (GetOneHotEndpoint_attaches _ _ _ Hl Hlen Hk) in Hrun.
      injection Hrun as <- _. simpl. rewrite getitem_setitem.
      eexists. split; [done|]. unfold endpoint_column.
      split; [by rewrite length_fmap|].
      apply Forall_fmap, Forall_forall. intros row _. simpl.
      eexists. split; [done|]. apply endpoint_vector_unit.
    + by rewrite (GetOneHotEndpoint_raises _ _ _ Hl Hlen Hk) in Hrun.
  - intros Hrun Hlen.
    destruct (decide (effects_known l (dataframe σ))) as [Hk|Hk].
    + destruct (GetOneHotEffect_attaches _ _ _ Hl Hlen Hk) as (vs & Hrun' & Hvs).
      rewrite Hrun' in Hrun. injection Hrun as <- _. simpl.
      rewrite getitem_setitem. eexists. split; [done|].
      split; [rewrite length_fmap; symmetry; by eapply Forall2_length|].
      apply Forall_fmap.
      clear Hrun'. induction Hvs as [|row v rs vs (i & Hi & _ & ->) _ IH];
        constructor; [|done].
      simpl. eexists. split; [done|].
      assert (i < length l) by by eapply lookup_lt_Some.
      split; [apply length_eye_row|]. split; [apply eye_row_binary|by apply vsum_eye_row].
    + by rewrite (GetOneHotEffect_raises _ _ _ Hl Hlen Hk) in Hrun.
Qed.

Lemma attached_cells_are_unit_vectors_witness :
  ∃ df' σ' col,
    __GetOneHotEffect 2
      (PreProcessDataForInference two_label_lists (table two_rows))
      = (Return df', σ') ∧
    getitem "OneHotEnc_effect" (attached df') = Some col ∧
    length col = 2 ∧
    Forall (λ c, ∃ v, c = ndarray v ∧ unit_vector 2 v) col.
Proof.
  destruct (__GetOneHotEffect 2
              (PreProcessDataForInference two_label_lists (table two_rows)))
    as [[df'|e] σ'] eqn:Hrun; [|by vm_compute in Hrun].
  destruct (attached_cells_are_unit_vectors
              (PreProcessDataForInference two_label_lists (table two_rows))
              2%positive ["MOR"; "DVP"] df' σ') as [_ Heffect]; [reflexivity|].
  destruct (Heffect Hrun) as (col & Hcol & Hlen & Hunit); [simpl; lia|].
  by exists df', σ', col.
Defined.

(** X6. Two rows get the same indicator vector exactly when their labels
    agree: for the endpoint, the labels after the merge (so a NOEC row
    and an EC10 row are told apart only when EC10 was not declared); for
    the effect, the effects themselves. *)
Theorem indicator_vectors_tell_labels_apart (σ : Store) (r : loc)
    (l : list string) :
  lists σ !! r = Some l →
  (1 < length (working l) → endpoints_known l (dataframe σ) →
   ∃ df' σ' col, __GetOneHotEndpoint r σ = (Return df', σ') ∧
     getitem "OneHotEnc_endpoint" (attached df') = Some col ∧
     ∀ j k rj rk, rows (dataframe σ) !! j = Some rj →
       rows (dataframe σ) !! k = Some rk →
       (col !! j = col !! k ↔ merged l (endpoint rj) = merged l (endpoint rk))) ∧
  (1 < length l → effects_known l (dataframe σ) →
   ∃ df' σ' col, __GetOneHotEffect r σ = (Return df', σ') ∧
     getitem "OneHotEnc_effect" (attached df') = Some col ∧
     ∀ j k rj rk, rows (dataframe σ) !! j = Some rj →
       rows (dataframe σ) !! k = Some rk →
       (col !! j = col !! k ↔ effect rj = effect rk)).
Proof.
  intros Hl. split.
  - intros Hlen Hk. rewrite (GetOneHotEndpoint_attaches _ _ _ Hl Hlen Hk).
    do 3 eexists. split; [done|]. simpl. rewrite getitem_setitem.
    split; [done|]. intros j k rj rk Hj Hk'. unfold endpoint_column.
    rewrite !list_lookup_fmap, Hj, Hk'. simpl.
    unfold endpoints_known in Hk. rewrite Forall_forall in Hk.
    pose proof (Hk rj (list_elem_of_lookup_2 _ _ _ Hj)) as Hrj.
    pose proof (Hk rk (list_elem_of_lookup_2 _ _ _ Hk')) as Hrk.
    split; [|by intros ->].
    intros [= Heq]. unfold endpoint_vector, encoding_order in *.
    repeat (apply elem_of_cons in Hrj as [Hrj|Hrj]; [|]);
      repeat (apply elem_of_cons in Hrk as [Hrk|Hrk]; [|]);
      try (by apply elem_of_nil in Hrj); try (by apply elem_of_nil in Hrk);
      rewrite Hrj, Hrk in *; try done; by repeat case_decide.
  - intros Hlen Hk.
    destruct (GetOneHotEffect_attaches _ _ _ Hl Hlen Hk) as (vs & -> & Hvs).
    do 3 eexists. split; [done|]. simpl. rewrite getitem_setitem.
    split; [done|]. intros j k rj rk Hj Hk'.
    destruct (Forall2_lookup_l _ _ _ _ _ Hvs Hj) as (vj & Hvj & ij & Hij & Hlj & ->).
    destruct (Forall2_lookup_l _ _ _ _ _ Hvs Hk') as (vk & Hvk & ik & Hik & Hlk & ->).
    rewrite !list_lookup_fmap, Hvj, Hvk. simpl. split.
    + intros [= Heq]. apply eye_row_inj in Heq; [|by eapply lookup_lt_Some].
      subst ik. congruence.
    + intros Heq. rewrite Heq in Hij, Hlj.
      by rewrite (last_occurrence_unique l ij ik (effect rk)).
Qed.

Lemma indicator_vectors_tell_labels_apart_witness :
  ∃ df' σ' col,
    __GetOneHotEndpoint 1
      (PreProcessDataForInference two_label_lists
         (table (two_rows ++ [mkRow "CC" 24 "EC10" "DVP"])))
      = (Return df', σ') ∧
    getitem "OneHotEnc_endpoint" (attached df') = Some col ∧
    col !! 1 = col !! 2.
Proof.
  destruct (indicator_vectors_tell_labels_apart
              (PreProcessDataForInference two_label_lists
                 (table (two_rows ++ [mkRow "CC" 24 "EC10" "DVP"])))
              1%positive ["EC50"; "EC10"; "NOEC"]) as [Hendpoint _]; [reflexivity|].
  destruct Hendpoint as (df' & σ' & col & Hrun & Hcol & Hsame);
    [vm_compute; lia|repeat constructor|].
  exists df', σ', col. split; [exact Hrun|]. split; [exact Hcol|].
  by apply (Hsame 1 2 (mkRow "CCO" 48 "NOEC" "MOR") (mkRow "CC" 24 "EC10" "DVP")).
Defined.

(** ** [GetOneHotEnc] as a whole *)

Lemma GetOneHotEnc_eq re rf σ :
  GetOneHotEnc re rf σ =
  match __GetOneHotEndpoint re σ with
  | (Raise e, σ1) => (Raise e, σ1)
  | (Return _, σ1) =>
      match __GetOneHotEffect rf σ1 with
      | (Raise e, σ2) => (Raise e, σ2)
      | (Return _, σ2) => (Return (assemble (dataframe σ2)), assemble_store σ2)
      end
  end.
Proof.
  unfold GetOneHotEnc, mbind, M_bind.
  destruct (__GetOneHotEndpoint re σ) as [[df1|e] σ1]; [|done].
  destruct (__GetOneHotEffect rf σ1) as [[df2|e] σ2]; [|done].
  unfold self_dataframe, assemble, assemble_store.
  by destruct (concatenate_columns (dataframe σ2)).
Qed.

Lemma assemble_store_dataframe σ2 :
  dataframe (assemble_store σ2) = assemble (dataframe σ2).
Proof.
  unfold assemble_store, assemble. by destruct (concatenate_columns _).
Qed.

Lemma assemble_store_lists s : lists (assemble_store s) = lists s.
Proof. unfold assemble_store. by destruct (concatenate_columns _). Qed.

Lemma concatenate_columns_Some df df' :
  concatenate_columns df = Some df' →
  ∃ col, df' = attach "OneHotEnc_concatenated" col df.
Proof.
  unfold concatenate_columns.
  destruct (filter_like "OneHotEnc" df !! 0) as [c0|]; [|done]. simpl.
  destruct (column_array df c0) as [temp1|]; [|done]. simpl.
  unfold setitem_list. case_bool_decide; [|done]. intros [= <-]. by eexists.
Qed.

Lemma assemble_attach df :
  ∃ col, assemble df = attach "OneHotEnc_concatenated" col df.
Proof.
  unfold assemble. destruct (concatenate_columns df) as [df'|] eqn:Hcat.
  - by apply concatenate_columns_Some.
  - by eexists.
Qed.

Lemma endpoint_stage_frame l σ1 :
  rows (dataframe (endpoint_stage l σ1).2) = rows (dataframe σ1) ∧
  ∀ name, name ≠ "OneHotEnc_endpoint" →
    getitem name (attached (dataframe (endpoint_stage l σ1).2))
      = getitem name (attached (dataframe σ1)).
Proof.
  unfold endpoint_stage. case_bool_decide; [|done].
  destruct (apply _ _); [|done]. simpl. split; [done|].
  intros name Hne. by apply getitem_setitem_ne.
Qed.

Lemma effect_stage_frame l σ1 :
  rows (dataframe (effect_stage l σ1).2) = rows (dataframe σ1) ∧
  ∀ name, name ≠ "OneHotEnc_effect" →
    getitem name (attached (dataframe (effect_stage l σ1).2))
      = getitem name (attached (dataframe σ1)).
Proof.
  unfold effect_stage. case_bool_decide; [|done].
  destruct (apply _ _); [|done]. simpl. split; [done|].
  intros name Hne. by apply getitem_setitem_ne.
Qed.






(** ** The width of the combined vector *)

Lemma endpoint_stage_attached l σ1 df1 σ2 :
  endpoint_stage l σ1 = (Return df1, σ2) →
  if bool_decide (1 < length (working l))
  then ∃ vs, attached df1 =
               setitem "OneHotEnc_endpoint" (ndarray <$> vs) (attached (dataframe σ1)) ∧
             length vs = len (dataframe σ1) ∧ Forall (λ v, length v = 2) vs
  else attached df1 = attached (dataframe σ1).
Proof.
  unfold endpoint_stage. case_bool_decide.
  - destruct (apply _ _) as [col|] eqn:Hcol; [|done]. intros [= <- <-]. simpl.
    apply (apply_hot_enc_width _ 2) in Hcol as (vs & -> & Hlen & Hw);
      [|apply endpoint_dict_width].
    exists vs. rewrite length_fmap in Hlen. done.
  - by intros [= <- <-].
Qed.

Lemma effect_stage_attached l σ1 df1 σ2 :
  effect_stage l σ1 = (Return df1, σ2) →
  if bool_decide (1 < length l)
  then ∃ vs, attached df1 =
               setitem "OneHotEnc_effect" (ndarray <$> vs) (attached (dataframe σ1)) ∧
             length vs = len (dataframe σ1) ∧ Forall (λ v, length v = length l) vs
  else attached df1 = attached (dataframe σ1).
Proof.
  unfold effect_stage. case_bool_decide.
  - destruct (apply _ _) as [col|] eqn:Hcol; [|done]. intros [= <- <-]. simpl.
    apply (apply_hot_enc_width _ (length l)) in Hcol as (vs & -> & Hlen & Hw);
      [|apply effect_dict_width].
    exists vs. rewrite length_fmap in Hlen. done.
  - by intros [= <- <-].
Qed.

(** X3. For a table that comes in without a one-hot column (nothing
    attached, or columns of other names only), whenever
    [GetOneHotEnc] returns, every row's combined vector has the same
    width, fixed by the label lists alone: two if the endpoint is encoded
    plus the number of effect labels if the effect is, or one when
    neither is encoded. *)
Theorem combined_vector_width (heap : gmap loc (list string)) (df : DataFrame)
    (re rf : loc) (le lf : list string) (df' : DataFrame) (σ' : Store) :
  heap !! re = Some le → heap !! rf = Some lf →
  filter_like "OneHotEnc" df = [] →
  GetOneHotEnc re rf (PreProcessDataForInference heap df) = (Return df', σ') →
  ∃ combined,
    getitem "OneHotEnc_concatenated" (attached df') = Some combined ∧
    length combined = len df ∧
    Forall (λ c, length (cell_values c) =
                 combined_width (working le) (effect_labels re rf le lf)) combined.
Proof.
  intros Hle Hlf Hfresh Hrun.
  apply GetOneHotEnc_Return in Hrun as (df1 & σ1 & df2 & σ2 & Hrun1 & Hrun2 & -> & _).
  rewrite (GetOneHotEndpoint_eq (PreProcessDataForInference heap df) re le Hle) in Hrun1.
  pose proof (endpoint_stage_attached _ _ _ _ Hrun1) as Hatt1.
  apply endpoint_stage_Return in Hrun1 as (Hdf1 & Hlists1 & Hrows1 & _).
  rewrite merge_store_attached, merge_store_len in Hatt1. simpl in Hatt1.
  rewrite filter_like_onehot_part in Hfresh. apply fmap_nil_inv in Hfresh.
  assert (len df1 = len df) as Hlen1.
  { unfold len at 1. rewrite Hrows1.
    apply (merge_store_len (PreProcessDataForInference heap df)). }
  assert (lists σ1 !! rf = Some (effect_labels re rf le lf)) as Hlf1.
  { rewrite Hlists1.
    by apply (merge_store_effect_labels (PreProcessDataForInference heap df)). }
  rewrite (GetOneHotEffect_eq _ rf _ Hlf1) in Hrun2.
  pose proof (effect_stage_attached _ _ _ _ Hrun2) as Hatt2.
  apply effect_stage_Return in Hrun2 as (Hdf2 & _ & Hrows2 & _).
  rewrite Hdf1 in Hrows2, Hatt2. rewrite Hdf2. rewrite Hlen1 in Hatt2.
  assert (len df2 = len df) as Hlen2.
  { unfold len at 1. by rewrite Hrows2. }
  unfold assemble, combined_width.
  destruct (bool_decide (1 < length (working le)));
    destruct (bool_decide (1 < length (effect_labels re rf le lf))) eqn:Hflag.
  - destruct Hatt1 as (vsE & Hatt1 & HlenE & HwE).
    destruct Hatt2 as (vsF & Hatt2 & HlenF & HwF).
    rewrite Hatt1 in Hatt2.
    assert (onehot_part df2 =
            [("OneHotEnc_endpoint", ndarray <$> vsE);
             ("OneHotEnc_effect", ndarray <$> vsF)]) as Hon.
    { unfold onehot_part. rewrite Hatt2, !filter_setitem by done.
      fold (onehot_part df). by rewrite Hfresh. }
    rewrite (concatenate_columns_two df2 "OneHotEnc_endpoint" "OneHotEnc_effect"
               vsE vsF 2 (length (effect_labels re rf le lf)));
      [|by rewrite filter_like_onehot_part, Hon
       |by rewrite getitem_onehot_part, Hon
       |by rewrite getitem_onehot_part, Hon
       |done|done|lia|lia].
    simpl. rewrite getitem_setitem. eexists. split; [done|].
    rewrite length_fmap, length_zip_with. split; [lia|].
    apply Forall_fmap. eapply Forall_impl; [by apply zip_with_app_uniform|]. done.
  - destruct Hatt1 as (vsE & Hatt1 & HlenE & HwE).
    rewrite Hatt1 in Hatt2.
    assert (onehot_part df2 = [("OneHotEnc_endpoint", ndarray <$> vsE)]) as Hon.
    { unfold onehot_part. rewrite Hatt2, !filter_setitem by done.
      fold (onehot_part df). by rewrite Hfresh. }
    rewrite (concatenate_columns_one df2 "OneHotEnc_endpoint" vsE 2);
      [|by rewrite filter_like_onehot_part, Hon
       |by rewrite getitem_onehot_part, Hon|done|lia].
    simpl. rewrite getitem_setitem. eexists. split; [done|].
    rewrite length_fmap. split; [done|]. by apply Forall_fmap.
  - destruct Hatt2 as (vsF & Hatt2 & HlenF & HwF).
    rewrite Hatt1 in Hatt2.
    assert (onehot_part df2 = [("OneHotEnc_effect", ndarray <$> vsF)]) as Hon.
    { unfold onehot_part. rewrite Hatt2, !filter_setitem by done.
      fold (onehot_part df). by rewrite Hfresh. }
    rewrite (concatenate_columns_one df2 "OneHotEnc_effect" vsF
               (length (effect_labels re rf le lf)));
      [|by rewrite filter_like_onehot_part, Hon
       |by rewrite getitem_onehot_part, Hon|done|lia].
    simpl. rewrite getitem_setitem. eexists. split; [done|].
    rewrite length_fmap. split; [done|].
    apply bool_decide_eq_true in Hflag.
    destruct (length (effect_labels re rf le lf)) as [|w] eqn:Hw; [lia|].
    by apply Forall_fmap.
  - rewrite Hatt1 in Hatt2.
    rewrite concatenate_columns_none
      by (rewrite filter_like_onehot_part; unfold onehot_part;
          rewrite Hatt2; fold (onehot_part df); by rewrite Hfresh).
    simpl. rewrite getitem_setitem. eexists. split; [done|].
    unfold np_zeros. rewrite length_fmap, length_replicate. split; [done|].
    apply Forall_fmap, Forall_replicate. done.
Qed.

Lemma combined_vector_width_witness :
  ∃ df' σ' combined,
    GetOneHotEnc 1 2 (PreProcessDataForInference two_label_lists (table two_rows))
      = (Return df', σ') ∧
    getitem "OneHotEnc_concatenated" (attached df') = Some combined ∧
    Forall (λ c, length (cell_values c) = 4) combined.
Proof.
  destruct (GetOneHotEnc 1 2
              (PreProcessDataForInference two_label_lists (table two_rows)))
    as [[df'|e] σ'] eqn:Hrun; [|by vm_compute in Hrun].
  destruct (combined_vector_width two_label_lists (table two_rows)
              1%positive 2%positive ["EC50"; "EC10"; "NOEC"] ["MOR"; "DVP"] df' σ')
    as (combined & Hget & _ & Hwidth);
    [reflexivity|reflexivity|reflexivity|exact Hrun|].
  by exists df', σ', combined.
Defined.

(** ** The encoders on any store

    A reference that names no list object reads as the empty list. *)

Lemma GetOneHotEndpoint_total σ r :
  __GetOneHotEndpoint r σ =
  endpoint_stage (lists σ !!! r) (merge_store r (lists σ !!! r) σ).
Proof.
  destruct (lists σ !! r) as [l|] eqn:Hl.
  - rewrite (lookup_total_correct _ _ _ Hl). by apply GetOneHotEndpoint_eq.
  - assert (lists σ !!! r = []) as Hnil by by rewrite lookup_total_alt, Hl.
    unfold __GetOneHotEndpoint, merge_NOEC, mbind, M_bind, deref.
    rewrite Hnil. simpl. unfold deref. rewrite Hnil. done.
Qed.

Lemma GetOneHotEffect_total σ r :
  __GetOneHotEffect r σ = effect_stage (lists σ !!! r) σ.
Proof.
  unfold __GetOneHotEffect, mbind, M_bind, deref, effect_stage.
  destruct σ as [ls df out]. simpl.
  case_bool_decide; simpl; [|done].
  unfold try_except, mbind, M_bind, self_dataframe, set_self_dataframe, lift,
    reset_index, raise. simpl.
  fold (effect_dict (ls !!! r)).
  by destruct (apply (hot_enc (effect_dict (ls !!! r))) (effect <$> rows df)).
Qed.

(** ** From the preprocessed table to the batches *)

Lemma getitem_omap_Some {V} name idx (cols : list (string * list V)) col c :
  getitem name cols = Some col → col !! idx = Some c →
  getitem name (omap (λ kc, (kc.1,.) <$> kc.2 !! idx) cols) = Some c.
Proof.
  induction cols as [|[k cl] cols IH]; simpl; [done|].
  case_decide as Hk.
  - intros [= ->] Hc. rewrite Hc. simpl. by rewrite decide_True.
  - intros Hcol Hc. destruct (cl !! idx); simpl; [|by apply IH].
    rewrite decide_False by done. by apply IH.
Qed.

Lemma apply_Return_all {A B} (f : A → outcome B) (l : list A) :
  Forall (λ x, ∃ y, f x = Return y) l →
  ∃ ys, apply f l = Return ys ∧ Forall2 (λ x y, f x = Return y) l ys.
Proof.
  induction 1 as [|x l [y Hy] _ (ys & Hys & Hall)]; simpl.
  - by exists [].
  - rewrite Hy, Hys. exists (y :: ys). split; [done|]. by constructor.
Qed.

(** Small numbers fit a double. *)
Lemma binary_fits_double z : z = 0%Z ∨ z = 1%Z → fits_double z.
Proof. intros [->| ->]; by vm_compute. Qed.

(** The numbers of a column. *)
Lemma cells_fit_getitem df name col :
  cells_fit df → getitem name (attached df) = Some col →
  Forall (λ c, Forall fits_double (cell_values c)) col.
Proof.
  unfold cells_fit. induction (attached df) as [|[k c] cols IH]; simpl; [done|].
  intros [Hc Hcols]%Forall_cons. case_decide; [by intros [= <-]|by apply IH].
Qed.

Lemma cells_fit_attach df name col :
  cells_fit df → Forall (λ c, Forall fits_double (cell_values c)) col →
  cells_fit (attach name col df).
Proof.
  unfold cells_fit. simpl. intros Hdf Hcol.
  induction (attached df) as [|[k c] cols IH]; simpl.
  - by repeat constructor.
  - apply Forall_cons in Hdf as [Hc Hcols].
    case_decide; constructor; simpl; auto.
Qed.

Lemma hot_enc_dict_binary (labels : list string) x v :
  dict (zip labels (eye (length labels))) !! x = Some v →
  Forall (λ z, z = 0%Z ∨ z = 1%Z) v.
Proof.
  intros Hv%dict_lookup_Some_key. apply elem_of_zip_r in Hv. unfold eye in Hv.
  apply list_elem_of_fmap in Hv as [i [-> _]]. apply eye_row_binary.
Qed.

Lemma apply_hot_enc_fits (labels : list string) xs col :
  apply (hot_enc (dict (zip labels (eye (length labels))))) xs = Return col →
  Forall (λ c, Forall fits_double (cell_values c)) col.
Proof.
  intros (vs & -> & Hall)%apply_hot_enc_inv. apply Forall_fmap. simpl.
  induction Hall as [|x v xs vs Hv _ IH]; constructor; [|done].
  apply hot_enc_dict_binary in Hv. eapply Forall_impl; [exact Hv|].
  apply binary_fits_double.
Qed.

Lemma merge_store_cells_fit σ r l :
  cells_fit (dataframe σ) → cells_fit (dataframe (merge_store r l σ)).
Proof. unfold cells_fit. by rewrite merge_store_attached. Qed.

Lemma endpoint_stage_cells_fit l σ1 :
  cells_fit (dataframe σ1) → cells_fit (dataframe (endpoint_stage l σ1).2).
Proof.
  intros Hfit. unfold endpoint_stage. case_bool_decide; [|done].
  destruct (apply _ _) as [col|] eqn:Hcol; [|done]. simpl.
  apply cells_fit_attach; [done|]. by eapply apply_hot_enc_fits.
Qed.

Lemma effect_stage_cells_fit l σ1 :
  cells_fit (dataframe σ1) → cells_fit (dataframe (effect_stage l σ1).2).
Proof.
  intros Hfit. unfold effect_stage. case_bool_decide; [|done].
  destruct (apply _ _) as [col|] eqn:Hcol; [|done]. simpl.
  apply cells_fit_attach; [done|]. by eapply apply_hot_enc_fits.
Qed.

(** The arrays of the assembler hold numbers of the frame's columns. *)
Lemma np_array_tolist vs a : np_array vs = Some a → tolist a = vs.
Proof.
  destruct vs as [|v vs]; simpl; [by intros [= <-]|].
  destruct (forallb _ vs); [|done]. by intros [= <-].
Qed.

Lemma mapM_cell_tolist cells vs :
  mapM cell_tolist cells = Some vs → cells = ndarray <$> vs.
Proof.
  intros Hall%mapM_Some_1. induction Hall as [|c v cells vs Hc _ IH]; [done|].
  destruct c; simpl in Hc; try done. injection Hc as <-. simpl. by f_equal.
Qed.

Lemma column_array_fits df col a :
  cells_fit df → column_array df col = Some a →
  Forall (Forall fits_double) (tolist a).
Proof.
  intros Hfit. unfold column_array.
  destruct (getitem col (attached df)) as [cells|] eqn:Hcells; [|done]. simpl.
  destruct (mapM cell_tolist cells) as [vs|] eqn:Hvs; [|done]. simpl.
  intros Ha%np_array_tolist. rewrite Ha.
  apply mapM_cell_tolist in Hvs as ->.
  pose proof (cells_fit_getitem _ _ _ Hfit Hcells) as Hcol.
  rewrite Forall_fmap in Hcol. eapply Forall_impl; [exact Hcol|]. done.
Qed.

Lemma np_concatenate_fits a b c :
  np_concatenate a b = Some c →
  Forall (Forall fits_double) (tolist a) → Forall (Forall fits_double) (tolist b) →
  Forall (Forall fits_double) (tolist c).
Proof.
  destruct a as [|x], b as [|y]; simpl; try done.
  destruct (bool_decide (length x = length y)); [|done].
  intros [= <-] Hx. simpl.
  revert y. induction Hx as [|u x Hu _ IH]; intros y Hy; [constructor|].
  destruct Hy as [|v y Hv Hy]; simpl; constructor; [|by apply IH].
  by apply Forall_app.
Qed.

Lemma concat_next_fits df columns temp1 idx :
  cells_fit df → Forall (Forall fits_double) (tolist temp1) →
  Forall (Forall fits_double) (tolist (concat_next df columns temp1 idx)).
Proof.
  intros Hfit Htemp1. unfold concat_next.
  destruct (columns !! (idx + 1)) as [col|]; [|done]. simpl.
  destruct (column_array df col) as [temp2|] eqn:Htemp2; [|done]. simpl.
  destruct (np_concatenate temp1 temp2) as [c|] eqn:Hc; [|done]. simpl.
  eapply np_concatenate_fits; [done|done|]. by eapply column_array_fits.
Qed.

Lemma loop_fits df columns temp1 idxs :
  cells_fit df → Forall (Forall fits_double) (tolist temp1) →
  Forall (Forall fits_double) (tolist (foldl (concat_next df columns) temp1 idxs)).
Proof.
  intros Hfit. revert temp1.
  induction idxs as [|idx idxs IH]; intros temp1 Htemp1; [done|].
  simpl. by apply IH, concat_next_fits.
Qed.

(** The combined column of a frame whose numbers fit a double: one
    Python list per row, of numbers that fit a double. *)
Lemma assemble_fits df :
  cells_fit df →
  ∃ vs, getitem "OneHotEnc_concatenated" (attached (assemble df))
          = Some (pylist <$> vs) ∧
        length vs = len df ∧ Forall (Forall fits_double) vs.
Proof.
  intros Hfit. unfold assemble.
  destruct (concatenate_columns df) as [df'|] eqn:Hcat.
  - unfold concatenate_columns in Hcat.
    destruct (filter_like "OneHotEnc" df !! 0) as [c0|]; [|done]. simpl in Hcat.
    destruct (column_array df c0) as [temp1|] eqn:Htemp1; [|done]. simpl in Hcat.
    unfold setitem_list in Hcat. case_bool_decide as Hlen; [|done].
    injection Hcat as <-. simpl. rewrite getitem_setitem.
    eexists. split; [done|]. split; [done|].
    apply loop_fits; [done|]. by eapply column_array_fits.
  - simpl. rewrite getitem_setitem. eexists. split; [done|].
    unfold np_zeros. split; [by rewrite length_replicate|].
    apply Forall_replicate. constructor; [by vm_compute|constructor].
Qed.

(** What [GetOneHotEnc] leaves of the rows and of the numbers, whether
    it returns or raises. *)
Lemma GetOneHotEnc_frame re rf σ :
  rows (dataframe (GetOneHotEnc re rf σ).2)
    = rows (dataframe (merge_store re (lists σ !!! re) σ)) ∧
  (cells_fit (dataframe σ) →
   ∀ df1 σ1, GetOneHotEnc re rf σ = (Return df1, σ1) →
     ∃ vs, getitem "OneHotEnc_concatenated" (attached df1) = Some (pylist <$> vs) ∧
           length vs = len df1 ∧ Forall (Forall fits_double) vs).
Proof.
  rewrite GetOneHotEnc_eq, GetOneHotEndpoint_total.
  set (m := merge_store re (lists σ !!! re) σ).
  destruct (endpoint_stage_frame (lists σ !!! re) m) as (Hr1 & _).
  pose proof (endpoint_stage_cells_fit (lists σ !!! re) m) as Hf1.
  destruct (endpoint_stage (lists σ !!! re) m) as [[d1|e1] s1]; simpl in *;
    [|by split].
  rewrite GetOneHotEffect_total.
  destruct (effect_stage_frame (lists s1 !!! rf) s1) as (Hr2 & _).
  pose proof (effect_stage_cells_fit (lists s1 !!! rf) s1) as Hf2.
  destruct (effect_stage (lists s1 !!! rf) s1) as [[d2|e2] s2]; simpl in *.
  2:{ split; [by rewrite Hr2|done]. }
  rewrite assemble_store_dataframe.
  destruct (assemble_attach (dataframe s2)) as [col Hcol].
  split; [rewrite Hcol; simpl; by rewrite Hr2|].
  intros Hfit df1 σ1 [= <- _].
  destruct (assemble_fits (dataframe s2)) as (vs & Hvs & Hlen & Hfits).
  { apply Hf2, Hf1. by apply merge_store_cells_fit. }
  exists vs. split; [done|]. split; [|done].
  rewrite Hlen, Hcol. done.
Qed.

Lemma merge_store_durations σ r l :
  exposure_duration <$> rows (dataframe (merge_store r l σ))
    = exposure_duration <$> rows (dataframe σ).
Proof.
  unfold merge_store. case_decide; simpl; [|done].
  rewrite <- list_fmap_compose. apply list_fmap_ext. intros _ row _. simpl.
  by case_decide.
Qed.

Section records.
Context (encode_plus : value → nat → outcome (list Z * list Z)).

(** The record of a row of a table that carries the canonical SMILES
    and the combined column. *)
Lemma getitem_record df max_len idx row canonical s col v encodings :
  rows df !! idx = Some row →
  getitem "SMILES_Canonical_RDKit" (attached df) = Some canonical →
  canonical !! idx = Some (text s) →
  getitem "OneHotEnc_concatenated" (attached df) = Some col →
  col !! idx = Some (pylist v) →
  encode_plus (VStr s) max_len = Return encodings →
  fits_double (exposure_duration row) → Forall fits_double v →
  Inference_dataset.__getitem__ encode_plus
    (Inference_dataset.__init__ df preprocessed_columns max_len) idx =
  Return (mkSample encodings.1 encodings.2
            (Scalar (float32_of_int (exposure_duration row)))
            (Tensor1 (float32_of_int <$> v))).
Proof.
  intros Hrow Hcan Hs Hcol Hv Henc Hdur Hfits.
  unfold Inference_dataset.__getitem__, iloc. simpl. rewrite Hrow. simpl.
  unfold row_getitem at 1. simpl.
  rewrite (getitem_omap_Some _ _ _ _ _ Hcan Hs). simpl.
  rewrite Henc. simpl.
  unfold row_getitem. simpl.
  rewrite (getitem_omap_Some _ _ _ _ _ Hcol Hv). simpl.
  unfold store_scalar at 1. rewrite bool_decide_eq_true_2 by done. simpl.
  by rewrite (apply_store_scalar v Hfits).
Qed.

Context (Mol : Type).
Context (MolFromSmiles : string → outcome (option Mol)).
Context (MolToSmiles : Mol → outcome string).

(** X8. Once [GetOneHotEnc] and then [GetCanonicalSMILES] have returned, on a
    table whose numbers fit a double, the loader over the canonical
    SMILES, the duration and the combined column can build every record,
    provided the tokenizer accepts text: no batch fails to be fetched; a
    batch has one record per index, and the record at an index carries
    the tokens of that row's canonical SMILES, and its duration and its
    combined vector in single precision. *)
Theorem preprocessed_table_feeds_the_loader (σ : Store) (re rf : loc)
    (df1 : DataFrame) (σ1 : Store) (df2 : DataFrame) (σ2 : Store)
    (batch_size : Z) (max_length : nat) (seed : Z) (num_workers : nat) :
  GetOneHotEnc re rf σ = (Return df1, σ1) →
  GetCanonicalSMILES Mol MolFromSmiles MolToSmiles σ1 = (Return df2, σ2) →
  (0 < batch_size)%Z →
  (∀ text, ∃ encodings, encode_plus (VStr text) max_length = Return encodings) →
  Forall (λ row, fits_double (exposure_duration row)) (rows (dataframe σ)) →
  cells_fit (dataframe σ) →
  ∃ built combined,
    BuildInferenceDataLoaderAndDataset.__init__ df2 preprocessed_columns
      batch_size max_length seed num_workers = Return built ∧
    getitem "OneHotEnc_concatenated" (attached df2) = Some combined ∧
    ∀ x, x ∈ torch.index_batches
               (BuildInferenceDataLoaderAndDataset.dataloader built) →
      ∃ data,
        BuildInferenceDataLoaderAndDataset.fetch encode_plus
          (BuildInferenceDataLoaderAndDataset.dataloader built) x = Return data ∧
        length data = length x ∧
        ∀ k idx, x !! k = Some idx →
          ∃ record row v encodings,
            data !! k = Some record ∧ rows df2 !! idx = Some row ∧
            combined !! idx = Some (pylist v) ∧
            encode_plus
              (VStr (__CanonicalizeRDKit Mol MolFromSmiles MolToSmiles (SMILES row)))
              max_length = Return encodings ∧
            record = mkSample encodings.1 encodings.2
                       (Scalar (float32_of_int (exposure_duration row)))
                       (Tensor1 (float32_of_int <$> v)).
Proof.
  intros Hrun1 Hrun2 Hpos Htok Hdur Hfit.
  destruct (GetOneHotEnc_frame re rf σ) as (Hrows & Hcomb).
  destruct (Hcomb Hfit df1 σ1 Hrun1) as (vs & Hcol & Hlen & Hfits).
  pose proof (GetOneHotEnc_Return _ _ _ _ _ Hrun1)
    as (_ & _ & _ & _ & _ & _ & _ & Hdf1).
  rewrite Hrun1 in Hrows. simpl in Hrows. rewrite Hdf1 in Hrows.
  assert (Forall (λ row, fits_double (exposure_duration row)) (rows df1)) as Hdur1.
  { assert (∀ rs, Forall (λ row, fits_double (exposure_duration row)) rs ↔
                  Forall fits_double (exposure_duration <$> rs)) as Hfmap
      by (intros rs; by rewrite Forall_fmap).
    by rewrite Hrows, Hfmap, merge_store_durations, <- Hfmap. }
  unfold GetCanonicalSMILES, mbind, M_bind, self_dataframe, set_self_dataframe
    in Hrun2. simpl in Hrun2. injection Hrun2 as <- _. rewrite Hdf1.
  set (canonical := canonical_column Mol MolFromSmiles MolToSmiles df1).
  set (df2 := attach "SMILES_Canonical_RDKit" canonical df1).
  assert (getitem "OneHotEnc_concatenated" (attached df2) = Some (pylist <$> vs))
    as Hcol2.
  { unfold df2. simpl. by rewrite getitem_setitem_ne. }
  assert (getitem "SMILES_Canonical_RDKit" (attached df2) = Some canonical) as Hcan2.
  { unfold df2. simpl. apply getitem_setitem. }
  unfold BuildInferenceDataLoaderAndDataset.__init__.
  rewrite bool_decide_eq_false_2 by lia. eexists _, (pylist <$> vs).
  split; [done|]. split; [done|]. simpl.
  unfold torch.index_batches, torch.SequentialSampler, Inference_dataset.__len__.
  simpl. change (len df2) with (len df1).
  destruct (BatchSampler_spec (Z.to_nat batch_size) (seq 0 (len df1)) [])
    as (Hcat & _ & _); [simpl; lia|]. simpl in Hcat.
  intros x Hx.
  assert (Forall (λ idx, idx < len df1) x) as Hrange.
  { apply Forall_forall. intros idx Hidx.
    assert (idx ∈ seq 0 (len df1)) as Hin.
    { rewrite <- Hcat. apply list_elem_of_In, in_concat. exists x.
      split; by apply list_elem_of_In. }
    apply elem_of_seq in Hin. lia. }
  assert (∀ idx, idx < len df1 →
            ∃ row v encodings,
              rows df2 !! idx = Some row ∧ vs !! idx = Some v ∧
              encode_plus
                (VStr (__CanonicalizeRDKit Mol MolFromSmiles MolToSmiles (SMILES row)))
                max_length = Return encodings ∧
              Inference_dataset.__getitem__ encode_plus
                (Inference_dataset.__init__ df2 preprocessed_columns max_length) idx =
              Return (mkSample encodings.1 encodings.2
                        (Scalar (float32_of_int (exposure_duration row)))
                        (Tensor1 (float32_of_int <$> v))))
    as Hrecord.
  { intros idx Hidx.
    destruct (lookup_lt_is_Some_2 (rows df1) idx) as [row Hrow]; [done|].
    destruct (lookup_lt_is_Some_2 vs idx) as [v Hv]; [lia|].
    destruct (Htok (__CanonicalizeRDKit Mol MolFromSmiles MolToSmiles (SMILES row)))
      as [encodings Henc].
    exists row, v, encodings. split; [done|]. split; [done|]. split; [done|].
    eapply getitem_record; [done|exact Hcan2| |exact Hcol2| |done| |].
    - unfold canonical, canonical_column. by rewrite list_lookup_fmap, Hrow.
    - by rewrite list_lookup_fmap, Hv.
    - rewrite Forall_forall in Hdur1. apply Hdur1.
      by eapply list_elem_of_lookup_2.
    - rewrite Forall_forall in Hfits. apply Hfits.
      by eapply list_elem_of_lookup_2. }
  unfold BuildInferenceDataLoaderAndDataset.fetch. simpl.
  destruct (apply_Return_all
              (Inference_dataset.__getitem__ encode_plus
                 (Inference_dataset.__init__ df2 preprocessed_columns max_length)) x)
    as (data & Hdata & Hall).
  { eapply Forall_impl; [exact Hrange|]. intros idx Hidx. simpl in Hidx.
    destruct (Hrecord idx Hidx) as (row & v & encodings & _ & _ & _ & Hget). eauto. }
  exists data. split; [exact Hdata|].
  split; [symmetry; by eapply Forall2_length|].
  intros k idx Hk.
  destruct (Forall2_lookup_l _ _ _ _ _ Hall Hk) as (record & Hrec & Hget).
  rewrite Forall_forall in Hrange.
  destruct (Hrecord idx (Hrange idx (list_elem_of_lookup_2 _ _ _ Hk)))
    as (row & v & encodings & Hrow & Hv & Henc & Hget').
  exists record, row, v, encodings. rewrite Hget in Hget'.
  injection Hget' as ->. rewrite list_lookup_fmap, Hv. done.
Qed.
End records.

Lemma toy_encode_plus_accepts_text max_length text :
  ∃ encodings, toy_encode_plus (VStr text) max_length = Return encodings.
Proof. by eexists. Qed.

Lemma preprocessed_table_feeds_the_loader_witness :
  ∃ df1 σ1 df2 σ2 built data,
    GetOneHotEnc 1 2 (PreProcessDataForInference two_label_lists (table two_rows))
      = (Return df1, σ1) ∧
    GetCanonicalSMILES unit toy_MolFromSmiles toy_MolToSmiles σ1 = (Return df2, σ2) ∧
    BuildInferenceDataLoaderAndDataset.__init__ df2 preprocessed_columns
      8 100 42 0 = Return built ∧
    BuildInferenceDataLoaderAndDataset.fetch toy_encode_plus
      (BuildInferenceDataLoaderAndDataset.dataloader built) [0; 1] = Return data ∧
    length data = 2.
Proof.
  destruct (GetOneHotEnc 1 2
              (PreProcessDataForInference two_label_lists (table two_rows)))
    as [[df1|e] σ1] eqn:Hrun1; [|by vm_compute in Hrun1].
  destruct (GetCanonicalSMILES unit toy_MolFromSmiles toy_MolToSmiles σ1)
    as [[df2|e] σ2] eqn:Hrun2; [|by vm_compute in Hrun2].
  destruct (preprocessed_table_feeds_the_loader toy_encode_plus unit
              toy_MolFromSmiles toy_MolToSmiles _ _ _ df1 σ1 df2 σ2 8 100 42 0
              Hrun1 Hrun2) as (built & combined & Hbuilt & _ & Hfetch);
    [lia|apply toy_encode_plus_accepts_text| |constructor|].
  { repeat constructor; by vm_compute. }
  destruct (Hfetch [0; 1]) as (data & Hdata & Hlen & _).
  { pose proof Hrun1 as Hrun1'. vm_compute in Hrun1'. injection Hrun1' as <- <-.
    pose proof Hrun2 as Hrun2'. vm_compute in Hrun2'. injection Hrun2' as <- <-.
    pose proof Hbuilt as Hbuilt'. vm_compute in Hbuilt'. injection Hbuilt' as <-.
    vm_compute. constructor. }
  by exists df1, σ1, df2, σ2, built, data.
Defined.


(** ** The two preprocessing steps in either order

    The encoders and the assembler read the rows and the columns whose
    name contains OneHotEnc; a canonical column attached beforehand
    changes nothing of what they do, only where the columns stand. *)

Lemma canonical_attached_attach C df dfc name col :
  name ≠ "SMILES_Canonical_RDKit" →
  canonical_attached C df dfc →
  canonical_attached C (attach name col df) (attach name col dfc).
Proof.
  intros Hname (Hrows & Hpart & Hcan & Hcols). split; [done|]. split; [|split].
  - destruct (str_contains "OneHotEnc" name) eqn:Hlike.
    + by rewrite !onehot_part_attach, Hpart.
    + by rewrite !onehot_part_attach_ne.
  - simpl. by rewrite getitem_setitem_ne.
  - intros name' Hname'. simpl. destruct (decide (name = name')) as [->|Hne].
    + by rewrite !getitem_setitem.
    + rewrite !getitem_setitem_ne by done. by apply Hcols.
Qed.

Lemma canonical_attached_merge_store C σ σc r l :
  canonical_attached_store C σ σc →
  canonical_attached_store C (merge_store r l σ) (merge_store r l σc).
Proof.
  intros (Hlists & Hout & Hrows & Hpart & Hcan & Hcols). unfold merge_store.
  case_decide; [|done]. unfold canonical_attached_store, canonical_attached.
  simpl. unfold count_NOEC. by rewrite Hlists, Hout, Hrows.
Qed.

(** A stage run on both states: the same outcome, and states that
    still differ by the canonical column only. *)
Lemma endpoint_stage_canonical_attached C l σ σc :
  canonical_attached_store C σ σc →
  canonical_attached_store C (endpoint_stage l σ).2 (endpoint_stage l σc).2 ∧
  ((∃ e, (endpoint_stage l σ).1 = Raise e ∧ (endpoint_stage l σc).1 = Raise e) ∨
   ((endpoint_stage l σ).1 = Return (dataframe (endpoint_stage l σ).2) ∧
    (endpoint_stage l σc).1 = Return (dataframe (endpoint_stage l σc).2))).
Proof.
  intros Hsim. unfold endpoint_stage.
  pose proof Hsim as (Hlists & Hout & Hdf). pose proof Hdf as (Hrows & _).
  rewrite Hrows. case_bool_decide.
  - destruct (apply _ _) as [col|e]; simpl.
    + split; [|by right]. split; [done|]. split; [done|].
      by apply canonical_attached_attach.
    + split; [done|]. left. by eexists.
  - simpl. split; [|by right]. rewrite Hlists, Hout.
    split; [done|]. split; [done|]. exact Hdf.
Qed.

Lemma effect_stage_canonical_attached C l σ σc :
  canonical_attached_store C σ σc →
  canonical_attached_store C (effect_stage l σ).2 (effect_stage l σc).2 ∧
  ((∃ e, (effect_stage l σ).1 = Raise e ∧ (effect_stage l σc).1 = Raise e) ∨
   ((effect_stage l σ).1 = Return (dataframe (effect_stage l σ).2) ∧
    (effect_stage l σc).1 = Return (dataframe (effect_stage l σc).2))).
Proof.
  intros Hsim. unfold effect_stage.
  pose proof Hsim as (Hlists & Hout & Hdf). pose proof Hdf as (Hrows & _).
  rewrite Hrows. case_bool_decide.
  - destruct (apply _ _) as [col|e]; simpl.
    + split; [|by right]. split; [done|]. split; [done|].
      by apply canonical_attached_attach.
    + split; [done|]. left. by eexists.
  - simpl. split; [|by right]. rewrite Hlists, Hout.
    split; [done|]. split; [done|]. exact Hdf.
Qed.

Lemma filter_like_contains like df name :
  name ∈ filter_like like df → str_contains like name = true.
Proof.
  unfold filter_like. intros ([k c] & -> & Hin)%list_elem_of_fmap.
  by apply list_elem_of_filter in Hin as [Hlike _].
Qed.

Lemma column_array_onehot_part df dfc col :
  onehot_part dfc = onehot_part df → str_contains "OneHotEnc" col = true →
  column_array dfc col = column_array df col.
Proof.
  intros Hpart Hcol. unfold column_array.
  by rewrite !getitem_onehot_part, Hpart.
Qed.

Lemma loop_onehot_part df dfc columns temp1 idxs :
  (∀ col, col ∈ columns → column_array dfc col = column_array df col) →
  foldl (concat_next dfc columns) temp1 idxs =
  foldl (concat_next df columns) temp1 idxs.
Proof.
  intros Hcols. revert temp1.
  induction idxs as [|idx idxs IH]; intros temp1; simpl; [done|].
  rewrite IH. f_equal. unfold concat_next.
  destruct (columns !! (idx + 1)) as [col|] eqn:Hcol; [|done]. simpl.
  by rewrite (Hcols col (list_elem_of_lookup_2 _ _ _ Hcol)).
Qed.

(** The assembler finds the same columns and makes the same combined
    column of them. *)
Lemma assemble_canonical_attached C df dfc :
  canonical_attached C df dfc →
  ∃ col, assemble df = attach "OneHotEnc_concatenated" col df ∧
         assemble dfc = attach "OneHotEnc_concatenated" col dfc ∧
         (concatenate_columns df = None ↔ concatenate_columns dfc = None).
Proof.
  intros (Hrows & Hpart & _).
  assert (len dfc = len df) as Hlen by (unfold len; by rewrite Hrows).
  assert (filter_like "OneHotEnc" dfc = filter_like "OneHotEnc" df) as Hlike
    by by rewrite !filter_like_onehot_part, Hpart.
  unfold assemble, concatenate_columns. rewrite Hlike, Hlen.
  destruct (filter_like "OneHotEnc" df !! 0) as [c0|] eqn:Hc0; simpl.
  2:{ by eexists. }
  assert (∀ col, col ∈ filter_like "OneHotEnc" df →
            column_array dfc col = column_array df col) as Hcols.
  { intros col Hcol. apply column_array_onehot_part; [done|].
    by eapply filter_like_contains. }
  rewrite (Hcols c0 (list_elem_of_lookup_2 _ _ _ Hc0)).
  destruct (column_array df c0) as [temp1|]; simpl; [|by eexists].
  rewrite (loop_onehot_part df dfc _ _ _ Hcols).
  unfold setitem_list. rewrite Hlen. case_bool_decide; simpl; by eexists.
Qed.

Lemma assemble_store_canonical_attached C σ σc :
  canonical_attached_store C σ σc →
  canonical_attached_store C (assemble_store σ) (assemble_store σc).
Proof.
  intros (Hlists & Hout & Hdf).
  destruct (assemble_canonical_attached C _ _ Hdf) as (col & Ha & Hac & Hnone).
  assert (canonical_attached C (assemble (dataframe σ)) (assemble (dataframe σc)))
    as Hsim.
  { rewrite Ha, Hac. by apply canonical_attached_attach. }
  rewrite <- !assemble_store_dataframe in Hsim.
  unfold canonical_attached_store. split; [|split; [|done]].
  - by rewrite !assemble_store_lists.
  - unfold assemble_store.
    destruct (concatenate_columns (dataframe σ)) as [d|] eqn:Hd;
      destruct (concatenate_columns (dataframe σc)) as [dc|] eqn:Hdc; simpl;
      [done| | |by rewrite Hout].
    + by pose proof (proj2 Hnone eq_refl).
    + by pose proof (proj1 Hnone eq_refl).
Qed.

Lemma canonical_column_merge_store Mol MolFromSmiles MolToSmiles σ r l :
  canonical_column Mol MolFromSmiles MolToSmiles (dataframe (merge_store r l σ))
    = canonical_column Mol MolFromSmiles MolToSmiles (dataframe σ).
Proof.
  unfold canonical_column, merge_store. case_decide; simpl; [|done].
  rewrite <- list_fmap_compose. apply list_fmap_ext. intros _ row _. simpl.
  by case_decide.
Qed.

Section order_of_steps.
Context (Mol : Type).
Context (MolFromSmiles : string → outcome (option Mol)).
Context (MolToSmiles : Mol → outcome string).

(** X7. Encoding first and canonicalising second, as the app does, or the
    other way round: whenever the encoding returns, both orders return;
    the two tables have the same rows, the same column under every name
    and the one-hot columns in the same order, and the label lists and
    the messages are the same. Where the canonical column stands among
    the columns can differ. *)
Theorem preprocessing_steps_commute (σ : Store) (re rf : loc)
    (df1 : DataFrame) (σ1 : Store) :
  GetOneHotEnc re rf σ = (Return df1, σ1) →
  ∃ dfa σa dfb σb,
    GetCanonicalSMILES Mol MolFromSmiles MolToSmiles σ1 = (Return dfa, σa) ∧
    GetOneHotEnc re rf (GetCanonicalSMILES Mol MolFromSmiles MolToSmiles σ).2
      = (Return dfb, σb) ∧
    dataframe σa = dfa ∧ dataframe σb = dfb ∧
    lists σa = lists σb ∧ stdout σa = stdout σb ∧
    rows dfa = rows dfb ∧
    (∀ name, getitem name (attached dfa) = getitem name (attached dfb)) ∧
    filter_like "OneHotEnc" dfa = filter_like "OneHotEnc" dfb.
Proof.
  intros Hrun.
  set (C := canonical_column Mol MolFromSmiles MolToSmiles (dataframe σ)).
  set (σc := mkStore (lists σ) (attach "SMILES_Canonical_RDKit" C (dataframe σ))
               (stdout σ)).
  assert (GetCanonicalSMILES Mol MolFromSmiles MolToSmiles σ
          = (Return (dataframe σc), σc)) as -> by done.
  simpl.
  assert (canonical_attached_store C σ σc) as Hsim.
  { split; [done|]. split; [done|]. split; [done|]. unfold σc. simpl.
    split; [|split].
    - by rewrite onehot_part_attach_ne.
    - apply getitem_setitem.
    - intros name Hname. by rewrite getitem_setitem_ne. }
  (* the encoding on both states *)
  pose proof (GetOneHotEnc_frame re rf σ) as [Hrows1 _].
  rewrite Hrun in Hrows1. simpl in Hrows1.
  pose proof (GetOneHotEnc_Return _ _ _ _ _ Hrun)
    as (_ & _ & _ & _ & _ & _ & _ & Hdf1).
  rewrite GetOneHotEnc_eq, !GetOneHotEndpoint_total in *.
  assert (lists σc !!! re = lists σ !!! re) as -> by done.
  set (le := lists σ !!! re) in *.
  pose proof (canonical_attached_merge_store C σ σc re le Hsim) as Hsim0.
  destruct (endpoint_stage_canonical_attached C le _ _ Hsim0) as [Hsim1 Hres1].
  destruct (endpoint_stage le (merge_store re le σ)) as [[d1|e1] s1]; [|done].
  destruct (endpoint_stage le (merge_store re le σc)) as [[d1c|e1c] s1c].
  2:{ by destruct Hres1 as [(e & ? & _)|[_ ?]]. }
  simpl in Hsim1. rewrite !GetOneHotEffect_total in *.
  assert (lists s1c !!! rf = lists s1 !!! rf) as ->
    by (destruct Hsim1 as [-> _]; done).
  set (lf := lists s1 !!! rf) in *.
  destruct (effect_stage_canonical_attached C lf _ _ Hsim1) as [Hsim2 Hres2].
  destruct (effect_stage lf s1) as [[d2|e2] s2]; [|done].
  destruct (effect_stage lf s1c) as [[d2c|e2c] s2c].
  2:{ by destruct Hres2 as [(e & ? & _)|[_ ?]]. }
  simpl in Hsim2. injection Hrun as <- <-.
  apply assemble_store_canonical_attached in Hsim2
    as (Hlists & Hout & Hrows & Hpart & Hcan & Hcols).
  rewrite <- assemble_store_dataframe in *.
  set (a := assemble_store s2) in *. set (ac := assemble_store s2c) in *.
  (* canonicalising after the encoding *)
  assert (canonical_column Mol MolFromSmiles MolToSmiles (dataframe a) = C) as HC.
  { unfold C. rewrite <- (canonical_column_merge_store _ _ _ σ re le).
    unfold canonical_column. by rewrite Hrows1. }
  unfold GetCanonicalSMILES, mbind, M_bind, self_dataframe, set_self_dataframe.
  simpl. rewrite HC.
  do 4 eexists. split; [done|]. split; [done|]. simpl.
  split; [done|]. split; [done|]. split; [done|]. split; [done|].
  split; [done|]. split.
  - intros name. destruct (decide (name = "SMILES_Canonical_RDKit")) as [->|Hne].
    + by rewrite getitem_setitem, Hcan.
    + rewrite getitem_setitem_ne by done. symmetry. by apply Hcols.
  - rewrite !filter_like_onehot_part.
    change (mkDataFrame (rows (dataframe a))
              (setitem "SMILES_Canonical_RDKit" C (attached (dataframe a))))
      with (attach "SMILES_Canonical_RDKit" C (dataframe a)).
    by rewrite onehot_part_attach_ne, Hpart.
Qed.
End order_of_steps.

Lemma preprocessing_steps_commute_witness :
  ∃ dfa σa dfb σb,
    GetCanonicalSMILES unit toy_MolFromSmiles toy_MolToSmiles
      (GetOneHotEnc 1 2
         (PreProcessDataForInference two_label_lists (table two_rows))).2
      = (Return dfa, σa) ∧
    GetOneHotEnc 1 2
      (GetCanonicalSMILES unit toy_MolFromSmiles toy_MolToSmiles
         (PreProcessDataForInference two_label_lists (table two_rows))).2
      = (Return dfb, σb) ∧
    (∀ name, getitem name (attached dfa) = getitem name (attached dfb)) ∧
    (attached dfa).*1 =
      ["OneHotEnc_endpoint"; "OneHotEnc_effect"; "OneHotEnc_concatenated";
       "SMILES_Canonical_RDKit"] ∧
    (attached dfb).*1 =
      ["SMILES_Canonical_RDKit"; "OneHotEnc_endpoint"; "OneHotEnc_effect";
       "OneHotEnc_concatenated"].
Proof.
  destruct (GetOneHotEnc 1 2
              (PreProcessDataForInference two_label_lists (table two_rows)))
    as [[df1|e] σ1] eqn:Hrun; [|by vm_compute in Hrun].
  destruct (preprocessing_steps_commute unit toy_MolFromSmiles toy_MolToSmiles
              _ _ _ df1 σ1 Hrun)
    as (dfa & σa & dfb & σb & Hfirst & Hsecond & _ & _ & _ & _ & _ & Hcols & _).
  exists dfa, σa, dfb, σb. simpl. split; [exact Hfirst|]. split; [exact Hsecond|].
  split; [exact Hcols|].
  vm_compute in Hrun. injection Hrun as <- <-.
  vm_compute in Hfirst. injection Hfirst as <- _.
  vm_compute in Hsecond. injection Hsecond as <- _. split; reflexivity.
Defined.

(** ** Calling [GetOneHotEnc] again *)

Lemma setitem_same name col cols :
  getitem name cols = Some col → setitem name col cols = cols.
Proof.
  induction cols as [|[k c] cols IH]; simpl; [done|].
  case_decide; [by intros [= ->]|]. intros Hcol. by rewrite IH.
Qed.

Lemma attach_same name col df :
  getitem name (attached df) = Some col → attach name col df = df.
Proof.
  intros Hcol. unfold attach. rewrite (setitem_same _ _ _ Hcol). by destruct df.
Qed.

Lemma rename_NOEC_id df :
  Forall (λ row, endpoint row ≠ "NOEC") (rows df) → rename_NOEC df = df.
Proof.
  intros Hno. unfold rename_NOEC. destruct df as [rs att]. simpl in *. f_equal.
  induction Hno as [|row rs Hrow _ IH]; simpl; [done|].
  rewrite decide_False by done. by f_equal.
Qed.

Lemma rename_NOEC_no_NOEC df :
  Forall (λ row, endpoint row ≠ "NOEC") (rows (rename_NOEC df)).
Proof.
  simpl. apply Forall_fmap, Forall_forall. intros row _. simpl.
  by case_decide.
Qed.

Lemma working_subseteq l x : x ∈ working l → x ∈ l.
Proof.
  unfold working. case_decide; [|done].
  destruct (remove "NOEC" l) as [l'|] eqn:Hrm; simpl; [|done].
  apply remove_Some in Hrm as (l1 & l2 & -> & _ & ->).
  rewrite !elem_of_app, elem_of_cons. tauto.
Qed.

Lemma working_length l : (length (working l) ≤ length l)%nat.
Proof.
  unfold working. case_decide; [|done].
  destruct (remove "NOEC" l) as [l'|] eqn:Hrm; simpl; [|done].
  apply remove_Some in Hrm as (l1 & l2 & -> & _ & ->).
  rewrite !length_app. simpl. lia.
Qed.

(** What an encoder that returned has done, exactly. *)
Lemma endpoint_stage_exact l σ1 d1 s1 :
  endpoint_stage l σ1 = (Return d1, s1) →
  dataframe s1 = d1 ∧ lists s1 = lists σ1 ∧
  if bool_decide (1 < length (working l))
  then ∃ vs, apply (hot_enc endpoint_dict) (endpoint <$> rows (dataframe σ1))
               = Return (ndarray <$> vs) ∧
             d1 = attach "OneHotEnc_endpoint" (ndarray <$> vs) (dataframe σ1) ∧
             length vs = len (dataframe σ1) ∧ Forall (λ v, length v = 2) vs
  else d1 = dataframe σ1.
Proof.
  unfold endpoint_stage. case_bool_decide.
  - destruct (apply _ _) as [col|] eqn:Hcol; [|done]. intros [= <- <-]. simpl.
    split; [done|]. split; [done|].
    apply (apply_hot_enc_width _ 2) in Hcol as (vs & -> & Hlen & Hw);
      [|apply endpoint_dict_width].
    exists vs. rewrite length_fmap in Hlen. done.
  - by intros [= <- <-].
Qed.

Lemma effect_stage_exact l σ1 d1 s1 :
  effect_stage l σ1 = (Return d1, s1) →
  dataframe s1 = d1 ∧ lists s1 = lists σ1 ∧
  if bool_decide (1 < length l)
  then ∃ vs, apply (hot_enc (effect_dict l)) (effect <$> rows (dataframe σ1))
               = Return (ndarray <$> vs) ∧
             d1 = attach "OneHotEnc_effect" (ndarray <$> vs) (dataframe σ1) ∧
             length vs = len (dataframe σ1) ∧ Forall (λ v, length v = length l) vs
  else d1 = dataframe σ1.
Proof.
  unfold effect_stage. case_bool_decide.
  - destruct (apply _ _) as [col|] eqn:Hcol; [|done]. intros [= <- <-]. simpl.
    split; [done|]. split; [done|].
    apply (apply_hot_enc_width _ (length l)) in Hcol as (vs & -> & Hlen & Hw);
      [|apply effect_dict_width].
    exists vs. rewrite length_fmap in Hlen. done.
  - by intros [= <- <-].
Qed.

(** A column of Python lists never joins the concatenation: its cells
    have no [tolist] (or, in an empty table, the arrays have no axis 1). *)
Lemma concat_next_pylist df columns temp1 idx name (vs : list (list Z)) :
  columns !! (idx + 1) = Some name →
  getitem name (attached df) = Some (pylist <$> vs) →
  concat_next df columns temp1 idx = temp1.
Proof.
  intros Hname Hcol. unfold concat_next, column_array. rewrite Hname. simpl.
  rewrite Hcol. simpl. destruct vs as [|v vs]; simpl; [|done].
  by destruct temp1.
Qed.

Lemma column_array_pylist_None df name (vs : list (list Z)) :
  vs ≠ [] → getitem name (attached df) = Some (pylist <$> vs) →
  column_array df name = None.
Proof.
  intros Hne Hcol. unfold column_array. rewrite Hcol. simpl.
  by destruct vs.
Qed.

Lemma assemble_only_list df (vs : list (list Z)) :
  filter_like "OneHotEnc" df = ["OneHotEnc_concatenated"] →
  getitem "OneHotEnc_concatenated" (attached df) = Some (pylist <$> vs) →
  length vs = len df →
  assemble df =
    attach "OneHotEnc_concatenated" (pylist <$> np_zeros (len df)) df.
Proof.
  intros Hcols Hcol Hlen. unfold assemble, concatenate_columns. rewrite Hcols. simpl.
  destruct vs as [|v vs].
  - unfold column_array. rewrite Hcol. simpl. unfold concat_next. simpl.
    unfold setitem_list. simpl in *. rewrite <- Hlen. simpl. done.
  - by rewrite (column_array_pylist_None df _ (v :: vs)).
Qed.

Lemma assemble_one_then_list df name vs w (comb : list (list Z)) :
  filter_like "OneHotEnc" df = [name; "OneHotEnc_concatenated"] →
  getitem name (attached df) = Some (ndarray <$> vs) →
  getitem "OneHotEnc_concatenated" (attached df) = Some (pylist <$> comb) →
  Forall (λ v, length v = w) vs → length vs = len df →
  assemble df = attach "OneHotEnc_concatenated" (pylist <$> vs) df.
Proof.
  intros Hcols Hcol HC Hw Hlen. unfold assemble, concatenate_columns.
  rewrite Hcols. simpl.
  rewrite (column_array_ndarray _ _ _ Hcol).
  destruct (np_array_rect vs w Hw) as (a & -> & Ha & _). simpl.
  rewrite (concat_next_pylist df _ a 0 "OneHotEnc_concatenated" comb) by done.
  unfold concat_next at 1. simpl. unfold setitem_list.
  by rewrite Ha, bool_decide_eq_true_2.
Qed.

Lemma assemble_two_then_list df name1 name2 vs1 vs2 w1 w2 (comb : list (list Z)) :
  filter_like "OneHotEnc" df = [name1; name2; "OneHotEnc_concatenated"] →
  getitem name1 (attached df) = Some (ndarray <$> vs1) →
  getitem name2 (attached df) = Some (ndarray <$> vs2) →
  getitem "OneHotEnc_concatenated" (attached df) = Some (pylist <$> comb) →
  Forall (λ v, length v = w1) vs1 → Forall (λ v, length v = w2) vs2 →
  length vs1 = len df → length vs2 = len df →
  assemble df =
    attach "OneHotEnc_concatenated" (pylist <$> zip_with app vs1 vs2) df.
Proof.
  intros Hcols Hcol1 Hcol2 HC Hw1 Hw2 Hlen1 Hlen2.
  unfold assemble, concatenate_columns. rewrite Hcols. simpl.
  rewrite (column_array_ndarray _ _ _ Hcol1).
  destruct (np_array_rect vs1 w1 Hw1) as (a1 & -> & Ha1 & Hshape1). simpl.
  rewrite (concat_next_pylist df _ _ 1 "OneHotEnc_concatenated" comb) by done.
  unfold concat_next at 2. simpl.
  unfold concat_next. simpl.
  rewrite (column_array_ndarray _ _ _ Hcol2).
  destruct (np_array_rect vs2 w2 Hw2) as (a2 & -> & Ha2 & Hshape2). simpl.
  unfold setitem_list.
  destruct Hshape1 as [[-> ->]|[-> Hne1]].
  - simpl in *. by rewrite bool_decide_eq_true_2.
  - destruct Hshape2 as [[-> ->]|[-> Hne2]].
    + simpl in *. destruct vs1; [done|]. unfold len in *. simpl in *. lia.
    + simpl. rewrite (bool_decide_eq_true_2 (length vs1 = length vs2)) by congruence.
      simpl. rewrite bool_decide_eq_true_2; [done|].
      rewrite length_zip_with. lia.
Qed.

(** Assembling an assembled frame changes nothing, for a frame whose
    one-hot columns are what the encoders attached. *)
Lemma assemble_twice df (flagE flagF : bool) (vsE vsF : list (list Z)) wF :
  onehot_part df =
    (if flagE then [("OneHotEnc_endpoint", ndarray <$> vsE)] else []) ++
    (if flagF then [("OneHotEnc_effect", ndarray <$> vsF)] else []) →
  (flagE = true → length vsE = len df ∧ Forall (λ v, length v = 2) vsE) →
  (flagF = true → length vsF = len df ∧ Forall (λ v, length v = wF) vsF) →
  assemble (assemble df) = assemble df.
Proof.
  intros Hatt HE HF. destruct flagE, flagF; simpl in Hatt.
  - destruct (HE eq_refl) as [HlenE HwE]. destruct (HF eq_refl) as [HlenF HwF].
    assert (assemble df =
            attach "OneHotEnc_concatenated" (pylist <$> zip_with app vsE vsF) df)
      as Hassemble.
    { unfold assemble.
      by rewrite (concatenate_columns_two df "OneHotEnc_endpoint" "OneHotEnc_effect"
                    vsE vsF 2 wF);
        [|by rewrite filter_like_onehot_part, Hatt
         |by rewrite getitem_onehot_part, Hatt
         |by rewrite getitem_onehot_part, Hatt
         |done|done|done|done]. }
    rewrite Hassemble.
    rewrite (assemble_two_then_list _ "OneHotEnc_endpoint" "OneHotEnc_effect"
               vsE vsF 2 wF (zip_with app vsE vsF));
      [|rewrite filter_like_onehot_part, onehot_part_attach by done;
        by rewrite Hatt
       |rewrite getitem_onehot_part, onehot_part_attach by done;
        by rewrite Hatt
       |rewrite getitem_onehot_part, onehot_part_attach by done;
        by rewrite Hatt
       |simpl; apply getitem_setitem|done|done|done|done].
    apply attach_same. simpl. apply getitem_setitem.
  - destruct (HE eq_refl) as [HlenE HwE].
    assert (assemble df = attach "OneHotEnc_concatenated" (pylist <$> vsE) df)
      as Hassemble.
    { unfold assemble.
      by rewrite (concatenate_columns_one df "OneHotEnc_endpoint" vsE 2);
        [|by rewrite filter_like_onehot_part, Hatt
         |by rewrite getitem_onehot_part, Hatt|done|done]. }
    rewrite Hassemble.
    rewrite (assemble_one_then_list _ "OneHotEnc_endpoint" vsE 2 vsE);
      [|rewrite filter_like_onehot_part, onehot_part_attach by done;
        by rewrite Hatt
       |rewrite getitem_onehot_part, onehot_part_attach by done;
        by rewrite Hatt
       |simpl; apply getitem_setitem|done|done].
    apply attach_same. simpl. apply getitem_setitem.
  - destruct (HF eq_refl) as [HlenF HwF].
    assert (assemble df = attach "OneHotEnc_concatenated" (pylist <$> vsF) df)
      as Hassemble.
    { unfold assemble.
      by rewrite (concatenate_columns_one df "OneHotEnc_effect" vsF wF);
        [|by rewrite filter_like_onehot_part, Hatt
         |by rewrite getitem_onehot_part, Hatt|done|done]. }
    rewrite Hassemble.
    rewrite (assemble_one_then_list _ "OneHotEnc_effect" vsF wF vsF);
      [|rewrite filter_like_onehot_part, onehot_part_attach by done;
        by rewrite Hatt
       |rewrite getitem_onehot_part, onehot_part_attach by done;
        by rewrite Hatt
       |simpl; apply getitem_setitem|done|done].
    apply attach_same. simpl. apply getitem_setitem.
  - assert (assemble df =
            attach "OneHotEnc_concatenated" (pylist <$> np_zeros (len df)) df)
      as Hassemble.
    { unfold assemble.
      by rewrite concatenate_columns_none
        by (by rewrite filter_like_onehot_part, Hatt). }
    rewrite Hassemble.
    rewrite (assemble_only_list _ (np_zeros (len df)));
      [|rewrite filter_like_onehot_part, onehot_part_attach by done;
        by rewrite Hatt
       |simpl; apply getitem_setitem
       |unfold np_zeros; by rewrite length_replicate].
    apply attach_same. simpl. apply getitem_setitem.
Qed.

Lemma merged_twice l e : merged (working l) (merged l e) = merged l e.
Proof.
  unfold merged. destruct (decide ("EC10" ∈ l)) as [Hin|Hnot].
  - destruct (decide ("EC10" ∈ working l)); [|done].
    destruct (decide (e = "NOEC")); [done|]. by rewrite decide_False.
  - assert (working l = l) as -> by (unfold working; by rewrite decide_False).
    by rewrite decide_False.
Qed.

Lemma endpoint_stage_again l σ vs :
  (1 < length (working l) →
   apply (hot_enc endpoint_dict) (endpoint <$> rows (dataframe σ))
     = Return (ndarray <$> vs) ∧
   getitem "OneHotEnc_endpoint" (attached (dataframe σ)) = Some (ndarray <$> vs)) →
  ∃ s, endpoint_stage l σ = (Return (dataframe σ), s) ∧
       dataframe s = dataframe σ ∧ lists s = lists σ.
Proof.
  intros Hsame. unfold endpoint_stage. case_bool_decide as Hlen.
  - destruct (Hsame Hlen) as [-> Hcol]. rewrite (attach_same _ _ _ Hcol). by eexists.
  - by eexists.
Qed.

Lemma effect_stage_again l σ vs :
  (1 < length l →
   apply (hot_enc (effect_dict l)) (effect <$> rows (dataframe σ))
     = Return (ndarray <$> vs) ∧
   getitem "OneHotEnc_effect" (attached (dataframe σ)) = Some (ndarray <$> vs)) →
  ∃ s, effect_stage l σ = (Return (dataframe σ), s) ∧
       dataframe s = dataframe σ ∧ lists s = lists σ.
Proof.
  intros Hsame. unfold effect_stage. case_bool_decide as Hlen.
  - destruct (Hsame Hlen) as [-> Hcol]. rewrite (attach_same _ _ _ Hcol). by eexists.
  - by eexists.
Qed.

Lemma assemble_rows df : rows (assemble df) = rows df.
Proof. by destruct (assemble_attach df) as [col ->]. Qed.

Lemma assemble_getitem df name :
  name ≠ "OneHotEnc_concatenated" →
  getitem name (attached (assemble df)) = getitem name (attached df).
Proof.
  intros Hne. destruct (assemble_attach df) as [col ->]. simpl.
  by apply getitem_setitem_ne.
Qed.

(** X4. For a table that comes in without a one-hot column (nothing
    attached, or columns of other names only), calling [GetOneHotEnc] a
    second time on the same processor, with the same two (distinct) list
    objects, returns the very table the first call returned: the encoders overwrite their columns with the
    same vectors, and the combined column, although its name matches the
    search for one-hot columns, never enters the concatenation, so the
    combined vectors do not grow. *)
Theorem GetOneHotEnc_again (heap : gmap loc (list string)) (df : DataFrame)
    (re rf : loc) (le lf : list string) (df1 : DataFrame) (σ1 : Store) :
  heap !! re = Some le → heap !! rf = Some lf → re ≠ rf →
  filter_like "OneHotEnc" df = [] →
  GetOneHotEnc re rf (PreProcessDataForInference heap df) = (Return df1, σ1) →
  ∃ σ2, GetOneHotEnc re rf σ1 = (Return df1, σ2).
Proof.
  intros Hle Hlf Hne Hfresh Hrun.
  set (σ0 := PreProcessDataForInference heap df) in *.
  rewrite GetOneHotEnc_eq, (GetOneHotEndpoint_eq σ0 re le Hle) in Hrun.
  destruct (endpoint_stage le (merge_store re le σ0)) as [[d1|e1] s1] eqn:Hs1; [|done].
  apply endpoint_stage_exact in Hs1 as (Hd1 & Hls1 & HE).
  assert (lists s1 !! rf = Some lf) as Hlf1.
  { rewrite Hls1. rewrite (merge_store_effect_labels σ0 re rf le lf Hle Hlf).
    unfold effect_labels. by rewrite decide_False. }
  rewrite (GetOneHotEffect_eq s1 rf lf Hlf1) in Hrun.
  destruct (effect_stage lf s1) as [[d2|e2] s2] eqn:Hs2; [|done].
  apply effect_stage_exact in Hs2 as (Hd2 & Hls2 & HF).
  injection Hrun as <- <-.
  set (m0 := merge_store re le σ0) in *.
  assert (onehot_part (dataframe m0) = []) as Hatt0.
  { rewrite filter_like_onehot_part in Hfresh. apply fmap_nil_inv in Hfresh.
    unfold m0, onehot_part. by rewrite merge_store_attached. }
  (* the frame the encoders left at the first call *)
  assert (∃ (vsE vsF : list (list Z)),
            rows d2 = rows (dataframe m0) ∧
            onehot_part d2 =
              (if bool_decide (1 < length (working le))
               then [("OneHotEnc_endpoint", ndarray <$> vsE)] else []) ++
              (if bool_decide (1 < length lf)
               then [("OneHotEnc_effect", ndarray <$> vsF)] else []) ∧
            (bool_decide (1 < length (working le)) = true →
             apply (hot_enc endpoint_dict) (endpoint <$> rows (dataframe m0))
               = Return (ndarray <$> vsE) ∧
             length vsE = len d2 ∧ Forall (λ v, length v = 2) vsE) ∧
            (bool_decide (1 < length lf) = true →
             apply (hot_enc (effect_dict lf)) (effect <$> rows (dataframe m0))
               = Return (ndarray <$> vsF) ∧
             length vsF = len d2 ∧ Forall (λ v, length v = length lf) vsF))
    as (vsE & vsF & Hrows2 & Hatt2 & HvsE & HvsF).
  { rewrite Hd1 in HF.
    destruct (bool_decide (1 < length (working le)));
      destruct (bool_decide (1 < length lf)).
    - destruct HE as (vsE & HapE & He1 & HlenE & HwE).
      destruct HF as (vsF & HapF & He2 & HlenF & HwF).
      rewrite He1 in He2, HapF, HlenF. rewrite He2.
      exists vsE, vsF. rewrite !onehot_part_attach, Hatt0 by done. simpl.
      split; [done|]. split; [done|]. split; intros _.
      + split; [exact HapE|]. split; [exact HlenE|exact HwE].
      + split; [exact HapF|]. split; [exact HlenF|exact HwF].
    - destruct HE as (vsE & HapE & He1 & HlenE & HwE).
      rewrite HF, He1.
      exists vsE, []. rewrite !onehot_part_attach, Hatt0 by done. simpl.
      split; [done|]. split; [done|]. split; [|done]. intros _.
      split; [exact HapE|]. split; [exact HlenE|exact HwE].
    - destruct HF as (vsF & HapF & He2 & HlenF & HwF).
      rewrite HE in He2, HapF, HlenF. rewrite He2.
      exists [], vsF. rewrite !onehot_part_attach, Hatt0 by done. simpl.
      split; [done|]. split; [done|]. split; [done|]. intros _.
      split; [exact HapF|]. split; [exact HlenF|exact HwF].
    - rewrite HF, HE. exists [], []. rewrite Hatt0. done. }
  rewrite GetOneHotEnc_eq.
  assert (lists (assemble_store s2) !! re = Some (working le)) as Hre1.
  { rewrite assemble_store_lists, Hls2, Hls1. by apply merge_store_lists. }
  rewrite (GetOneHotEndpoint_eq _ re (working le) Hre1).
  set (σ1 := assemble_store s2) in *.
  assert (dataframe σ1 = assemble d2) as Hdf1.
  { unfold σ1. by rewrite assemble_store_dataframe, Hd2. }
  rewrite Hd2.
  (* the second merge changes no row *)
  assert (dataframe (merge_store re (working le) σ1) = assemble d2) as Hm1.
  { unfold merge_store.
    destruct (decide ("EC10" ∈ working le)) as [HEC10|HEC10]; [|done].
    simpl. rewrite Hdf1.
    apply rename_NOEC_id. rewrite assemble_rows, Hrows2.
    unfold m0, merge_store. rewrite decide_True by by apply working_subseteq.
    apply rename_NOEC_no_NOEC. }
  assert (lists (merge_store re (working le) σ1) !! rf = Some lf) as Hrf1.
  { assert (lists σ1 !! rf = Some lf) as Hrf.
    { unfold σ1. by rewrite assemble_store_lists, Hls2. }
    rewrite (merge_store_effect_labels σ1 re rf (working le) lf Hre1 Hrf).
    unfold effect_labels. by rewrite decide_False. }
  destruct (endpoint_stage_again (working le) (merge_store re (working le) σ1) vsE)
    as (s1' & -> & Hds1' & Hls1').
  { intros Hlen. rewrite Hm1, assemble_rows, Hrows2.
    assert (bool_decide (1 < length (working le)) = true) as Hflag.
    { apply bool_decide_eq_true_2. pose proof (working_length (working le)). lia. }
    destruct (HvsE Hflag) as (Hap & _ & _). split; [done|].
    rewrite assemble_getitem, getitem_onehot_part by done.
    by rewrite Hatt2, Hflag. }
  rewrite <- Hls1' in Hrf1.
  rewrite (GetOneHotEffect_eq s1' rf lf Hrf1).
  destruct (effect_stage_again lf s1' vsF) as (s2' & -> & Hds2' & Hls2').
  { intros Hlen. rewrite Hds1', Hm1, assemble_rows, Hrows2.
    assert (bool_decide (1 < length lf) = true) as Hflag
      by by apply bool_decide_eq_true_2.
    destruct (HvsF Hflag) as (Hap & _ & _). split; [done|].
    rewrite assemble_getitem, getitem_onehot_part by done.
    rewrite Hatt2, Hflag.
    by destruct (bool_decide (1 < length (working le))). }
  rewrite Hds2', Hds1', Hm1.
  eexists. f_equal. f_equal.
  apply (assemble_twice d2 _ _ vsE vsF (length lf) Hatt2).
  - intros Hflag. by destruct (HvsE Hflag) as (_ & ? & ?).
  - intros Hflag. by destruct (HvsF Hflag) as (_ & ? & ?).
Qed.

Lemma GetOneHotEnc_again_witness :
  ∃ df1 σ1 σ2,
    GetOneHotEnc 1 2 (PreProcessDataForInference two_label_lists (table two_rows))
      = (Return df1, σ1) ∧
    GetOneHotEnc 1 2 σ1 = (Return df1, σ2).
Proof.
  destruct (GetOneHotEnc 1 2
              (PreProcessDataForInference two_label_lists (table two_rows)))
    as [[df1|e] σ1] eqn:Hrun; [|by vm_compute in Hrun].
  destruct (GetOneHotEnc_again two_label_lists (table two_rows) 1%positive
              2%positive ["EC50"; "EC10"; "NOEC"] ["MOR"; "DVP"] df1 σ1)
    as [σ2 Hagain]; [reflexivity|reflexivity|done|reflexivity|exact Hrun|].
  by exists df1, σ1, σ2.
Defined.

(** ** What a record cannot be built from *)

Lemma getitem_None {V} name (cols : list (string * V)) :
  name ∉ cols.*1 → getitem name cols = None.
Proof.
  induction cols as [|[k c] cols IH]; simpl; [done|].
  rewrite not_elem_of_cons. intros [Hne Hnot]. by rewrite decide_False, IH.
Qed.

(** X9. The dataset fails before it tokenizes anything when the index is
    not a row (an [IndexError]), when no column name was given (an
    [IndexError] as well), and when the first name given is not a column
    of the table (a [KeyError] with that name). *)
Theorem record_errors (encode_plus : value → nat → outcome (list Z * list Z))
    (self : Inference_dataset.t) (idx : nat) :
  ((len (Inference_dataset.df self) ≤ idx)%nat →
   Inference_dataset.__getitem__ encode_plus self idx = Raise IndexError) ∧
  (idx < len (Inference_dataset.df self) →
   Inference_dataset.variables self = [] →
   Inference_dataset.__getitem__ encode_plus self idx = Raise IndexError) ∧
  (∀ name, idx < len (Inference_dataset.df self) →
   Inference_dataset.variables self !! 0 = Some name →
   name ∉ columns (Inference_dataset.df self) →
   Inference_dataset.__getitem__ encode_plus self idx = Raise (KeyError name)).
Proof.
  unfold Inference_dataset.__getitem__, iloc, len. split; [|split].
  - intros Hout. by rewrite lookup_ge_None_2.
  - intros Hin Hvars.
    destruct (lookup_lt_is_Some_2 _ _ Hin) as [row ->]. simpl. by rewrite Hvars.
  - intros name Hin Hname Hnot.
    destruct (lookup_lt_is_Some_2 _ _ Hin) as [row ->]. simpl.
    unfold variable. rewrite Hname. simpl.
    unfold columns in Hnot. rewrite !not_elem_of_app in Hnot.
    destruct Hnot as (Hdata & Hatt).
    unfold row_getitem. simpl.
    rewrite !not_elem_of_cons in Hdata. destruct Hdata as (H1 & H2 & H3 & H4 & _).
    rewrite !decide_False by done.
    rewrite getitem_omap_None; [done| |by apply getitem_None].
    intros [k c] [k' c']. simpl. destruct (c !! idx); simpl; [|done].
    by intros [= <- _].
Qed.

Lemma record_errors_witness :
  Inference_dataset.__getitem__ toy_encode_plus
    (Inference_dataset.__init__ prepared_table
       ["SMILES_Canonicalized_RDKit"; "exposure_duration"; "endpoint"; "effect"]
       100) 1
  = Raise (KeyError "SMILES_Canonicalized_RDKit").
Proof.
  destruct (record_errors toy_encode_plus
              (Inference_dataset.__init__ prepared_table
                 ["SMILES_Canonicalized_RDKit"; "exposure_duration"; "endpoint"; "effect"]
                 100) 1) as (_ & _ & Hkey).
  apply Hkey; [vm_compute; lia|reflexivity|].
  vm_compute. intros Hin.
  by repeat (apply elem_of_cons in Hin as [?|Hin]; [done|]);
    apply elem_of_nil in Hin.
Defined.

(** ** One label per category, as the upload page passes *)

(** X14. With a single endpoint label and a single effect label, which
    is how the upload page of the app calls it, [GetOneHotEnc] on a table
    without a one-hot column (nothing attached, or columns of other
    names only) never raises, whatever labels the rows carry: it
    attaches no indicator column and appends the combined column, which
    gives every row the vector [0]. *)
Theorem single_labels_give_zero_input (heap : gmap loc (list string))
    (df : DataFrame) (re rf : loc) (e f : string) :
  heap !! re = Some [e] → heap !! rf = Some [f] →
  filter_like "OneHotEnc" df = [] →
  ∃ df' σ',
    GetOneHotEnc re rf (PreProcessDataForInference heap df) = (Return df', σ') ∧
    dataframe σ' = df' ∧
    len df' = len df ∧
    attached df' =
      attached df ++
      [("OneHotEnc_concatenated", replicate (len df) (pylist [0%Z]))].
Proof.
  intros Hle Hlf Hfresh.
  set (σ0 := PreProcessDataForInference heap df).
  assert (¬ 1 < length (working [e])) as Hshort.
  { pose proof (working_length [e]). simpl in *. lia. }
  rewrite GetOneHotEnc_eq, (GetOneHotEndpoint_skips σ0 re [e] Hle Hshort).
  set (σ1 := mkStore _ _ _).
  assert (lists σ1 !! rf = Some (effect_labels re rf [e] [f])) as Hlf1.
  { subst σ1. simpl. by apply (merge_store_effect_labels σ0). }
  assert (¬ 1 < length (effect_labels re rf [e] [f])) as Hshort'.
  { unfold effect_labels. case_decide; simpl; lia. }
  rewrite (GetOneHotEffect_skips σ1 rf _ Hlf1 Hshort').
  assert (attached (dataframe (merge_store re [e] σ0)) = attached df) as Hsame.
  { by rewrite merge_store_attached. }
  do 2 eexists. split; [reflexivity|].
  rewrite assemble_store_dataframe. split; [reflexivity|].
  subst σ1. simpl. unfold assemble.
  rewrite concatenate_columns_none by (unfold filter_like; by rewrite Hsame).
  simpl. rewrite Hsame.
  pose proof (merge_store_len σ0 re [e]) as Hlen. unfold len in *. simpl in Hlen.
  rewrite Hlen. split; [done|]. unfold np_zeros. rewrite fmap_replicate.
  apply setitem_fresh.
  rewrite filter_like_onehot_part in Hfresh. apply fmap_nil_inv in Hfresh.
  by rewrite getitem_onehot_part, Hfresh.
Qed.

Lemma single_labels_give_zero_input_witness :
  ∃ df' σ',
    GetOneHotEnc 1 2
      (PreProcessDataForInference
         (<[1%positive := ["EC10"]]> {[2%positive := ["MOR"]]})
         (table (two_rows ++ [mkRow "CC" 24 "LC50" "GRO"])))
      = (Return df', σ') ∧
    attached df' =
      [("OneHotEnc_concatenated", replicate 3 (pylist [0%Z]))].
Proof.
  destruct (single_labels_give_zero_input
              (<[1%positive := ["EC10"]]> {[2%positive := ["MOR"]]})
              (table (two_rows ++ [mkRow "CC" 24 "LC50" "GRO"]))
              1%positive 2%positive "EC10" "MOR")
    as (df' & σ' & Hrun & _ & _ & Hatt); [reflexivity|reflexivity|reflexivity|].
  by exists df', σ'.
Defined.
